(** * api-integration.js: the GEE API client and its orchestration functions

    A shallow embedding of [src/api-integration.js].  JavaScript values are
    an inductive type, strings are sequences of UTF-16 code units, the
    asynchronous functions are computations in a state-and-exception monad
    whose state carries the page's globals, the DOM fields the script reads
    and writes, the map layers and the chronological trace of the effects
    (alerts, loading indicator, network traffic, downloads).  The
    page-load bootstrap and the wiring of the click and change handlers
    only call the functions modelled here. *)

From Stdlib Require Import List NArith ZArith String Ascii Bool Lia Arith.
From Stdlib Require Import DecimalString Decimal DecimalNat DecimalZ.
Import ListNotations.

Set Implicit Arguments.

(* ================================================================== *)
(** * JavaScript strings *)
(* ================================================================== *)

(** A JavaScript string is a sequence of UTF-16 code units. *)
Definition code_unit := N.
Definition jsstring := list code_unit.

(** The code units of an ASCII literal of the source. *)
Definition lit (s : string) : jsstring :=
  map N_of_ascii (list_ascii_of_string s).

Arguments lit : simpl never.

Fixpoint jsstring_eqb (a b : jsstring) : bool :=
  match a, b with
  | [], [] => true
  | x :: a', y :: b' => N.eqb x y && jsstring_eqb a' b'
  | _, _ => false
  end.

(** [Array.prototype.join]: the pieces separated by [sep]. *)
Fixpoint join (sep : jsstring) (parts : list jsstring) : jsstring :=
  match parts with
  | [] => []
  | [p] => p
  | p :: rest => p ++ sep ++ join sep rest
  end.

(** Decimal digits of an integer, as [Number::toString] prints it. *)
Definition decimal_of_Z (z : Z) : jsstring :=
  lit (NilZero.string_of_int (Z.to_int z)).

Definition decimal_of_nat (n : nat) : jsstring :=
  lit (NilZero.string_of_uint (Nat.to_uint n)).

(** What the class [\s] of a regular expression matches: the white space
    and the line terminators of ECMAScript. *)
Definition is_whitespace (c : code_unit) : bool :=
  ((9 <=? c) && (c <=? 13) || N.eqb c 32 || N.eqb c 160 || N.eqb c 5760
   || (8192 <=? c) && (c <=? 8202) || N.eqb c 8232 || N.eqb c 8233
   || N.eqb c 8239 || N.eqb c 8287 || N.eqb c 12288 || N.eqb c 65279)%N.

(** The characters a JSON number token is made of. *)
Definition is_digit (c : code_unit) : bool := (48 <=? c)%N && (c <=? 57)%N.

Definition is_number_char (c : code_unit) : bool :=
  is_digit c || N.eqb c 45 || N.eqb c 43 || N.eqb c 46 || N.eqb c 101 || N.eqb c 69.

Definition is_number_start (c : code_unit) : bool := is_digit c || N.eqb c 45.

Definition is_number_token (t : jsstring) : bool :=
  match t with
  | [] => false
  | c :: _ => is_number_start c && forallb is_number_char t
  end.

(* ================================================================== *)
(** * JavaScript numbers *)
(* ================================================================== *)

(** Numbers are IEEE doubles in JavaScript.  The script never computes
    with them: it tests them for truthiness, prints them and passes them
    on.  The development is therefore generic in the number type and asks
    only for the operations the script uses and for the facts about
    printing that ECMAScript guarantees. *)
Class JsNumber := {
  number : Type;
  (** [ToBoolean]: false on zero and NaN. *)
  number_truthy : number -> bool;
  (** Finite, that is neither NaN nor an infinity. *)
  number_is_finite : number -> bool;
  (** [Number::toString]. *)
  number_to_string : number -> jsstring;
  (** The number an integer literal of the source denotes. *)
  number_of_Z : Z -> number;
  (** The global [parseInt] on a string. *)
  parseInt : jsstring -> number;
  (** The value of a JSON number token, when it is one. *)
  json_to_number : jsstring -> option number;
  (** Safe integers print as their decimal digits. *)
  number_to_string_of_Z : forall z : Z,
    (Z.abs z <= 2 ^ 53)%Z -> number_to_string (number_of_Z z) = decimal_of_Z z;
  (** A finite number prints as a token that JSON reads back as a number. *)
  number_token : forall n : number,
    number_is_finite n = true ->
    is_number_token (number_to_string n) = true /\
    json_to_number (number_to_string n) <> None
}.

(* ================================================================== *)
(** * JavaScript values *)
(* ================================================================== *)

Section Values.
Context {NUM : JsNumber}.

(** Plain data: what [JSON.parse] produces, plus [undefined].  An object
    is the list of its own properties in property order. *)
#[warnings="-register-all"]
Inductive JsVal : Type :=
| JUndefined
| JNull
| JBool (b : bool)
| JNum (n : number)
| JStr (s : jsstring)
| JArr (items : list JsVal)
| JObj (props : list (jsstring * JsVal)).

(** [ToBoolean]. *)
Definition truthy (v : JsVal) : bool :=
  match v with
  | JUndefined | JNull => false
  | JBool b => b
  | JNum n => number_truthy n
  | JStr s => match s with [] => false | _ => true end
  | JArr _ | JObj _ => true
  end.

(** [a || b]. *)
Definition js_or (a b : JsVal) : JsVal := if truthy a then a else b.

(** [ToString] on plain data on which the conversion completes; [prints],
    below, tells when it does. *)
Fixpoint to_string (v : JsVal) : jsstring :=
  match v with
  | JUndefined => lit "undefined"
  | JNull => lit "null"
  | JBool true => lit "true"
  | JBool false => lit "false"
  | JNum n => number_to_string n
  | JStr s => s
  | JArr items =>
      join (lit ",")
        ((fix each (l : list JsVal) : list jsstring :=
            match l with
            | [] => []
            | JUndefined :: r => [] :: each r
            | JNull :: r => [] :: each r
            | x :: r => to_string x :: each r
            end) items)
  | JObj _ => lit "[object Object]"
  end.

(** [v === 'literal']. *)
Definition is_string (v : JsVal) (s : jsstring) : bool :=
  match v with
  | JStr t => jsstring_eqb t s
  | _ => false
  end.

Fixpoint lookup (k : jsstring) (props : list (jsstring * JsVal)) : option JsVal :=
  match props with
  | [] => None
  | (k', v) :: rest => if jsstring_eqb k' k then Some v else lookup k rest
  end.

(** [v.k] on a value that is neither [null] nor [undefined], for a name [k]
    that is no built-in property of strings, numbers, booleans or arrays
    (the script reads [error], [indices], [rgb_tile_url],
    [collection_size], [ee_initialized] and [Content-Type]). *)
Definition get_prop (v : JsVal) (k : jsstring) : JsVal :=
  match v with
  | JObj props => match lookup k props with Some x => x | None => JUndefined end
  | _ => JUndefined
  end.

(** [v?.k]. *)
Definition get_prop_opt (v : JsVal) (k : jsstring) : JsVal :=
  match v with
  | JUndefined | JNull => JUndefined
  | _ => get_prop v k
  end.

(** Whether [ToString] completes on plain data.  [ToPrimitive] asks the
    value for a callable [toString] and for a callable [valueOf] that
    gives a primitive (in this order for a template literal, in the other
    for [+]).  Plain data holds nothing callable, so an object prints
    through the inherited [Object.prototype.toString], unless it has an
    own member named [toString]: that member hides the inherited method,
    and the conversion throws a [TypeError].  An array prints its
    elements, [null] and [undefined] as the empty string. *)
Fixpoint prints (v : JsVal) : bool :=
  match v with
  | JArr items =>
      (fix each (l : list JsVal) : bool :=
         match l with
         | [] => true
         | x :: r => prints x && each r
         end) items
  | JObj props =>
      match lookup (lit "toString") props with
      | Some _ => false
      | None => true
      end
  | _ => true
  end.

(** [o.k = x] on the property list of an object: an existing property
    keeps its place, a new one goes last. *)
Fixpoint assign (k : jsstring) (x : JsVal) (props : list (jsstring * JsVal))
  : list (jsstring * JsVal) :=
  match props with
  | [] => [(k, x)]
  | (k', v) :: rest =>
      if jsstring_eqb k' k then (k', x) :: rest else (k', v) :: assign k x rest
  end.

Definition set_prop (o : JsVal) (k : jsstring) (x : JsVal) : JsVal :=
  match o with
  | JObj props => JObj (assign k x props)
  | _ => o
  end.

(** [Object.keys(o).length]. *)
Definition keys_length (o : JsVal) : nat :=
  match o with
  | JObj props => List.length props
  | JArr items => List.length items
  | JStr s => List.length s
  | _ => 0
  end.

Fixpoint indexed {A : Type} (i : nat) (l : list A) : list (jsstring * A) :=
  match l with
  | [] => []
  | x :: r => (decimal_of_nat i, x) :: indexed (S i) r
  end.

(** [Object.entries(v)]; [None] where JavaScript throws a [TypeError]
    ([null] and [undefined] have no properties). *)
Definition object_entries (v : JsVal) : option (list (jsstring * JsVal)) :=
  match v with
  | JUndefined | JNull => None
  | JObj props => Some props
  | JArr items => Some (indexed 0 items)
  | JStr s => Some (indexed 0 (map (fun c => JStr [c]) s))
  | JBool _ | JNum _ => Some []
  end.

(* ------------------------------------------------------------------ *)
(** ** JSON.stringify *)

Local Open Scope N_scope.

Definition hex_digit (n : N) : code_unit :=
  if (n <? 10)%N then (48 + n)%N else (87 + n)%N.

(** [UnicodeEscape]: a backslash, [u] and four lowercase hexadecimal digits. *)
Definition unicode_escape (c : code_unit) : jsstring :=
  [92; 117; hex_digit ((c / 4096) mod 16); hex_digit ((c / 256) mod 16);
   hex_digit ((c / 16) mod 16); hex_digit (c mod 16)]%N.

Definition is_high_surrogate (c : code_unit) : bool :=
  (55296 <=? c)%N && (c <=? 56319)%N.
Definition is_low_surrogate (c : code_unit) : bool :=
  (56320 <=? c)%N && (c <=? 57343)%N.

(** One code unit that is not part of a surrogate pair. *)
Definition quote_unit (c : code_unit) : jsstring :=
  if N.eqb c 8 then [92; 98]
  else if N.eqb c 9 then [92; 116]
  else if N.eqb c 10 then [92; 110]
  else if N.eqb c 12 then [92; 102]
  else if N.eqb c 13 then [92; 114]
  else if N.eqb c 34 then [92; 34]
  else if N.eqb c 92 then [92; 92]
  else if (c <? 32)%N || is_high_surrogate c || is_low_surrogate c
       then unicode_escape c
  else [c].

(** The characters of [QuoteJSONString] between the quotes: a surrogate
    pair is copied, a lone surrogate is escaped. *)
Fixpoint quote_units (s : jsstring) : jsstring :=
  match s with
  | [] => []
  | c :: t =>
      match t with
      | d :: t' =>
          if is_high_surrogate c && is_low_surrogate d
          then c :: d :: quote_units t'
          else quote_unit c ++ quote_units t
      | [] => quote_unit c
      end
  end.

Definition quote_json_string (s : jsstring) : jsstring :=
  [34%N] ++ quote_units s ++ [34%N].

(** The brackets of [SerializeJSONObject] and [SerializeJSONArray] around
    the serialised members [parts]; [indent] is the indentation of the
    enclosing line and [gap] the unit of indentation. *)
Definition bracket (open close : code_unit) (gap indent : jsstring)
  (parts : list jsstring) : jsstring :=
  match parts with
  | [] => [open; close]
  | _ =>
      match gap with
      | [] => [open] ++ join (lit ",") parts ++ [close]
      | _ =>
          [open; 10%N] ++ (indent ++ gap)
            ++ join ([44%N; 10%N] ++ indent ++ gap) parts
            ++ [10%N] ++ indent ++ [close]
      end
  end.

Definition colon (gap : jsstring) : jsstring :=
  match gap with [] => [58%N] | _ => [58%N; 32%N] end.

(** [SerializeJSONProperty]; [None] is JavaScript's [undefined]. *)
Fixpoint serialize (gap indent : jsstring) (v : JsVal) {struct v} : option jsstring :=
  match v with
  | JUndefined => None
  | JNull => Some (lit "null")
  | JBool true => Some (lit "true")
  | JBool false => Some (lit "false")
  | JNum n => Some (if number_is_finite n then number_to_string n else lit "null")
  | JStr s => Some (quote_json_string s)
  | JArr items =>
      Some (bracket 91 93 gap indent
        ((fix each (l : list JsVal) : list jsstring :=
            match l with
            | [] => []
            | x :: r =>
                match serialize gap (indent ++ gap) x with
                | Some t => t
                | None => lit "null"
                end :: each r
            end) items))
  | JObj props =>
      Some (bracket 123 125 gap indent
        ((fix each (l : list (jsstring * JsVal)) : list jsstring :=
            match l with
            | [] => []
            | (k, x) :: r =>
                match serialize gap (indent ++ gap) x with
                | Some t => (quote_json_string k ++ colon gap ++ t) :: each r
                | None => each r
                end
            end) props))
  end.

(** [JSON.stringify(v)]. *)
Definition JSON_stringify (v : JsVal) : option jsstring := serialize [] [] v.

(** [JSON.stringify(v, null, 2)]. *)
Definition JSON_stringify_2 (v : JsVal) : option jsstring :=
  serialize (lit "  ") [] v.

(* ------------------------------------------------------------------ *)
(** ** JSON.parse *)

Definition is_json_space (c : code_unit) : bool :=
  N.eqb c 32 || N.eqb c 9 || N.eqb c 10 || N.eqb c 13.

Fixpoint skip_space (s : jsstring) : jsstring :=
  match s with
  | [] => []
  | c :: t => if is_json_space c then skip_space t else s
  end.

Definition hex_value (c : code_unit) : option N :=
  if is_digit c then Some (c - 48)
  else if (97 <=? c) && (c <=? 102) then Some (c - 87)
  else if (65 <=? c) && (c <=? 70) then Some (c - 55)
  else None.

(** The character a backslash and [c] stand for, [\u] apart. *)
Definition unescape (c : code_unit) : option code_unit :=
  if N.eqb c 34 then Some 34
  else if N.eqb c 92 then Some 92
  else if N.eqb c 47 then Some 47
  else if N.eqb c 98 then Some 8
  else if N.eqb c 102 then Some 12
  else if N.eqb c 110 then Some 10
  else if N.eqb c 114 then Some 13
  else if N.eqb c 116 then Some 9
  else None.

(** A string token after its opening quote: the string it denotes and the
    text after the closing quote. *)
Fixpoint parse_string_tail (s : jsstring) : option (jsstring * jsstring) :=
  match s with
  | [] => None
  | c :: t =>
      if N.eqb c 34 then Some ([], t)
      else if N.eqb c 92 then
        match t with
        | [] => None
        | e :: t' =>
            if N.eqb e 117 then
              match t' with
              | h1 :: h2 :: h3 :: h4 :: t'' =>
                  match hex_value h1, hex_value h2, hex_value h3, hex_value h4 with
                  | Some a, Some b, Some c', Some d =>
                      match parse_string_tail t'' with
                      | Some (str, rest) =>
                          Some ((a * 4096 + b * 256 + c' * 16 + d) :: str, rest)
                      | None => None
                      end
                  | _, _, _, _ => None
                  end
              | _ => None
              end
            else
              match unescape e with
              | Some u =>
                  match parse_string_tail t' with
                  | Some (str, rest) => Some (u :: str, rest)
                  | None => None
                  end
              | None => None
              end
        end
      else if c <? 32 then None
      else
        match parse_string_tail t with
        | Some (str, rest) => Some (c :: str, rest)
        | None => None
        end
  end.

Fixpoint strip_prefix (p s : jsstring) : option jsstring :=
  match p with
  | [] => Some s
  | a :: p' =>
      match s with
      | [] => None
      | b :: s' => if N.eqb a b then strip_prefix p' s' else None
      end
  end.

(** The longest prefix made of number characters, and what follows it. *)
Fixpoint span_number (s : jsstring) : jsstring * jsstring :=
  match s with
  | [] => ([], [])
  | c :: t =>
      if is_number_char c
      then let (tok, rest) := span_number t in (c :: tok, rest)
      else ([], s)
  end.

(** The object a sequence of members denotes: a repeated key keeps its
    first place and its last value. *)
Definition build (members : list (jsstring * JsVal)) : list (jsstring * JsVal) :=
  fold_left (fun acc m => assign (fst m) (snd m) acc) members [].

(** A recursive-descent reader of the JSON grammar.  [fuel] bounds the
    nesting and the number of members read; the length of the text is
    always enough. *)
Fixpoint parse_value (fuel : nat) (s : jsstring) {struct fuel}
  : option (JsVal * jsstring) :=
  match fuel with
  | O => None
  | S fuel =>
      match skip_space s with
      | [] => None
      | c :: t =>
          if N.eqb c 34 then
            match parse_string_tail t with
            | Some (str, rest) => Some (JStr str, rest)
            | None => None
            end
          else if N.eqb c 91 then
            match skip_space t with
            | [] => None
            | d :: rest =>
                if N.eqb d 93 then Some (JArr [], rest)
                else
                  match parse_elements fuel t with
                  | Some (items, rest') => Some (JArr items, rest')
                  | None => None
                  end
            end
          else if N.eqb c 123 then
            match skip_space t with
            | [] => None
            | d :: rest =>
                if N.eqb d 125 then Some (JObj [], rest)
                else
                  match parse_members fuel t with
                  | Some (members, rest') => Some (JObj (build members), rest')
                  | None => None
                  end
            end
          else if is_number_start c then
            let (tok, rest) := span_number (c :: t) in
            match json_to_number tok with
            | Some n => Some (JNum n, rest)
            | None => None
            end
          else
            match strip_prefix (lit "true") (c :: t) with
            | Some rest => Some (JBool true, rest)
            | None =>
                match strip_prefix (lit "false") (c :: t) with
                | Some rest => Some (JBool false, rest)
                | None =>
                    match strip_prefix (lit "null") (c :: t) with
                    | Some rest => Some (JNull, rest)
                    | None => None
                    end
                end
            end
      end
  end

with parse_elements (fuel : nat) (s : jsstring) {struct fuel}
  : option (list JsVal * jsstring) :=
  match fuel with
  | O => None
  | S fuel =>
      match parse_value fuel s with
      | None => None
      | Some (v, rest) =>
          match skip_space rest with
          | [] => None
          | d :: rest' =>
              if N.eqb d 44 then
                match parse_elements fuel rest' with
                | Some (vs, rest'') => Some (v :: vs, rest'')
                | None => None
                end
              else if N.eqb d 93 then Some ([v], rest')
              else None
          end
      end
  end

with parse_members (fuel : nat) (s : jsstring) {struct fuel}
  : option (list (jsstring * JsVal) * jsstring) :=
  match fuel with
  | O => None
  | S fuel =>
      match skip_space s with
      | [] => None
      | q :: t =>
          if N.eqb q 34 then
            match parse_string_tail t with
            | None => None
            | Some (k, rest) =>
                match skip_space rest with
                | [] => None
                | c :: rest1 =>
                    if N.eqb c 58 then
                      match parse_value fuel rest1 with
                      | None => None
                      | Some (v, rest2) =>
                          match skip_space rest2 with
                          | [] => None
                          | d :: rest3 =>
                              if N.eqb d 44 then
                                match parse_members fuel rest3 with
                                | Some (ms, rest4) => Some ((k, v) :: ms, rest4)
                                | None => None
                                end
                              else if N.eqb d 125 then Some ([(k, v)], rest3)
                              else None
                          end
                      end
                    else None
                end
            end
          else None
      end
  end.

(** [JSON.parse(text)]; [None] where JavaScript throws a [SyntaxError]. *)
Definition JSON_parse (text : jsstring) : option JsVal :=
  match parse_value (S (List.length text)) text with
  | Some (v, rest) =>
      match skip_space rest with
      | [] => Some v
      | _ => None
      end
  | None => None
  end.

Local Close Scope N_scope.

(* ------------------------------------------------------------------ *)
(** ** The image of a value under JSON *)

Definition is_undefined (v : JsVal) : bool :=
  match v with JUndefined => true | _ => false end.

(** What [JSON.stringify] writes for an array element: [undefined] goes
    out as [null]. *)
Definition element (x : JsVal) : JsVal :=
  match x with JUndefined => JNull | _ => x end.

(** The properties [JSON.stringify] writes: those whose value is not
    [undefined]. *)
Definition defined_props (props : list (jsstring * JsVal)) : list (jsstring * JsVal) :=
  filter (fun kv => negb (is_undefined (snd kv))) props.

(** The value [JSON.parse(JSON.stringify(v))] yields for a [v] other than
    [undefined]: a number that is not finite becomes [null], a finite one
    is read back from its digits, an [undefined] array element becomes
    [null] and an [undefined] property disappears. *)
Fixpoint json_image (v : JsVal) : JsVal :=
  match v with
  | JNum n =>
      if number_is_finite n
      then match json_to_number (number_to_string n) with
           | Some m => JNum m
           | None => JNull
           end
      else JNull
  | JArr items =>
      JArr ((fix each (l : list JsVal) : list JsVal :=
               match l with
               | [] => []
               | x :: r =>
                   match x with
                   | JUndefined => JNull
                   | _ => json_image x
                   end :: each r
               end) items)
  | JObj props =>
      JObj (build
        ((fix each (l : list (jsstring * JsVal)) : list (jsstring * JsVal) :=
            match l with
            | [] => []
            | (k, x) :: r =>
                match x with
                | JUndefined => each r
                | _ => (k, json_image x) :: each r
                end
            end) props))
  | _ => v
  end.

End Values.

(* ================================================================== *)
(** * The page: globals, DOM, map, network and effects *)
(* ================================================================== *)

Section Page.
Context {NUM : JsNumber}.

(** The double quote, which the markup and JSON literals of the source contain. *)
Definition dq : jsstring := [34%N].

(** ** Configuration *)

Record ApiConfig := {
  baseURL : jsstring;
  timeout : Z;
  retries : Z
}.

Definition API_CONFIG : ApiConfig := {|
  baseURL := lit "http://localhost:5000/api";
  timeout := 120000;
  retries := 3
|}.

(** ** The network, as [$.ajax] shows it *)

(** The settings object handed to [$.ajax]. *)
Record AjaxSettings := {
  ajax_url : jsstring;
  ajax_method : jsstring;
  ajax_data : option jsstring;
  ajax_contentType : JsVal;
  ajax_timeout : JsVal;
  ajax_dataType : jsstring
}.

(** The jqXHR object a failed call is rejected with: jQuery sets
    [responseJSON] when the body of the reply was JSON and always sets
    [statusText] to a string. *)
Record JqXHR := {
  responseJSON : JsVal;
  statusText : jsstring
}.

Inductive AjaxOutcome :=
| Resolved (response : JsVal)
| Rejected (xhr : JqXHR).

(** What a [catch] clause can receive. *)
Inductive Exn :=
| TypeError (message : jsstring)
| AjaxError (xhr : JqXHR).

(** [error.responseJSON] and [error.statusText] on a caught value. *)
Definition exn_responseJSON (e : Exn) : JsVal :=
  match e with
  | AjaxError xhr => responseJSON xhr
  | TypeError _ => JUndefined
  end.

Definition exn_statusText (e : Exn) : JsVal :=
  match e with
  | AjaxError xhr => JStr (statusText xhr)
  | TypeError _ => JUndefined
  end.

(** ** The map *)

(** A Leaflet [LatLngBounds], read through [getWest] and its siblings. *)
Record Bounds := {
  getWest : number;
  getSouth : number;
  getEast : number;
  getNorth : number
}.

Inductive Layer :=
| GeoJsonLayer (geojson : JsVal)
| DrawnLayer (bounds : Bounds).

(** ** The area of interest *)

Record AOI := {
  aoi_type : jsstring;
  aoi_name : jsstring;
  aoi_geometry : Bounds;
  aoi_area : JsVal;
  aoi_geojson : JsVal
}.

(** ** The DOM fields the script reads and writes *)

Record Dom := {
  yearValue_text : jsstring;
  startMonth_val : JsVal;
  endMonth_val : JsVal;
  cloudValue_text : jsstring;
  analysisType_val : JsVal;
  dwMode_val : JsVal;
  dynamicWorld_checked : bool;
  esaWorld_checked : bool;
  esriLand_checked : bool;
  provinceSelect_selected_text : jsstring;
  citySelect_selected_text : jsstring;
  provinceSelect_html : jsstring;
  citySelect_html : jsstring
}.

(** ** Observable effects, in the order they happen *)

Inductive Event :=
| EvShowLoading (title subtitle : jsstring)
| EvHideLoading
| EvShowAlert (message severity : jsstring)
| EvAjaxSend (settings : AjaxSettings)
| EvAjaxSettle (outcome : AjaxOutcome)
| EvConsoleError (label : jsstring) (error : Exn)
| EvFitBounds (bounds : Bounds)
| EvShowAOIInfo
| EvDisplayResults
| EvScrollToResults
| EvDownload (filename href : jsstring)
| EvCreateObjectURL (content mime : jsstring)
| EvRevokeObjectURL (href : jsstring).

(** ** The state of the page *)

Record State := {
  currentAOI : option AOI;
  analysisResults : JsVal;
  selectedIndices : JsVal;
  dom : Dom;
  drawnItems : list Layer;
  (** the outcome of the n-th network call, counted from 0 *)
  network : nat -> AjaxOutcome;
  (** the time value of the n-th [new Date()] *)
  clock : nat -> Z;
  clock_reads : nat;
  (** the object URL the browser hands out for the n-th blob *)
  object_url : nat -> jsstring;
  trace : list Event
}.

Definition with_trace (t : list Event) (st : State) : State :=
  {| currentAOI := currentAOI st; analysisResults := analysisResults st;
     selectedIndices := selectedIndices st; dom := dom st;
     drawnItems := drawnItems st; network := network st; clock := clock st;
     clock_reads := clock_reads st; object_url := object_url st; trace := t |}.

Definition with_currentAOI (a : option AOI) (st : State) : State :=
  {| currentAOI := a; analysisResults := analysisResults st;
     selectedIndices := selectedIndices st; dom := dom st;
     drawnItems := drawnItems st; network := network st; clock := clock st;
     clock_reads := clock_reads st; object_url := object_url st; trace := trace st |}.

Definition with_analysisResults (r : JsVal) (st : State) : State :=
  {| currentAOI := currentAOI st; analysisResults := r;
     selectedIndices := selectedIndices st; dom := dom st;
     drawnItems := drawnItems st; network := network st; clock := clock st;
     clock_reads := clock_reads st; object_url := object_url st; trace := trace st |}.

Definition with_dom (d : Dom) (st : State) : State :=
  {| currentAOI := currentAOI st; analysisResults := analysisResults st;
     selectedIndices := selectedIndices st; dom := d;
     drawnItems := drawnItems st; network := network st; clock := clock st;
     clock_reads := clock_reads st; object_url := object_url st; trace := trace st |}.

Definition with_drawnItems (l : list Layer) (st : State) : State :=
  {| currentAOI := currentAOI st; analysisResults := analysisResults st;
     selectedIndices := selectedIndices st; dom := dom st;
     drawnItems := l; network := network st; clock := clock st;
     clock_reads := clock_reads st; object_url := object_url st; trace := trace st |}.

Definition with_clock_reads (n : nat) (st : State) : State :=
  {| currentAOI := currentAOI st; analysisResults := analysisResults st;
     selectedIndices := selectedIndices st; dom := dom st;
     drawnItems := drawnItems st; network := network st; clock := clock st;
     clock_reads := n; object_url := object_url st; trace := trace st |}.

(** ** Computations: state and exceptions *)

Inductive Completion (A : Type) :=
| Normal (a : A)
| Throw (e : Exn).
Arguments Normal {A} a.
Arguments Throw {A} e.

Definition M (A : Type) : Type := State -> Completion A * State.

Definition ret {A} (a : A) : M A := fun st => (Normal a, st).

Definition bind {A B} (m : M A) (k : A -> M B) : M B :=
  fun st =>
    match m st with
    | (Normal a, st') => k a st'
    | (Throw e, st') => (Throw e, st')
    end.

Definition throw {A} (e : Exn) : M A := fun st => (Throw e, st).

(** [try { body } catch (error) { handler }]. *)
Definition try_catch {A} (body : M A) (handler : Exn -> M A) : M A :=
  fun st =>
    match body st with
    | (Normal a, st') => (Normal a, st')
    | (Throw e, st') => handler e st'
    end.

Definition get {A} (f : State -> A) : M A := fun st => (Normal (f st), st).
Definition modify (f : State -> State) : M unit := fun st => (Normal tt, f st).

Definition emit (e : Event) : M unit :=
  modify (fun st => with_trace (trace st ++ [e]) st).

End Page.

Arguments Normal {NUM A} a.
Arguments Throw {NUM A} e.

Declare Scope js_scope.
Delimit Scope js_scope with js.
Notation "x <- m ;; k" := (bind m (fun x => k))
  (at level 61, m at next level, right associativity) : js_scope.
Notation "m ;; k" := (bind m (fun _ => k))
  (at level 61, right associativity) : js_scope.
(* ================================================================== *)
(** * Integers as numbers *)
(* ================================================================== *)

(** An instance of [JsNumber] for concrete runs: the integers, and NaN as
    [None].  It covers the numbers whose digits the runs below show. *)

Definition is_integer_token (t : jsstring) : bool :=
  match t with
  | [] => false
  | c :: r =>
      if N.eqb c 45
      then match r with [] => false | _ => forallb is_digit r end
      else forallb is_digit t
  end.

Fixpoint digits_value (acc : N) (t : jsstring) : N :=
  match t with
  | [] => acc
  | c :: r => digits_value (acc * 10 + (c - 48)) r
  end.

Definition integer_value (t : jsstring) : Z :=
  match t with
  | [] => 0%Z
  | c :: r =>
      if N.eqb c 45 then (- Z.of_N (digits_value 0 r))%Z
      else Z.of_N (digits_value 0 t)
  end.

Fixpoint leading_digits (t : jsstring) : jsstring :=
  match t with
  | [] => []
  | c :: r => if is_digit c then c :: leading_digits r else []
  end.

Fixpoint trim_start (t : jsstring) : jsstring :=
  match t with
  | [] => []
  | c :: r => if is_whitespace c then trim_start r else t
  end.

(** [parseInt] on decimal text: leading white space, a sign, digits. *)
Definition int_parseInt (s : jsstring) : option Z :=
  match trim_start s with
  | [] => None
  | c :: r =>
      if N.eqb c 45 then
        match leading_digits r with
        | [] => None
        | ds => Some (- Z.of_N (digits_value 0 ds))%Z
        end
      else
        match leading_digits (if N.eqb c 43 then r else c :: r) with
        | [] => None
        | ds => Some (Z.of_N (digits_value 0 ds))
        end
  end.

Lemma uint_digits (d : uint) :
  forallb is_digit (lit (NilEmpty.string_of_uint d)) = true.
Proof. induction d; simpl; auto. Qed.

Lemma decimal_of_Z_integer_token (z : Z) : is_integer_token (decimal_of_Z z) = true.
Proof.
  unfold decimal_of_Z.
  assert (U : forall d, exists c r,
             lit (NilZero.string_of_uint d) = c :: r /\
             forallb is_digit (c :: r) = true /\ N.eqb c 45 = false).
  { intros d. pose proof (uint_digits d) as D.
    destruct d; simpl in *;
      eexists _, _; (split; [reflexivity|]); (split; [exact D|reflexivity]). }
  destruct (Z.to_int z) as [d|d]; simpl NilZero.string_of_int.
  - destruct (U d) as (c & r & E & D & M). rewrite E. simpl. rewrite M. exact D.
  - destruct (U d) as (c & r & E & D & M).
    change (lit (String "-" (NilZero.string_of_uint d)))
      with (45%N :: lit (NilZero.string_of_uint d)).
    rewrite E. exact D.
Qed.

Lemma integer_token_number_token (t : jsstring) :
  is_integer_token t = true -> is_number_token t = true.
Proof.
  assert (D : forall l, forallb is_digit l = true -> forallb is_number_char l = true).
  { induction l as [|c l IH]; simpl; [reflexivity|]. intros H.
    apply andb_prop in H. destruct H as [H1 H2].
    rewrite (IH H2). unfold is_number_char. rewrite H1. reflexivity. }
  destruct t as [|c r]; simpl; [discriminate|].
  unfold is_number_start. destruct (N.eqb_spec c 45) as [->|N].
  - destruct r as [|d r]; [discriminate|]. intros H.
    rewrite (D _ H). reflexivity.
  - intros H. apply andb_prop in H. destruct H as [H1 H2].
    rewrite (D _ H2), H1. unfold is_number_char. rewrite H1. reflexivity.
Qed.

Definition int_number : JsNumber.
Proof.
  refine {|
    number := option Z;
    number_truthy := fun n => match n with Some z => negb (Z.eqb z 0) | None => false end;
    number_is_finite := fun n => match n with Some _ => true | None => false end;
    number_to_string := fun n => match n with Some z => decimal_of_Z z | None => lit "NaN" end;
    number_of_Z := fun z => Some z;
    parseInt := int_parseInt;
    json_to_number := fun t =>
      if is_integer_token t then Some (Some (integer_value t)) else None |}.
  - intros z _. reflexivity.
  - intros [z|] F; [|discriminate]. split.
    + apply integer_token_number_token, decimal_of_Z_integer_token.
    + rewrite decimal_of_Z_integer_token. discriminate.
Defined.

Local Open Scope js_scope.

(* ================================================================== *)
(** * The script *)
(* ================================================================== *)

Section Script.
Context {NUM : JsNumber}.

(** The bounds Leaflet computes for a GeoJSON layer, and the page's
    [calculateAreaFromBounds], which is defined outside this script. *)
Variable geoJSON_getBounds : JsVal -> Bounds.
Variable calculateAreaFromBounds : Bounds -> JsVal.
(** [Date.prototype.toISOString] on a time value. *)
Variable toISOString : Z -> jsstring.

(** ** Helpers of the page and of the browser *)

(** Modelled from the spec: [showLoading] is a function of the page defined
    outside this script; it shows the loading indicator with a title and
    a subtitle. *)
Definition showLoading (title subtitle : jsstring) : M unit :=
  emit (EvShowLoading title subtitle).

(** Modelled from the spec: [hideLoading] is a function of the page defined
    outside this script; it hides the loading indicator. *)
Definition hideLoading : M unit := emit EvHideLoading.

(** Modelled from the spec: [showAlert] is a function of the page defined
    outside this script; it shows a dismissible alert with a severity tag. *)
Definition showAlert (message severity : jsstring) : M unit :=
  emit (EvShowAlert message severity).

(** Modelled from the spec: [showAOIInfo] is a function of the page defined
    outside this script; it refreshes the panel that describes the AOI. *)
Definition showAOIInfo : M unit := emit EvShowAOIInfo.

(** Modelled from the spec: [displayResults] is a function of the page
    defined outside this script; it renders the accumulated results. *)
Definition displayResults : M unit := emit EvDisplayResults.

Definition console_error (label : jsstring) (error : Exn) : M unit :=
  emit (EvConsoleError label error).

(** The [TypeError] of a [ToPrimitive] that finds nothing to call. *)
Definition conversion_error : Exn :=
  TypeError (lit "Cannot convert object to primitive value").

(** [`${v}`] and ['...' + v]: the string of [v], or the [TypeError] of the
    conversion. *)
Definition ToString (v : JsVal) : M jsstring :=
  if prints v then ret (to_string v) else throw conversion_error.

(** How many network calls the trace holds. *)
Fixpoint sent (t : list Event) : nat :=
  match t with
  | [] => 0
  | EvAjaxSend _ :: r => S (sent r)
  | _ :: r => sent r
  end.

Fixpoint hidden (t : list Event) : nat :=
  match t with
  | [] => 0
  | EvHideLoading :: r => S (hidden r)
  | _ :: r => hidden r
  end.

(** [await $.ajax(settings)]: the call goes out, the function is suspended
    until the call settles, and resumes with the parsed body or with the
    jqXHR thrown at it. *)
Definition ajax (settings : AjaxSettings) : M JsVal :=
  n <- get (fun st => sent (trace st)) ;;
  emit (EvAjaxSend settings) ;;
  outcome <- get (fun st => network st n) ;;
  emit (EvAjaxSettle outcome) ;;
  match outcome with
  | Resolved response => ret response
  | Rejected xhr => throw (AjaxError xhr)
  end.

(** [new Date()], as its time value. *)
Definition new_Date : M Z :=
  n <- get clock_reads ;;
  t <- get (fun st => clock st n) ;;
  modify (with_clock_reads (S n)) ;;
  ret t.

(** ** class GEEApiClient *)

Record GEEApiClient := {
  this_baseURL : jsstring;
  this_timeout : JsVal
}.

(** [constructor(baseURL = API_CONFIG.baseURL)], with the configuration it
    reads made explicit. *)
Definition constructor (config : ApiConfig) (baseURL_arg : option jsstring)
  : GEEApiClient :=
  {| this_baseURL := match baseURL_arg with Some b => b | None => baseURL config end;
     this_timeout := JNum (number_of_Z (timeout config)) |}.

(** The options bag of [request]: HTTP method, body payload, headers, and
    the timeout the spread lets a caller override.  [None] is an absent
    property; headers, when given, are an object.  The endpoint methods
    pass no options, or a method and a body. *)
Record Options := {
  opt_method : option jsstring;
  opt_data : option JsVal;
  opt_headers : option (list (jsstring * JsVal));
  opt_timeout : option JsVal
}.

(** [options = {}]. *)
Definition no_options : Options :=
  {| opt_method := None; opt_data := None; opt_headers := None; opt_timeout := None |}.

(** [{ method: 'POST', data: params }]. *)
Definition post (params : JsVal) : Options :=
  {| opt_method := Some (lit "POST"); opt_data := Some params;
     opt_headers := None; opt_timeout := None |}.

(** The result object of [request]; a property the object does not have
    reads as [undefined]. *)
Record RequestResult := {
  success : bool;
  data : JsVal;
  error : JsVal
}.

(** The settings [request] hands to [$.ajax], from
    [config = { ...defaultOptions, ...options }]. *)
Definition ajax_settings (this : GEEApiClient) (endpoint : jsstring)
  (options : Options) : AjaxSettings :=
  let url := this_baseURL this ++ endpoint in
  let defaultOptions_headers := [(lit "Content-Type", JStr (lit "application/json"))] in
  let defaultOptions_timeout := this_timeout this in
  let config_headers :=
    match opt_headers options with Some h => h | None => defaultOptions_headers end in
  let config_timeout :=
    match opt_timeout options with Some t => t | None => defaultOptions_timeout end in
  let config_method := opt_method options in
  let config_data := opt_data options in
  {| ajax_url := url;
     (* config.method || 'GET' *)
     ajax_method :=
       match config_method with
       | Some (c :: m) => c :: m
       | _ => lit "GET"
       end;
     (* config.data ? JSON.stringify(config.data) : undefined *)
     ajax_data :=
       match config_data with
       | Some d => if truthy d then JSON_stringify d else None
       | None => None
       end;
     ajax_contentType := get_prop (JObj config_headers) (lit "Content-Type");
     ajax_timeout := config_timeout;
     ajax_dataType := lit "json" |}.

Arguments ajax_settings : simpl never.

Definition request (this : GEEApiClient) (endpoint : jsstring) (options : Options)
  : M RequestResult :=
  try_catch
    (response <- ajax (ajax_settings this endpoint options) ;;
     ret {| success := true; data := response; error := JUndefined |})
    (fun error =>
       console_error (lit "API Request Error:") error ;;
       ret {| success := false;
              data := JUndefined;
              error :=
                js_or (get_prop_opt (exn_responseJSON error) (lit "error"))
                  (js_or (exn_statusText error) (JStr (lit "Network error"))) |}).

Definition healthCheck (this : GEEApiClient) : M RequestResult :=
  request this (lit "/health") no_options.

Definition getProvinces (this : GEEApiClient) : M RequestResult :=
  request this (lit "/regions/provinces") no_options.

(** The codes spliced into the two query strings below are the strings
    the callers read from the selectors. *)
Definition getCities (this : GEEApiClient) (provinceCode : JsVal) : M RequestResult :=
  request this (lit "/regions/cities?province_code=" ++ to_string provinceCode) no_options.

Definition getRegionGeometry (this : GEEApiClient) (endpoint code : JsVal)
  : M RequestResult :=
  request this
    (lit "/regions/geometry?endpoint=" ++ to_string endpoint
       ++ lit "&code=" ++ to_string code)
    no_options.

Definition analyzeVegetation (this : GEEApiClient) (params : JsVal) : M RequestResult :=
  request this (lit "/analyze/vegetation") (post params).

Definition analyzeLandCover (this : GEEApiClient) (params : JsVal) : M RequestResult :=
  request this (lit "/analyze/landcover") (post params).

Definition analyzeTimeSeries (this : GEEApiClient) (params : JsVal) : M RequestResult :=
  request this (lit "/timeseries") (post params).

Definition exportToDrive (this : GEEApiClient) (params : JsVal) : M RequestResult :=
  request this (lit "/export") (post params).

(** [const apiClient = new GEEApiClient()]. *)
Definition apiClient : GEEApiClient := constructor API_CONFIG None.

(** ** Orchestration functions *)

(** [select.html(markup)] and [select.append(markup)] on the two selectors. *)
Definition provinceSelect_set_html (markup : jsstring) (d : Dom) : Dom :=
  {| yearValue_text := yearValue_text d; startMonth_val := startMonth_val d;
     endMonth_val := endMonth_val d; cloudValue_text := cloudValue_text d;
     analysisType_val := analysisType_val d; dwMode_val := dwMode_val d;
     dynamicWorld_checked := dynamicWorld_checked d;
     esaWorld_checked := esaWorld_checked d; esriLand_checked := esriLand_checked d;
     provinceSelect_selected_text := provinceSelect_selected_text d;
     citySelect_selected_text := citySelect_selected_text d;
     provinceSelect_html := markup; citySelect_html := citySelect_html d |}.

Definition citySelect_set_html (markup : jsstring) (d : Dom) : Dom :=
  {| yearValue_text := yearValue_text d; startMonth_val := startMonth_val d;
     endMonth_val := endMonth_val d; cloudValue_text := cloudValue_text d;
     analysisType_val := analysisType_val d; dwMode_val := dwMode_val d;
     dynamicWorld_checked := dynamicWorld_checked d;
     esaWorld_checked := esaWorld_checked d; esriLand_checked := esriLand_checked d;
     provinceSelect_selected_text := provinceSelect_selected_text d;
     citySelect_selected_text := citySelect_selected_text d;
     provinceSelect_html := provinceSelect_html d; citySelect_html := markup |}.

Definition provinceSelect_html_set (markup : jsstring) : M unit :=
  modify (fun st => with_dom (provinceSelect_set_html markup (dom st)) st).
Definition provinceSelect_append (markup : jsstring) : M unit :=
  modify (fun st =>
    with_dom (provinceSelect_set_html (provinceSelect_html (dom st) ++ markup) (dom st)) st).
Definition citySelect_html_set (markup : jsstring) : M unit :=
  modify (fun st => with_dom (citySelect_set_html markup (dom st)) st).
Definition citySelect_append (markup : jsstring) : M unit :=
  modify (fun st =>
    with_dom (citySelect_set_html (citySelect_html (dom st) ++ markup) (dom st)) st).

(** [`<option value="${code}">${name}</option>`]. *)
Definition option_markup (code name : jsstring) : jsstring :=
  lit "<option value=" ++ dq ++ code ++ dq ++ lit ">" ++ name ++ lit "</option>".

(** [Object.entries(v)] in a computation. *)
Definition Object_entries (v : JsVal) : M (list (jsstring * JsVal)) :=
  match object_entries v with
  | Some l => ret l
  | None => throw (TypeError (lit "Cannot convert undefined or null to object"))
  end.

(** [for (const [name, code] of entries) body]. *)
Fixpoint for_of {A} (entries : list A) (body : A -> M unit) : M unit :=
  match entries with
  | [] => ret tt
  | x :: r => body x ;; for_of r body
  end.

Definition loadProvincesFromAPI : M JsVal :=
  showLoading (lit "Loading provinces...") (lit "Fetching data from server") ;;
  response <- getProvinces apiClient ;;
  hideLoading ;;
  if success response then
    provinceSelect_html_set
      (lit "<option value=" ++ dq ++ dq ++ lit ">-- Select Province --</option>") ;;
    entries <- Object_entries (data response) ;;
    for_of entries (fun e =>
      code <- ToString (snd e) ;;
      provinceSelect_append (option_markup code (fst e))) ;;
    ret (data response)
  else
    message <- ToString (error response) ;;
    showAlert (lit "Failed to load provinces: " ++ message) (lit "danger") ;;
    ret (JObj []).

Definition loadCitiesFromAPI (provinceCode : JsVal) : M JsVal :=
  showLoading (lit "Loading cities...") (lit "Fetching data from server") ;;
  response <- getCities apiClient provinceCode ;;
  hideLoading ;;
  if success response then
    citySelect_html_set
      (lit "<option value=" ++ dq ++ dq ++ lit ">-- Select City --</option>") ;;
    citySelect_append
      (lit "<option value=" ++ dq ++ lit "use_province" ++ dq
         ++ lit ">-- Use Province --</option>") ;;
    entries <- Object_entries (data response) ;;
    for_of entries (fun e =>
      code <- ToString (snd e) ;;
      citySelect_append (option_markup code (fst e))) ;;
    ret (data response)
  else
    message <- ToString (error response) ;;
    showAlert (lit "Failed to load cities: " ++ message) (lit "danger") ;;
    ret (JObj []).

Definition loadRegionGeometryFromAPI (endpoint code : JsVal) : M JsVal :=
  showLoading (lit "Loading region geometry...") (lit "Fetching boundary data") ;;
  response <- getRegionGeometry apiClient endpoint code ;;
  hideLoading ;;
  if success response && truthy (data response) then
    let geojson := data response in
    (* drawnItems.clearLayers() *)
    modify (with_drawnItems []) ;;
    let geoJsonLayer := GeoJsonLayer geojson in
    (* geoJsonLayer.addTo(drawnItems) *)
    modify (fun st => with_drawnItems (drawnItems st ++ [geoJsonLayer]) st) ;;
    emit (EvFitBounds (geoJSON_getBounds geojson)) ;;
    let bounds := geoJSON_getBounds geojson in
    let area := calculateAreaFromBounds bounds in
    city <- get (fun st => citySelect_selected_text (dom st)) ;;
    province <- get (fun st => provinceSelect_selected_text (dom st)) ;;
    modify (with_currentAOI (Some {|
      aoi_type := lit "admin";
      aoi_name := match city with [] => province | _ => city end;
      aoi_geometry := bounds;
      aoi_area := area;
      aoi_geojson := geojson |})) ;;
    showAOIInfo ;;
    showAlert (lit "Region loaded successfully!") (lit "success") ;;
    ret geojson
  else
    message <- ToString (js_or (error response) (JStr (lit "Unknown error"))) ;;
    showAlert (lit "Failed to load region geometry: " ++ message) (lit "danger") ;;
    ret JNull.

(** The [aoi] member of the analysis parameters. *)
Definition aoi_params (a : AOI) : JsVal :=
  JObj [ (lit "west", JNum (getWest (aoi_geometry a)));
         (lit "south", JNum (getSouth (aoi_geometry a)));
         (lit "east", JNum (getEast (aoi_geometry a)));
         (lit "north", JNum (getNorth (aoi_geometry a))) ].

(** [response.data.collection_size]-style member access, which throws on
    [null] and [undefined]. *)
Definition member (v : JsVal) (k : jsstring) : M JsVal :=
  match v with
  | JUndefined | JNull =>
      throw (TypeError (lit "Cannot read properties of undefined or null"))
  | _ => ret (get_prop v k)
  end.

(** The [params] object of [runVegetationAnalysisAPI]. *)
Definition vegetation_params (currentAOI : AOI) (d : Dom) (indices : JsVal) : JsVal :=
  JObj [
    (lit "aoi", aoi_params currentAOI);
    (lit "year", JNum (parseInt (yearValue_text d)));
    (lit "start_month", JNum (parseInt (to_string (startMonth_val d))));
    (lit "end_month", JNum (parseInt (to_string (endMonth_val d))));
    (lit "cloud_threshold", JNum (parseInt (cloudValue_text d)));
    (lit "indices", indices) ].

(** The [datasets] array and the [params] object of [runLandCoverAnalysisAPI]. *)
Definition landcover_datasets (d : Dom) : list JsVal :=
  (if dynamicWorld_checked d then [JStr (lit "Dynamic_World")] else [])
    ++ (if esaWorld_checked d then [JStr (lit "ESA_WorldCover")] else [])
    ++ (if esriLand_checked d then [JStr (lit "ESRI_LandCover")] else []).

Definition landcover_params (currentAOI : AOI) (d : Dom) : JsVal :=
  JObj [
    (lit "aoi", aoi_params currentAOI);
    (lit "year", JNum (parseInt (yearValue_text d)));
    (lit "datasets", JArr (landcover_datasets d));
    (lit "dw_mode", dwMode_val d) ].

Definition runVegetationAnalysisAPI : M JsVal :=
  aoi <- get currentAOI ;;
  match aoi with
  | None =>
      showAlert (lit "Please select an AOI first") (lit "warning") ;;
      ret JNull
  | Some currentAOI =>
      showLoading (lit "Analyzing vegetation indices...")
        (lit "Processing Sentinel-2 imagery") ;;
      d <- get dom ;;
      indices <- get selectedIndices ;;
      let params := vegetation_params currentAOI d indices in
      response <- analyzeVegetation apiClient params ;;
      hideLoading ;;
      if success response then
        size <- member (data response) (lit "collection_size") ;;
        found <- ToString size ;;
        showAlert (lit "Analysis complete! Found " ++ found ++ lit " images")
          (lit "success") ;;
        ret (data response)
      else
        message <- ToString (error response) ;;
        showAlert (lit "Vegetation analysis failed: " ++ message) (lit "danger") ;;
        ret JNull
  end.

Definition runLandCoverAnalysisAPI : M JsVal :=
  aoi <- get currentAOI ;;
  match aoi with
  | None =>
      showAlert (lit "Please select an AOI first") (lit "warning") ;;
      ret JNull
  | Some currentAOI =>
      showLoading (lit "Analyzing land cover...")
        (lit "Processing land cover datasets") ;;
      d <- get dom ;;
      let params := landcover_params currentAOI d in
      response <- analyzeLandCover apiClient params ;;
      hideLoading ;;
      if success response then
        showAlert (lit "Land cover analysis complete!") (lit "success") ;;
        ret (data response)
      else
        message <- ToString (error response) ;;
        showAlert (lit "Land cover analysis failed: " ++ message) (lit "danger") ;;
        ret JNull
  end.

(** [analysisResults.k = x]. *)
Definition analysisResults_set (k : jsstring) (x : JsVal) : M unit :=
  modify (fun st => with_analysisResults (set_prop (analysisResults st) k x) st).

Definition runCompleteAnalysis : M unit :=
  aoi <- get currentAOI ;;
  match aoi with
  | None => showAlert (lit "Please select an AOI first") (lit "warning")
  | Some _ =>
      analysisType <- get (fun st => analysisType_val (dom st)) ;;
      modify (with_analysisResults (JObj [])) ;;
      try_catch
        ((if is_string analysisType (lit "vegetation")
             || is_string analysisType (lit "combined")
          then
            vegData <- runVegetationAnalysisAPI ;;
            if truthy vegData then
              analysisResults_set (lit "vegetation") (get_prop vegData (lit "indices")) ;;
              analysisResults_set (lit "rgb_tile_url")
                (get_prop vegData (lit "rgb_tile_url")) ;;
              analysisResults_set (lit "collection_size")
                (get_prop vegData (lit "collection_size"))
            else ret tt
          else ret tt) ;;
         (if is_string analysisType (lit "landcover")
             || is_string analysisType (lit "combined")
          then
            lcData <- runLandCoverAnalysisAPI ;;
            if truthy lcData then analysisResults_set (lit "landcover") lcData
            else ret tt
          else ret tt) ;;
         results <- get analysisResults ;;
         if 0 <? keys_length results then
           displayResults ;;
           emit EvScrollToResults
         else ret tt)
        (fun error =>
           console_error (lit "Analysis error:") error ;;
           showAlert (lit "An error occurred during analysis") (lit "danger"))
  end.

(** ** Download of the statistics *)

(** [s.replace(/\s+/g, '_')].  The matcher walks the string from the left;
    a white-space character that no match has consumed starts a match, the
    greedy [\s+] extends it over the following white space, and one
    underscore replaces the match.  [in_match] tells that the character
    before belongs to the match being extended. *)
Fixpoint replace_whitespace (in_match : bool) (s : jsstring) : jsstring :=
  match s with
  | [] => []
  | c :: t =>
      if is_whitespace c
      then if in_match then replace_whitespace true t
           else 95%N :: replace_whitespace true t
      else c :: replace_whitespace false t
  end.

(** From the words of the spec: the runs of a string are its maximal
    blocks of white space and of other characters, in order; each comes
    with its kind, [true] for white space. *)
Fixpoint runs (s : jsstring) : list (bool * jsstring) :=
  match s with
  | [] => []
  | c :: t =>
      match runs t with
      | (kind, block) :: rest =>
          if Bool.eqb kind (is_whitespace c)
          then (kind, c :: block) :: rest
          else (is_whitespace c, [c]) :: (kind, block) :: rest
      | [] => [(is_whitespace c, [c])]
      end
  end.

(** From the words of the spec: the name with every run of white space
    replaced by a single underscore. *)
Definition underscore_runs (s : jsstring) : jsstring :=
  List.concat (map (fun r : bool * jsstring => if fst r then [95%N] else snd r) (runs s)).

(** The object URL of the next blob: the browser's choice. *)
Fixpoint created (t : list Event) : nat :=
  match t with
  | [] => 0
  | EvCreateObjectURL _ _ :: r => S (created r)
  | _ :: r => created r
  end.

(** [URL.createObjectURL(new Blob([content], { type: mime }))]. *)
Definition createObjectURL (content mime : jsstring) : M jsstring :=
  n <- get (fun st => created (trace st)) ;;
  href <- get (fun st => object_url st n) ;;
  emit (EvCreateObjectURL content mime) ;;
  ret href.

(** The [stats] object of [downloadStatisticsReal]. *)
Definition stats_object (analysis_date : jsstring) (aoi : AOI) (d : Dom)
  (results : JsVal) : JsVal :=
  JObj [
    (lit "analysis_date", JStr analysis_date);
    (lit "region", JStr (aoi_name aoi));
    (lit "area_km2", aoi_area aoi);
    (lit "year", JStr (yearValue_text d));
    (lit "analysis_type", analysisType_val d);
    (lit "parameters", JObj [
       (lit "date_range", JObj [
          (lit "start_month", startMonth_val d);
          (lit "end_month", endMonth_val d) ]);
       (lit "cloud_threshold", JStr (cloudValue_text d)) ]);
    (lit "results", results) ].

(** The name of the downloaded file. *)
Definition download_name (name : jsstring) (time : Z) : jsstring :=
  lit "gee_analysis_" ++ replace_whitespace false name ++ lit "_"
    ++ to_string (JNum (number_of_Z time)) ++ lit ".json".

Definition downloadStatisticsReal : M unit :=
  date <- new_Date ;;
  aoi <- get currentAOI ;;
  match aoi with
  | None => throw (TypeError (lit "Cannot read properties of null (reading 'name')"))
  | Some currentAOI =>
      d <- get dom ;;
      results <- get analysisResults ;;
      let stats := stats_object (toISOString date) currentAOI d results in
      let dataStr :=
        match JSON_stringify_2 stats with
        | Some text => text
        | None => lit "undefined"
        end in
      url <- createObjectURL dataStr (lit "application/json") ;;
      time <- new_Date ;;
      emit (EvDownload (download_name (aoi_name currentAOI) time) url) ;;
      emit (EvRevokeObjectURL url) ;;
      showAlert (lit "Statistics downloaded successfully!") (lit "success")
  end.

(* ================================================================== *)
(** * Properties *)
(* ================================================================== *)

(** ** JSON: what is written is read back *)

Section JsonFacts.
Local Open Scope N_scope.

Lemma hex_value_digit (x : N) : x < 16 -> hex_value (hex_digit x) = Some x.
Proof.
  intros H. unfold hex_value, hex_digit, is_digit.
  destruct (N.ltb_spec x 10).
  - replace ((48 <=? 48 + x) && (48 + x <=? 57)) with true.
    + f_equal. lia.
    + symmetry. apply andb_true_intro. split; apply N.leb_le; lia.
  - replace ((48 <=? 87 + x) && (87 + x <=? 57)) with false.
    + replace ((97 <=? 87 + x) && (87 + x <=? 102)) with true.
      * f_equal. lia.
      * symmetry. apply andb_true_intro. split; apply N.leb_le; lia.
    + symmetry. apply andb_false_intro2. apply N.leb_gt. lia.
Qed.

Lemma hex_digits_value (c : N) :
  c < 65536 ->
  (c / 4096) mod 16 * 4096 + (c / 256) mod 16 * 256 + (c / 16) mod 16 * 16 + c mod 16 = c.
Proof.
  intros H.
  pose proof (N.div_mod c 16 ltac:(lia)).
  pose proof (N.div_mod (c / 16) 16 ltac:(lia)).
  pose proof (N.div_mod (c / 16 / 16) 16 ltac:(lia)).
  assert (c / 16 / 16 / 16 < 16).
  { repeat rewrite N.Div0.div_div. apply N.Div0.div_lt_upper_bound. lia. }
  replace (c / 256) with (c / 16 / 16) by (rewrite N.Div0.div_div; reflexivity).
  replace (c / 4096) with (c / 16 / 16 / 16) by (repeat rewrite N.Div0.div_div; reflexivity).
  rewrite (N.mod_small (c / 16 / 16 / 16) 16) by assumption.
  pose proof (N.div_mod (c / 16 / 16 / 16) 16 ltac:(lia)).
  lia.
Qed.

Lemma parse_unicode_escape (c : code_unit) (t str rest : jsstring) :
  c < 65536 ->
  parse_string_tail t = Some (str, rest) ->
  parse_string_tail (unicode_escape c ++ t) = Some (c :: str, rest).
Proof.
  intros C H. unfold unicode_escape.
  simpl.
  rewrite !hex_value_digit by (apply N.mod_lt; lia).
  rewrite H. rewrite hex_digits_value by assumption. reflexivity.
Qed.

Lemma parse_raw_unit (c : code_unit) (t str rest : jsstring) :
  (c =? 34) = false -> (c =? 92) = false -> (c <? 32) = false ->
  parse_string_tail t = Some (str, rest) ->
  parse_string_tail (c :: t) = Some (c :: str, rest).
Proof. intros A B C H. simpl. rewrite A, B, C, H. reflexivity. Qed.

Lemma parse_quote_unit (c : code_unit) (t str rest : jsstring) :
  parse_string_tail t = Some (str, rest) ->
  parse_string_tail (quote_unit c ++ t) = Some (c :: str, rest).
Proof.
  intros H. unfold quote_unit.
  destruct (N.eqb_spec c 8); [subst; simpl; rewrite H; reflexivity|].
  destruct (N.eqb_spec c 9); [subst; simpl; rewrite H; reflexivity|].
  destruct (N.eqb_spec c 10); [subst; simpl; rewrite H; reflexivity|].
  destruct (N.eqb_spec c 12); [subst; simpl; rewrite H; reflexivity|].
  destruct (N.eqb_spec c 13); [subst; simpl; rewrite H; reflexivity|].
  destruct (N.eqb_spec c 34); [subst; simpl; rewrite H; reflexivity|].
  destruct (N.eqb_spec c 92); [subst; simpl; rewrite H; reflexivity|].
  destruct ((c <? 32) || is_high_surrogate c || is_low_surrogate c) eqn:E.
  - apply parse_unicode_escape; [|assumption].
    unfold is_high_surrogate, is_low_surrogate in E.
    apply orb_prop in E. destruct E as [E|E]; [apply orb_prop in E; destruct E as [E|E]|].
    + apply N.ltb_lt in E. lia.
    + apply andb_prop in E. destruct E as [_ E]. apply N.leb_le in E. lia.
    + apply andb_prop in E. destruct E as [_ E]. apply N.leb_le in E. lia.
  - apply orb_false_elim in E. destruct E as [E _].
    apply orb_false_elim in E. destruct E as [E _].
    apply parse_raw_unit; try assumption; apply N.eqb_neq; assumption.
Qed.

Lemma parse_surrogate (c : code_unit) (t str rest : jsstring) :
  is_high_surrogate c || is_low_surrogate c = true ->
  parse_string_tail t = Some (str, rest) ->
  parse_string_tail (c :: t) = Some (c :: str, rest).
Proof.
  intros S H.
  assert (55296 <= c).
  { unfold is_high_surrogate, is_low_surrogate in S.
    apply orb_prop in S. destruct S as [S|S]; apply andb_prop in S;
      destruct S as [S _]; apply N.leb_le in S; lia. }
  apply parse_raw_unit; try assumption.
  - apply N.eqb_neq. lia.
  - apply N.eqb_neq. lia.
  - apply N.ltb_ge. lia.
Qed.

(** Reading back the characters [QuoteJSONString] writes. *)
Lemma parse_quote_units (s rest : jsstring) :
  parse_string_tail (quote_units s ++ 34 :: rest) = Some (s, rest).
Proof.
  assert (G : forall n s, (List.length s <= n)%nat ->
                parse_string_tail (quote_units s ++ 34 :: rest) = Some (s, rest)).
  { induction n as [|n IH]; intros [|c t] L; simpl in L; try reflexivity; try lia.
    destruct t as [|d t'].
    - simpl. rewrite app_nil_r || idtac.
      apply parse_quote_unit. reflexivity.
    - change (quote_units (c :: d :: t')) with
        (if is_high_surrogate c && is_low_surrogate d
         then c :: d :: quote_units t'
         else quote_unit c ++ quote_units (d :: t')).
      destruct (is_high_surrogate c && is_low_surrogate d) eqn:P.
      + apply andb_prop in P. destruct P as [P1 P2].
        simpl app. apply parse_surrogate; [rewrite P1; reflexivity|].
        apply parse_surrogate; [rewrite P2; apply orb_true_r|].
        apply IH. simpl in L. lia.
      + rewrite <- app_assoc. apply parse_quote_unit. apply IH. simpl in *. lia. }
  apply (G (List.length s)). lia.
Qed.

(** Induction on values, through the lists they nest. *)
Section ValueInduction.
Variable P : JsVal -> Prop.
Hypothesis P_undefined : P JUndefined.
Hypothesis P_null : P JNull.
Hypothesis P_bool : forall b, P (JBool b).
Hypothesis P_num : forall n, P (JNum n).
Hypothesis P_str : forall s, P (JStr s).
Hypothesis P_arr : forall items, Forall P items -> P (JArr items).
Hypothesis P_obj : forall props, Forall (fun kv => P (snd kv)) props -> P (JObj props).

Fixpoint JsVal_nested_ind (v : JsVal) : P v :=
  match v with
  | JUndefined => P_undefined
  | JNull => P_null
  | JBool b => P_bool b
  | JNum n => P_num n
  | JStr s => P_str s
  | JArr items =>
      P_arr
        ((fix all (l : list JsVal) : Forall P l :=
            match l with
            | [] => Forall_nil P
            | x :: r => Forall_cons x (JsVal_nested_ind x) (all r)
            end) items)
  | JObj props =>
      P_obj
        ((fix all (l : list (jsstring * JsVal)) : Forall (fun kv => P (snd kv)) l :=
            match l with
            | [] => Forall_nil _
            | (k, x) :: r =>
                Forall_cons (P := fun kv => P (snd kv)) (k, x) (JsVal_nested_ind x) (all r)
            end) props)
  end.
End ValueInduction.

Definition text_of (gap indent : jsstring) (x : JsVal) : jsstring :=
  match serialize gap indent x with Some t => t | None => lit "null" end.

Lemma serialize_array (gap indent : jsstring) (items : list JsVal) :
  serialize gap indent (JArr items)
  = Some (bracket 91 93 gap indent (map (text_of gap (indent ++ gap)) items)).
Proof. reflexivity. Qed.

Definition member_text (gap indent : jsstring) (kv : jsstring * JsVal) : jsstring :=
  quote_json_string (fst kv) ++ colon gap ++ text_of gap indent (snd kv).

Lemma serialize_undefined (gap indent : jsstring) (x : JsVal) :
  serialize gap indent x = None <-> x = JUndefined.
Proof.
  split; [|intros ->; reflexivity].
  destruct x as [| |[|]| | | |]; simpl; congruence.
Qed.

Lemma serialize_object (gap indent : jsstring) (props : list (jsstring * JsVal)) :
  serialize gap indent (JObj props)
  = Some (bracket 123 125 gap indent
            (map (member_text gap (indent ++ gap)) (defined_props props))).
Proof.
  simpl. do 2 f_equal. induction props as [|[k x] r IH]; [reflexivity|].
  rewrite IH. unfold member_text, text_of.
  destruct x as [| |[|]| | | |]; reflexivity.
Qed.

Lemma json_image_array (items : list JsVal) :
  json_image (JArr items) = JArr (map (fun x => json_image (element x)) items).
Proof.
  simpl. f_equal. induction items as [|x r IH]; [reflexivity|].
  rewrite IH. destruct x; reflexivity.
Qed.

Lemma json_image_object (props : list (jsstring * JsVal)) :
  json_image (JObj props)
  = JObj (build (map (fun kv => (fst kv, json_image (snd kv))) (defined_props props))).
Proof.
  simpl. do 2 f_equal. induction props as [|[k x] r IH]; [reflexivity|].
  rewrite IH. destruct x; reflexivity.
Qed.

(** ** Reading back what [serialize] writes *)

Definition all_space (s : jsstring) : Prop := forallb is_json_space s = true.

(** The text that follows a token does not extend a number. *)
Definition terminated (rest : jsstring) : Prop :=
  match rest with
  | [] => True
  | c :: _ => is_number_char c = false
  end.

Lemma skip_space_app (ws x : jsstring) :
  all_space ws -> skip_space (ws ++ x) = skip_space x.
Proof.
  unfold all_space. induction ws as [|c ws IH]; simpl; [reflexivity|].
  intros H. apply andb_prop in H. destruct H as [H1 H2]. rewrite H1. auto.
Qed.

Lemma skip_space_head (c : code_unit) (t : jsstring) :
  is_json_space c = false -> skip_space (c :: t) = c :: t.
Proof. intros H. simpl. rewrite H. reflexivity. Qed.

Lemma parse_value_skip (fuel : nat) (ws x : jsstring) :
  all_space ws -> parse_value fuel (ws ++ x) = parse_value fuel x.
Proof. intros H. destruct fuel; simpl; [reflexivity|]. rewrite skip_space_app; auto. Qed.

Lemma parse_members_skip (fuel : nat) (ws x : jsstring) :
  all_space ws -> parse_members fuel (ws ++ x) = parse_members fuel x.
Proof. intros H. destruct fuel; simpl; [reflexivity|]. rewrite skip_space_app; auto. Qed.

Lemma parse_elements_skip (fuel : nat) (ws x : jsstring) :
  all_space ws -> parse_elements fuel (ws ++ x) = parse_elements fuel x.
Proof.
  intros H. destruct fuel; [reflexivity|].
  change (parse_elements (S fuel) (ws ++ x)) with
    (match parse_value fuel (ws ++ x) with
     | None => None
     | Some (v, rest) =>
         match skip_space rest with
         | [] => None
         | d :: rest' =>
             if d =? 44 then
               match parse_elements fuel rest' with
               | Some (vs, rest'') => Some (v :: vs, rest'')
               | None => None
               end
             else if d =? 93 then Some ([v], rest')
             else None
         end
     end).
  rewrite parse_value_skip by assumption. reflexivity.
Qed.

Lemma space_not_number_char (c : code_unit) :
  is_json_space c = true -> is_number_char c = false.
Proof.
  unfold is_json_space, is_number_char, is_digit. intros H.
  repeat (apply orb_prop in H; destruct H as [H|H]); apply N.eqb_eq in H; subst;
    reflexivity.
Qed.

Lemma terminated_space (ws : jsstring) (c : code_unit) (rest : jsstring) :
  all_space ws -> is_number_char c = false -> terminated (ws ++ c :: rest).
Proof.
  unfold all_space. destruct ws as [|d ws]; simpl; [auto|].
  intros H _. apply andb_prop in H. destruct H as [H _].
  apply space_not_number_char. assumption.
Qed.

Lemma span_number_app (tok rest : jsstring) :
  forallb is_number_char tok = true -> terminated rest ->
  span_number (tok ++ rest) = (tok, rest).
Proof.
  intros H T. induction tok as [|c tok IH]; simpl in *.
  - destruct rest as [|d rest]; [reflexivity|]. simpl in *. rewrite T. reflexivity.
  - apply andb_prop in H. destruct H as [H1 H2]. rewrite H1, (IH H2). reflexivity.
Qed.

Lemma number_start_facts (c : code_unit) :
  is_number_start c = true ->
  is_json_space c = false /\ (c =? 34) = false /\ (c =? 91) = false /\
  (c =? 123) = false /\ (c =? 93) = false.
Proof.
  unfold is_number_start, is_digit, is_json_space. intros H.
  assert (R : c = 45 \/ (48 <= c /\ c <= 57)).
  { apply orb_prop in H. destruct H as [H|H].
    - apply andb_prop in H. destruct H as [A B].
      apply N.leb_le in A. apply N.leb_le in B. auto.
    - apply N.eqb_eq in H. auto. }
  repeat split; repeat (apply orb_false_intro); apply N.eqb_neq; lia.
Qed.

(** The unfoldings of the reader on the first character of a value. *)
Lemma parse_value_string (fuel : nat) (t : jsstring) :
  parse_value (S fuel) (34 :: t)
  = match parse_string_tail t with
    | Some (str, rest) => Some (JStr str, rest)
    | None => None
    end.
Proof. reflexivity. Qed.

Lemma parse_value_array (fuel : nat) (t : jsstring) (c : code_unit) (t' : jsstring) :
  skip_space t = c :: t' -> (c =? 93) = false ->
  parse_value (S fuel) (91 :: t)
  = match parse_elements fuel t with
    | Some (items, rest) => Some (JArr items, rest)
    | None => None
    end.
Proof. intros H1 H2. simpl. rewrite H1, H2. reflexivity. Qed.

Lemma parse_value_object (fuel : nat) (t : jsstring) (c : code_unit) (t' : jsstring) :
  skip_space t = c :: t' -> (c =? 125) = false ->
  parse_value (S fuel) (123 :: t)
  = match parse_members fuel t with
    | Some (members, rest) => Some (JObj (build members), rest)
    | None => None
    end.
Proof. intros H1 H2. simpl. rewrite H1, H2. reflexivity. Qed.

Lemma parse_value_number (fuel : nat) (c : code_unit) (t : jsstring) :
  is_number_start c = true ->
  parse_value (S fuel) (c :: t)
  = let (tok, rest) := span_number (c :: t) in
    match json_to_number tok with
    | Some n => Some (JNum n, rest)
    | None => None
    end.
Proof.
  intros H. destruct (number_start_facts c H) as (A & B & C & D & _).
  simpl. rewrite A, B, C, D, H. reflexivity.
Qed.

Lemma parse_elements_S (fuel : nat) (s : jsstring) :
  parse_elements (S fuel) s
  = match parse_value fuel s with
    | None => None
    | Some (v, rest) =>
        match skip_space rest with
        | [] => None
        | d :: rest' =>
            if d =? 44 then
              match parse_elements fuel rest' with
              | Some (vs, rest'') => Some (v :: vs, rest'')
              | None => None
              end
            else if d =? 93 then Some ([v], rest')
            else None
        end
    end.
Proof. reflexivity. Qed.

Lemma parse_members_quote (fuel : nat) (k t : jsstring) :
  parse_members (S fuel) (quote_json_string k ++ 58 :: t)
  = match parse_value fuel t with
    | None => None
    | Some (v, rest2) =>
        match skip_space rest2 with
        | [] => None
        | d :: rest3 =>
            if d =? 44 then
              match parse_members fuel rest3 with
              | Some (ms, rest4) => Some ((k, v) :: ms, rest4)
              | None => None
              end
            else if d =? 125 then Some ([(k, v)], rest3)
            else None
        end
    end.
Proof.
  unfold quote_json_string. simpl.
  rewrite <- app_assoc. simpl. rewrite parse_quote_units. reflexivity.
Qed.

(** [v] is read back from every text [serialize] writes for it. *)
Definition reads_back (v : JsVal) : Prop :=
  forall (gap indent text rest : jsstring) (fuel : nat),
    serialize gap indent v = Some text ->
    all_space gap -> all_space indent -> terminated rest ->
    (List.length text <= fuel)%nat ->
    parse_value fuel (text ++ rest) = Some (json_image v, rest).

Lemma reads_back_null : reads_back JNull.
Proof.
  intros gap indent text rest fuel E _ _ _ L. injection E as <-.
  destruct fuel as [|fuel]; [simpl in L; lia|]. reflexivity.
Qed.

Lemma reads_back_bool (b : bool) : reads_back (JBool b).
Proof.
  intros gap indent text rest fuel E _ _ _ L.
  destruct b; injection E as <-;
    (destruct fuel as [|fuel]; [simpl in L; lia|]); reflexivity.
Qed.

Lemma reads_back_str (s : jsstring) : reads_back (JStr s).
Proof.
  intros gap indent text rest fuel E _ _ _ L. injection E as <-.
  destruct fuel as [|fuel]; [simpl in L; lia|].
  unfold quote_json_string.
  change (([34] ++ quote_units s ++ [34]) ++ rest)
    with (34 :: (quote_units s ++ [34]) ++ rest).
  rewrite parse_value_string, <- app_assoc.
  change ([34] ++ rest) with (34 :: rest).
  rewrite parse_quote_units. reflexivity.
Qed.

Lemma reads_back_num (n : number) : reads_back (JNum n).
Proof.
  intros gap indent text rest fuel E _ _ T L. simpl in E. injection E as <-.
  simpl json_image.
  destruct (number_is_finite n) eqn:F.
  - destruct (number_token n F) as [Tok Val].
    destruct (number_to_string n) as [|c tok] eqn:Str; [discriminate|].
    simpl in Tok. apply andb_prop in Tok. destruct Tok as [St All].
    destruct fuel as [|fuel]; [simpl in L; lia|].
    change ((c :: tok) ++ rest) with (c :: tok ++ rest).
    rewrite parse_value_number by assumption.
    change (c :: tok ++ rest) with ((c :: tok) ++ rest).
    rewrite span_number_app by assumption.
    destruct (json_to_number (c :: tok)); [reflexivity|congruence].
  - destruct fuel as [|fuel]; [simpl in L; lia|]. reflexivity.
Qed.

(** A serialised value starts with a character that is neither white
    space nor a closing bracket. *)
Lemma serialize_head (gap indent : jsstring) (v : JsVal) (text : jsstring) :
  serialize gap indent v = Some text ->
  exists c t, text = c :: t /\ is_json_space c = false /\ (c =? 93) = false.
Proof.
  destruct v as [| |[|]|n|s|items|props]; simpl; intros E; try discriminate;
    injection E as <-.
  - eexists _, _. split; [reflexivity|]. split; reflexivity.
  - eexists _, _. split; [reflexivity|]. split; reflexivity.
  - eexists _, _. split; [reflexivity|]. split; reflexivity.
  - destruct (number_is_finite n) eqn:F.
    + destruct (number_token n F) as [Tok _].
      destruct (number_to_string n) as [|c tok]; [discriminate|].
      simpl in Tok. apply andb_prop in Tok. destruct Tok as [St _].
      destruct (number_start_facts c St) as (A & _ & _ & _ & B).
      eexists _, _. split; [reflexivity|]. split; assumption.
    + eexists _, _. split; [reflexivity|]. split; reflexivity.
  - eexists _, _. split; [reflexivity|]. split; reflexivity.
  - unfold bracket.
    match goal with |- context [match ?p with [] => _ | _ :: _ => _ end] =>
      destruct p end;
      [|destruct gap]; eexists _, _; (split; [reflexivity|]); split; reflexivity.
  - unfold bracket.
    match goal with |- context [match ?p with [] => _ | _ :: _ => _ end] =>
      destruct p end;
      [|destruct gap]; eexists _, _; (split; [reflexivity|]); split; reflexivity.
Qed.

Lemma serialize_element (gap indent : jsstring) (x : JsVal) :
  serialize gap indent (element x) = Some (text_of gap indent x).
Proof.
  unfold text_of.
  destruct (serialize gap indent x) as [t|] eqn:E.
  - destruct x; try exact E. discriminate.
  - apply serialize_undefined in E. subst. reflexivity.
Qed.

Lemma reads_back_element (x : JsVal) : reads_back x -> reads_back (element x).
Proof. destruct x; auto. intros _. apply reads_back_null. Qed.

Lemma join_cons (sep p : jsstring) (l : list jsstring) :
  l <> [] -> join sep (p :: l) = p ++ sep ++ join sep l.
Proof. destruct l; [congruence|reflexivity]. Qed.

Lemma join_single (sep p : jsstring) : join sep [p] = p.
Proof. reflexivity. Qed.

Lemma parse_elements_join (items : list JsVal) (gap indent ws1 ws2 rest : jsstring) :
  items <> [] -> Forall reads_back items ->
  all_space gap -> all_space indent -> all_space ws1 -> all_space ws2 ->
  forall fuel : nat,
    (List.length (join (44%N :: ws1) (map (text_of gap indent) items)) < fuel)%nat ->
    parse_elements fuel
      (ws1 ++ join (44 :: ws1) (map (text_of gap indent) items) ++ ws2 ++ 93 :: rest)
    = Some (map (fun x => json_image (element x)) items, rest).
Proof.
  intros NE All G I W1 W2.
  induction items as [|x r IH]; [congruence|]. clear NE.
  inversion All as [|? ? Hx Hr]; subst.
  intros fuel L. destruct fuel as [|fuel]; [lia|].
  rewrite parse_elements_S, parse_value_skip by assumption.
  pose proof (reads_back_element Hx) as Hx'.
  pose proof (serialize_element gap indent x) as Ex.
  destruct r as [|y r'].
  - simpl map in *. simpl join in *.
    rewrite (Hx' gap indent _ (ws2 ++ 93 :: rest) fuel Ex G I);
      [|apply terminated_space; [assumption|reflexivity]|lia].
    rewrite skip_space_app by assumption. reflexivity.
  - change (map (text_of gap indent) (x :: y :: r'))
      with (text_of gap indent x :: map (text_of gap indent) (y :: r')) in *.
    rewrite join_cons in * by discriminate.
    set (J := join (44 :: ws1) (map (text_of gap indent) (y :: r'))) in *.
    rewrite !length_app in L.
    rewrite <- !app_assoc, <- app_comm_cons.
    rewrite (Hx' gap indent _ _ fuel Ex G I); [|reflexivity|lia].
    rewrite skip_space_head by reflexivity.
    change (44 =? 44) with true. cbv iota.
    rewrite IH; [reflexivity|discriminate|assumption|simpl in L; lia].
Qed.

Lemma colon_shape (gap : jsstring) :
  exists ws, all_space ws /\ colon gap = 58 :: ws.
Proof. destruct gap; [exists []|exists [32]]; split; reflexivity. Qed.

Lemma serialize_defined (gap indent : jsstring) (x : JsVal) :
  is_undefined x = false -> serialize gap indent x = Some (text_of gap indent x).
Proof.
  intros U. rewrite <- serialize_element. destruct x; try reflexivity. discriminate.
Qed.

Lemma parse_members_join (props : list (jsstring * JsVal))
  (gap indent ws1 ws2 rest : jsstring) :
  props <> [] ->
  Forall (fun kv => reads_back (snd kv)) props ->
  Forall (fun kv => is_undefined (snd kv) = false) props ->
  all_space gap -> all_space indent -> all_space ws1 -> all_space ws2 ->
  forall fuel : nat,
    (List.length (join (44%N :: ws1) (map (member_text gap indent) props)) < fuel)%nat ->
    parse_members fuel
      (ws1 ++ join (44 :: ws1) (map (member_text gap indent) props) ++ ws2 ++ 125 :: rest)
    = Some (map (fun kv => (fst kv, json_image (snd kv))) props, rest).
Proof.
  intros NE All Def G I W1 W2.
  induction props as [|[k x] r IH]; [congruence|]. clear NE.
  inversion All as [|? ? Hx Hr]; subst. inversion Def as [|? ? Dx Dr]; subst.
  simpl in Hx, Dx.
  intros fuel L. destruct fuel as [|fuel]; [lia|].
  rewrite parse_members_skip by assumption.
  pose proof (serialize_defined gap indent x Dx) as Ex.
  destruct (colon_shape gap) as (wc & Wc & Ec).
  change (map (member_text gap indent) ((k, x) :: r))
    with (member_text gap indent (k, x) :: map (member_text gap indent) r) in *.
  unfold member_text at 1. unfold member_text at 1 in L. simpl fst in *. simpl snd in *.
  rewrite Ec in *.
  destruct r as [|y r'].
  - change (map (member_text gap indent) []) with (@nil jsstring) in *.
    rewrite join_single in *.
    rewrite !length_app in L. simpl List.length in L.
    rewrite <- !app_assoc, <- app_comm_cons.
    rewrite parse_members_quote, parse_value_skip by assumption.
    rewrite (Hx gap indent _ (ws2 ++ 125 :: rest) fuel Ex G I);
      [|apply terminated_space; [assumption|reflexivity]|lia].
    rewrite skip_space_app by assumption. reflexivity.
  - rewrite join_cons in * by discriminate.
    set (J := join (44 :: ws1) (map (member_text gap indent) (y :: r'))) in *.
    rewrite !length_app in L. simpl List.length in L.
    rewrite <- !app_assoc, <- !app_comm_cons.
    rewrite parse_members_quote, parse_value_skip by assumption.
    rewrite (Hx gap indent _ _ fuel Ex G I); [|reflexivity|lia].
    rewrite skip_space_head by reflexivity.
    change (44 =? 44) with true. cbv iota.
    rewrite IH; [reflexivity|discriminate|assumption|assumption|lia].
Qed.

Lemma bracket_shape (open close : code_unit) (gap indent p : jsstring)
  (ps : list jsstring) :
  all_space gap -> all_space indent ->
  exists ws1 ws2,
    all_space ws1 /\ all_space ws2 /\
    bracket open close gap indent (p :: ps)
    = open :: ws1 ++ join (44 :: ws1) (p :: ps) ++ ws2 ++ [close].
Proof.
  intros G I. destruct gap as [|g gap'].
  - exists [], []. repeat split.
  - exists (10 :: indent ++ g :: gap'), (10 :: indent). split; [|split].
    + unfold all_space in *. simpl. rewrite forallb_app, I. exact G.
    + unfold all_space in *. simpl. exact I.
    + unfold bracket. simpl. rewrite <- !app_assoc. reflexivity.
Qed.

Lemma join_head (sep p : jsstring) (ps : list jsstring) :
  exists tail, join sep (p :: ps) = p ++ tail.
Proof.
  destruct ps as [|q ps]; [exists []; simpl; rewrite app_nil_r; reflexivity|].
  eexists. reflexivity.
Qed.

(** Every value other than [undefined] is read back from its text. *)
Theorem serialize_reads_back (v : JsVal) : reads_back v.
Proof.
  induction v using JsVal_nested_ind.
  - intros gap indent text rest fuel E. discriminate.
  - apply reads_back_null.
  - apply reads_back_bool.
  - apply reads_back_num.
  - apply reads_back_str.
  - intros gap indent text rest fuel E G I T L.
    rewrite serialize_array in E. injection E as <-. rewrite json_image_array.
    destruct items as [|x r].
    + destruct fuel as [|fuel]; [simpl in L; lia|]. reflexivity.
    + change (map (text_of gap (indent ++ gap)) (x :: r))
        with (text_of gap (indent ++ gap) x :: map (text_of gap (indent ++ gap)) r) in *.
      destruct (bracket_shape 91 93 (text_of gap (indent ++ gap) x)
                  (map (text_of gap (indent ++ gap)) r) G I)
        as (ws1 & ws2 & W1 & W2 & B).
      rewrite B in *. clear B.
      change (text_of gap (indent ++ gap) x :: map (text_of gap (indent ++ gap)) r)
        with (map (text_of gap (indent ++ gap)) (x :: r)) in *.
      set (J := join (44 :: ws1) (map (text_of gap (indent ++ gap)) (x :: r))) in *.
      simpl List.length in L. rewrite !length_app in L. simpl List.length in L.
      destruct fuel as [|fuel]; [lia|].
      assert (II : all_space (indent ++ gap)).
      { unfold all_space in *. rewrite forallb_app, I. exact G. }
      rewrite <- app_comm_cons, <- !app_assoc.
      change ([93] ++ rest) with (93 :: rest).
      destruct (serialize_head _ _ _ (serialize_element gap (indent ++ gap) x))
        as (c & t & Ec & Sc & Nc).
      destruct (join_head (44 :: ws1) (text_of gap (indent ++ gap) x)
                  (map (text_of gap (indent ++ gap)) r)) as (tail & Et).
      rewrite (@parse_value_array fuel _ c (t ++ tail ++ ws2 ++ 93 :: rest)).
      * unfold J. rewrite parse_elements_join; try assumption;
          [reflexivity|discriminate|fold J; lia].
      * rewrite skip_space_app by assumption. unfold J.
        change (map (text_of gap (indent ++ gap)) (x :: r))
          with (text_of gap (indent ++ gap) x :: map (text_of gap (indent ++ gap)) r).
        rewrite Et, Ec, <- !app_assoc, <- app_comm_cons.
        apply skip_space_head. assumption.
      * assumption.
  - intros gap indent text rest fuel E G I T L.
    rewrite serialize_object in E. injection E as <-. rewrite json_image_object.
    assert (All : Forall (fun kv => reads_back (snd kv)) (defined_props props)).
    { apply Forall_forall. intros kv K. apply filter_In in K. destruct K as [K _].
      rewrite Forall_forall in H. apply H. assumption. }
    assert (Def : Forall (fun kv => is_undefined (snd kv) = false) (defined_props props)).
    { apply Forall_forall. intros kv K. apply filter_In in K. destruct K as [_ K].
      destruct (is_undefined (snd kv)); [discriminate|reflexivity]. }
    destruct (defined_props props) as [|[k x] r].
    + destruct fuel as [|fuel]; [simpl in L; lia|]. reflexivity.
    + change (map (member_text gap (indent ++ gap)) ((k, x) :: r))
        with (member_text gap (indent ++ gap) (k, x)
              :: map (member_text gap (indent ++ gap)) r) in *.
      destruct (bracket_shape 123 125 (member_text gap (indent ++ gap) (k, x))
                  (map (member_text gap (indent ++ gap)) r) G I)
        as (ws1 & ws2 & W1 & W2 & B).
      rewrite B in *. clear B.
      change (member_text gap (indent ++ gap) (k, x)
              :: map (member_text gap (indent ++ gap)) r)
        with (map (member_text gap (indent ++ gap)) ((k, x) :: r)) in *.
      set (J := join (44 :: ws1) (map (member_text gap (indent ++ gap)) ((k, x) :: r))) in *.
      simpl List.length in L. rewrite !length_app in L. simpl List.length in L.
      destruct fuel as [|fuel]; [lia|].
      assert (II : all_space (indent ++ gap)).
      { unfold all_space in *. rewrite forallb_app, I. exact G. }
      rewrite <- app_comm_cons, <- !app_assoc.
      change ([125] ++ rest) with (125 :: rest).
      destruct (join_head (44 :: ws1) (member_text gap (indent ++ gap) (k, x))
                  (map (member_text gap (indent ++ gap)) r)) as (tail & Et).
      rewrite (@parse_value_object fuel _ 34
                 ((quote_units k ++ [34]) ++ colon gap
                    ++ text_of gap (indent ++ gap) x ++ tail ++ ws2 ++ 125 :: rest)).
      * unfold J. rewrite parse_members_join; try assumption;
          [reflexivity|discriminate|fold J; lia].
      * rewrite skip_space_app by assumption. unfold J.
        change (map (member_text gap (indent ++ gap)) ((k, x) :: r))
          with (member_text gap (indent ++ gap) (k, x)
                :: map (member_text gap (indent ++ gap)) r).
        rewrite Et. unfold member_text at 1, quote_json_string. simpl fst. simpl snd.
        rewrite <- !app_assoc. reflexivity.
      * reflexivity.
Qed.

(** [JSON.parse] reads back the text [JSON.stringify] writes, whatever the
    indentation. *)
Theorem JSON_parse_serialize (gap text : jsstring) (v : JsVal) :
  all_space gap -> serialize gap [] v = Some text ->
  JSON_parse text = Some (json_image v).
Proof.
  intros G E. unfold JSON_parse.
  pose proof (@serialize_reads_back v gap [] text [] (S (List.length text)) E G
                eq_refl I (Nat.le_succ_diag_r _)) as R.
  rewrite app_nil_r in R. rewrite R. reflexivity.
Qed.

End JsonFacts.

(** ** Traces *)

Fixpoint settled (t : list Event) : nat :=
  match t with
  | [] => 0
  | EvAjaxSettle _ :: r => S (settled r)
  | _ :: r => settled r
  end.

(** The network calls that have gone out and have not settled yet. *)
Definition in_flight (t : list Event) : nat := sent t - settled t.

(** The effects a computation adds to the trace of [st]. *)
Definition new_events {A} (m : M A) (st : State) : list Event :=
  skipn (List.length (trace st)) (trace (snd (m st))).

(** The network calls of a trace that go to [path] of the backend. *)
Fixpoint calls_to (path : jsstring) (t : list Event) : nat :=
  match t with
  | [] => 0
  | EvAjaxSend s :: r =>
      if jsstring_eqb (ajax_url s) (this_baseURL apiClient ++ path)
      then S (calls_to path r) else calls_to path r
  | _ :: r => calls_to path r
  end.

Fixpoint alerts (t : list Event) : nat :=
  match t with
  | [] => 0
  | EvShowAlert _ _ :: r => S (alerts r)
  | _ :: r => alerts r
  end.

Lemma sent_app (a b : list Event) : sent (a ++ b) = sent a + sent b.
Proof.
  induction a as [|e a IH]; simpl; [reflexivity|].
  destruct e; simpl; rewrite IH; reflexivity.
Qed.

Lemma settled_app (a b : list Event) : settled (a ++ b) = settled a + settled b.
Proof.
  induction a as [|e a IH]; simpl; [reflexivity|].
  destruct e; simpl; rewrite IH; reflexivity.
Qed.

Lemma hidden_app (a b : list Event) : hidden (a ++ b) = hidden a + hidden b.
Proof.
  induction a as [|e a IH]; simpl; [reflexivity|].
  destruct e; simpl; rewrite IH; reflexivity.
Qed.

Lemma skipn_length_app {A} (a b : list A) : skipn (List.length a) (a ++ b) = b.
Proof. induction a; simpl; auto. Qed.

(** ** The transport wrapper *)

(** The result [request] builds from the outcome of its one network call. *)
Definition response_of (o : AjaxOutcome) : RequestResult :=
  match o with
  | Resolved response => {| success := true; data := response; error := JUndefined |}
  | Rejected xhr =>
      {| success := false; data := JUndefined;
         error := js_or (get_prop_opt (responseJSON xhr) (lit "error"))
                    (js_or (JStr (statusText xhr)) (JStr (lit "Network error"))) |}
  end.

Definition request_events (s : AjaxSettings) (o : AjaxOutcome) : list Event :=
  EvAjaxSend s :: EvAjaxSettle o ::
  match o with
  | Resolved _ => []
  | Rejected xhr => [EvConsoleError (lit "API Request Error:") (AjaxError xhr)]
  end.

Ltac run :=
  unfold bind, get, emit, modify, ret, throw, try_catch, showLoading, hideLoading,
    showAlert, showAOIInfo, displayResults, console_error, with_trace; simpl.

Lemma request_run (this : GEEApiClient) (endpoint : jsstring) (options : Options)
  (st : State) :
  request this endpoint options st =
  (Normal (response_of (network st (sent (trace st)))),
   with_trace
     (trace st ++ request_events (ajax_settings this endpoint options)
                    (network st (sent (trace st)))) st).
Proof.
  unfold request, ajax. run.
  destruct (network st (sent (trace st))); simpl;
    repeat rewrite <- app_assoc; reflexivity.
Qed.

(** C1: whatever the outcome of the network call, [request] completes
    normally with a result object, and never throws.  When the call
    succeeds the result is [{success: true, data}] with [data] the parsed
    body.  When it fails the result is [{success: false, error}], where
    [error] is the [error] field of the JSON error body when that field is
    there (truthy), else the status text of the transport when it is not
    empty, else the string ['Network error']. *)
Theorem request_normalizes_outcome (this : GEEApiClient) (endpoint : jsstring)
  (options : Options) (st : State) :
  exists r : RequestResult,
    fst (request this endpoint options st) = Normal r /\
    match network st (sent (trace st)) with
    | Resolved body => success r = true /\ data r = body
    | Rejected xhr =>
        success r = false /\
        error r =
          (let field := get_prop_opt (responseJSON xhr) (lit "error") in
           if truthy field then field
           else match statusText xhr with
                | [] => JStr (lit "Network error")
                | _ => JStr (statusText xhr)
                end)
    end.
Proof.
  rewrite request_run. eexists. split; [reflexivity|].
  destruct (network st (sent (trace st))) as [body|xhr]; simpl.
  - split; reflexivity.
  - split; [reflexivity|].
    unfold js_or.
    destruct (truthy (get_prop_opt (responseJSON xhr) (lit "error"))); [reflexivity|].
    destruct (statusText xhr); reflexivity.
Qed.

(** C4: every invocation of [request] performs exactly one network call,
    whatever its outcome, and the retry count of the configuration is
    never consulted: the client built from a configuration is the same
    whatever that count is. *)
Theorem request_performs_one_call (this : GEEApiClient) (endpoint : jsstring)
  (options : Options) (st : State) :
  sent (new_events (request this endpoint options) st) = 1 /\
  forall (config : ApiConfig) (count : Z) (baseURL_arg : option jsstring),
    constructor {| baseURL := baseURL config; timeout := timeout config;
                   retries := count |} baseURL_arg
    = constructor config baseURL_arg.
Proof.
  split.
  - unfold new_events. rewrite request_run. simpl.
    rewrite skipn_length_app.
    destruct (network st (sent (trace st))); reflexivity.
  - intros. reflexivity.
Qed.

(** ** The sub-operations *)

(** [null] and [undefined], on which a member access throws. *)
Definition nullish (v : JsVal) : bool :=
  match v with
  | JUndefined | JNull => true
  | _ => false
  end.

Definition is_throw {A} (c : Completion A) : bool :=
  match c with
  | Throw _ => true
  | Normal _ => false
  end.

Lemma ToString_run (v : JsVal) (st : State) :
  ToString v st
  = (if prints v then Normal (to_string v) else Throw conversion_error, st).
Proof. unfold ToString. destruct (prints v); reflexivity. Qed.

(** The error of a failed request is never falsy. *)
Lemma error_truthy (xhr : JqXHR) : truthy (error (response_of (Rejected xhr))) = true.
Proof.
  simpl. unfold js_or.
  destruct (truthy (get_prop_opt (responseJSON xhr) (lit "error"))) eqn:F; [exact F|].
  destruct (statusText xhr); reflexivity.
Qed.

Definition vegetation_call (aoi : AOI) (d : Dom) (indices : JsVal) : AjaxSettings :=
  ajax_settings apiClient (lit "/analyze/vegetation")
    (post (vegetation_params aoi d indices)).

Definition landcover_call (aoi : AOI) (d : Dom) : AjaxSettings :=
  ajax_settings apiClient (lit "/analyze/landcover") (post (landcover_params aoi d)).

Arguments vegetation_call : simpl never.
Arguments landcover_call : simpl never.

(** The effects of a vegetation analysis up to the hiding of the indicator. *)
Definition vegetation_loading (call : AjaxSettings) (o : AjaxOutcome) : list Event :=
  EvShowLoading (lit "Analyzing vegetation indices...")
    (lit "Processing Sentinel-2 imagery")
  :: request_events call o ++ [EvHideLoading].

Definition landcover_loading (call : AjaxSettings) (o : AjaxOutcome) : list Event :=
  EvShowLoading (lit "Analyzing land cover...") (lit "Processing land cover datasets")
  :: request_events call o ++ [EvHideLoading].

(** How a vegetation analysis made with an AOI completes, for the outcome
    of its request: it throws on a reply without a body, whose member the
    success alert reads, and on a number of images or an error that does
    not print. *)
Definition vegetation_completion (o : AjaxOutcome) : Completion JsVal :=
  match o with
  | Resolved body =>
      if nullish body
      then Throw (TypeError (lit "Cannot read properties of undefined or null"))
      else if prints (get_prop body (lit "collection_size")) then Normal body
      else Throw conversion_error
  | Rejected xhr =>
      if prints (error (response_of o)) then Normal JNull else Throw conversion_error
  end.

(** The alert of a vegetation analysis; none when the analysis throws. *)
Definition vegetation_alert (o : AjaxOutcome) : list Event :=
  match o with
  | Resolved body =>
      if nullish body then []
      else if prints (get_prop body (lit "collection_size"))
      then [EvShowAlert
              (lit "Analysis complete! Found "
                 ++ to_string (get_prop body (lit "collection_size"))
                 ++ lit " images") (lit "success")]
      else []
  | Rejected xhr =>
      if prints (error (response_of o))
      then [EvShowAlert
              (lit "Vegetation analysis failed: " ++ to_string (error (response_of o)))
              (lit "danger")]
      else []
  end.

(** The effects of a whole vegetation analysis. *)
Definition vegetation_events (call : AjaxSettings) (o : AjaxOutcome) : list Event :=
  vegetation_loading call o ++ vegetation_alert o.

Definition landcover_completion (o : AjaxOutcome) : Completion JsVal :=
  match o with
  | Resolved body => Normal body
  | Rejected xhr =>
      if prints (error (response_of o)) then Normal JNull else Throw conversion_error
  end.

Definition landcover_alert (o : AjaxOutcome) : list Event :=
  match o with
  | Resolved _ => [EvShowAlert (lit "Land cover analysis complete!") (lit "success")]
  | Rejected xhr =>
      if prints (error (response_of o))
      then [EvShowAlert
              (lit "Land cover analysis failed: " ++ to_string (error (response_of o)))
              (lit "danger")]
      else []
  end.

Definition landcover_events (call : AjaxSettings) (o : AjaxOutcome) : list Event :=
  landcover_loading call o ++ landcover_alert o.

Lemma vegetation_run (st : State) (aoi : AOI) :
  currentAOI st = Some aoi ->
  runVegetationAnalysisAPI st =
  (vegetation_completion (network st (sent (trace st))),
   with_trace
     (trace st
        ++ vegetation_events (vegetation_call aoi (dom st) (selectedIndices st))
             (network st (sent (trace st)))) st).
Proof.
  intros H. unfold runVegetationAnalysisAPI, analyzeVegetation. run. rewrite H. run.
  rewrite request_run. simpl. rewrite sent_app. simpl. rewrite Nat.add_0_r.
  unfold vegetation_events, vegetation_loading, vegetation_call, vegetation_completion,
    vegetation_alert.
  destruct (network st (sent (trace st))) as [body|xhr]; simpl.
  - unfold member.
    destruct body; simpl; rewrite ?ToString_run;
      try match goal with
          | |- context [prints ?v] => destruct (prints v)
          end;
      unfold with_trace; simpl; repeat rewrite <- app_assoc; simpl;
      rewrite ?H, ?app_nil_r; reflexivity.
  - rewrite ToString_run.
    match goal with |- context [prints ?v] => destruct (prints v) end;
      unfold with_trace; simpl; repeat rewrite <- app_assoc; simpl;
      rewrite ?H, ?app_nil_r; reflexivity.
Qed.

Lemma landcover_run (st : State) (aoi : AOI) :
  currentAOI st = Some aoi ->
  runLandCoverAnalysisAPI st =
  (landcover_completion (network st (sent (trace st))),
   with_trace
     (trace st
        ++ landcover_events (landcover_call aoi (dom st))
             (network st (sent (trace st)))) st).
Proof.
  intros H. unfold runLandCoverAnalysisAPI, analyzeLandCover. run. rewrite H. run.
  rewrite request_run. simpl. rewrite sent_app. simpl. rewrite Nat.add_0_r.
  unfold landcover_events, landcover_loading, landcover_call, landcover_completion,
    landcover_alert.
  destruct (network st (sent (trace st))) as [body|xhr]; simpl.
  - unfold with_trace; simpl; repeat rewrite <- app_assoc; simpl; rewrite ?H;
      reflexivity.
  - rewrite ToString_run.
    match goal with |- context [prints ?v] => destruct (prints v) end;
      unfold with_trace; simpl; repeat rewrite <- app_assoc; simpl;
      rewrite ?H, ?app_nil_r; reflexivity.
Qed.

(** C7: with no AOI selected, the vegetation analysis, the land-cover
    analysis and the composite analysis each show one alert of severity
    [warning], send nothing over the network, and return their empty
    value ([null] for the two analyses, nothing for the composite); the
    page is otherwise left as it was. *)
Theorem no_aoi_aborts_with_warning (st : State) :
  currentAOI st = None ->
  let warning := [EvShowAlert (lit "Please select an AOI first") (lit "warning")] in
  runVegetationAnalysisAPI st = (Normal JNull, with_trace (trace st ++ warning) st) /\
  runLandCoverAnalysisAPI st = (Normal JNull, with_trace (trace st ++ warning) st) /\
  runCompleteAnalysis st = (Normal tt, with_trace (trace st ++ warning) st) /\
  sent warning = 0.
Proof.
  intros H warning.
  unfold runVegetationAnalysisAPI, runLandCoverAnalysisAPI, runCompleteAnalysis.
  run. rewrite H. run. unfold with_trace. rewrite ?H. repeat split; reflexivity.
Qed.

(** C9: [downloadStatisticsReal] has no guard on the AOI: with no AOI
    selected it throws a [TypeError] on [currentAOI.name], where the
    analysis operations show a warning; no alert is shown and nothing is
    downloaded. *)
Theorem download_without_aoi_throws (st : State) :
  currentAOI st = None ->
  (exists message, fst (downloadStatisticsReal st) = Throw (TypeError message)) /\
  trace (snd (downloadStatisticsReal st)) = trace st /\
  fst (runVegetationAnalysisAPI st) = Normal JNull.
Proof.
  intros H. unfold downloadStatisticsReal, runVegetationAnalysisAPI, new_Date.
  run. rewrite H. run. repeat split; eauto.
Qed.

(** ** The loads *)

Ltac step :=
  unfold bind, get, emit, modify, ret, throw, try_catch, showLoading, hideLoading,
    showAlert, showAOIInfo, displayResults, console_error, with_trace; simpl.

Ltac stepin H :=
  unfold bind, get, emit, modify, ret, throw, try_catch, showLoading, hideLoading,
    showAlert, showAOIInfo, displayResults, console_error, with_trace in H;
  simpl in H.

Ltac finish :=
  repeat split; simpl; rewrite ?app_nil_r; repeat rewrite <- app_assoc; simpl;
  rewrite ?app_nil_r; try reflexivity;
  try (match goal with |- context [dom ?s] => destruct (dom s) end; simpl;
       rewrite ?app_nil_r; repeat rewrite <- app_assoc; reflexivity).

(** The markup the province selector is reset to, and the two fixed
    options of the city selector. *)
Definition province_placeholder : jsstring :=
  lit "<option value=" ++ dq ++ dq ++ lit ">-- Select Province --</option>".

Definition city_placeholder : jsstring :=
  lit "<option value=" ++ dq ++ dq ++ lit ">-- Select City --</option>".

Definition use_province_option : jsstring :=
  lit "<option value=" ++ dq ++ lit "use_province" ++ dq
    ++ lit ">-- Use Province --</option>".

(** The options of the entries, one per entry, in order. *)
Definition options_markup (entries : list (jsstring * JsVal)) : jsstring :=
  List.concat (map (fun e => option_markup (to_string (snd e)) (fst e)) entries).

(** Every code of the reply prints. *)
Definition all_print (entries : list (jsstring * JsVal)) : bool :=
  forallb (fun e => prints (snd e)) entries.

(** The entries before the first one whose code does not print: those the
    loop of a load reaches. *)
Fixpoint printed (entries : list (jsstring * JsVal)) : list (jsstring * JsVal) :=
  match entries with
  | [] => []
  | e :: r => if prints (snd e) then e :: printed r else []
  end.

Lemma printed_all (entries : list (jsstring * JsVal)) :
  all_print entries = true -> printed entries = entries.
Proof.
  induction entries as [|e r IH]; [reflexivity|]. simpl. intros H.
  apply andb_prop in H. destruct H as [P H]. rewrite P, (IH H). reflexivity.
Qed.

(** The effects of a load up to the hiding of the indicator. *)
Definition loading_events (title subtitle : jsstring) (call : AjaxSettings)
  (o : AjaxOutcome) : list Event :=
  EvShowLoading title subtitle :: request_events call o ++ [EvHideLoading].

Lemma for_of_province_append (entries : list (jsstring * JsVal)) (st : State) :
  for_of entries
    (fun e => code <- ToString (snd e) ;;
              provinceSelect_append (option_markup code (fst e))) st
  = (if all_print entries then Normal tt else Throw conversion_error,
     with_dom (provinceSelect_set_html
                 (provinceSelect_html (dom st) ++ options_markup (printed entries))
                 (dom st)) st).
Proof.
  revert st. induction entries as [|e r IH]; intros st.
  - change (options_markup (printed [])) with (@nil code_unit). rewrite app_nil_r.
    destruct st as [a r i d l n c cr u t]. destruct d. reflexivity.
  - cbn [for_of all_print forallb printed]. fold (all_print r).
    unfold bind at 1. unfold bind at 1. rewrite ToString_run.
    destruct (prints (snd e)).
    + change (options_markup (e :: printed r))
        with (option_markup (to_string (snd e)) (fst e) ++ options_markup (printed r)).
      unfold provinceSelect_append at 1. unfold modify at 1.
      rewrite IH. destruct st as [a r0 i d l n c cr u t]. destruct d.
      unfold with_dom, provinceSelect_set_html.
      cbn -[option_markup options_markup app all_print printed].
      rewrite <- app_assoc. reflexivity.
    + change (options_markup []) with (@nil code_unit). rewrite app_nil_r.
      destruct st as [a r0 i d l n c cr u t]. destruct d. reflexivity.
Qed.

Lemma for_of_city_append (entries : list (jsstring * JsVal)) (st : State) :
  for_of entries
    (fun e => code <- ToString (snd e) ;;
              citySelect_append (option_markup code (fst e))) st
  = (if all_print entries then Normal tt else Throw conversion_error,
     with_dom (citySelect_set_html
                 (citySelect_html (dom st) ++ options_markup (printed entries))
                 (dom st)) st).
Proof.
  revert st. induction entries as [|e r IH]; intros st.
  - change (options_markup (printed [])) with (@nil code_unit). rewrite app_nil_r.
    destruct st as [a r i d l n c cr u t]. destruct d. reflexivity.
  - cbn [for_of all_print forallb printed]. fold (all_print r).
    unfold bind at 1. unfold bind at 1. rewrite ToString_run.
    destruct (prints (snd e)).
    + change (options_markup (e :: printed r))
        with (option_markup (to_string (snd e)) (fst e) ++ options_markup (printed r)).
      unfold citySelect_append at 1. unfold modify at 1.
      rewrite IH. destruct st as [a r0 i d l n c cr u t]. destruct d.
      unfold with_dom, citySelect_set_html.
      cbn -[option_markup options_markup app all_print printed].
      rewrite <- app_assoc. reflexivity.
    + change (options_markup []) with (@nil code_unit). rewrite app_nil_r.
      destruct st as [a r0 i d l n c cr u t]. destruct d. reflexivity.
Qed.

Definition provinces_call : AjaxSettings :=
  ajax_settings apiClient (lit "/regions/provinces") no_options.

Definition cities_call (provinceCode : JsVal) : AjaxSettings :=
  ajax_settings apiClient
    (lit "/regions/cities?province_code=" ++ to_string provinceCode) no_options.

Definition geometry_call (endpoint code : JsVal) : AjaxSettings :=
  ajax_settings apiClient
    (lit "/regions/geometry?endpoint=" ++ to_string endpoint
       ++ lit "&code=" ++ to_string code) no_options.

(** Everything of the page but the DOM and the trace is as it was. *)
Definition same_globals (st st' : State) : Prop :=
  currentAOI st' = currentAOI st /\ analysisResults st' = analysisResults st /\
  selectedIndices st' = selectedIndices st /\ drawnItems st' = drawnItems st /\
  clock_reads st' = clock_reads st.

(** How a load of provinces or cities completes. *)
Definition load_completion (o : AjaxOutcome) : Completion JsVal :=
  match o with
  | Resolved body =>
      match object_entries body with
      | Some entries => if all_print entries then Normal body else Throw conversion_error
      | None => Throw (TypeError (lit "Cannot convert undefined or null to object"))
      end
  | Rejected _ =>
      if prints (error (response_of o)) then Normal (JObj []) else Throw conversion_error
  end.

(** The alert of a failed request, when its error prints. *)
Definition failure_alert (prefix : jsstring) (o : AjaxOutcome) : list Event :=
  match o with
  | Resolved _ => []
  | Rejected _ =>
      if prints (error (response_of o))
      then [EvShowAlert (prefix ++ to_string (error (response_of o))) (lit "danger")]
      else []
  end.

(** The options a load puts after the fixed ones. *)
Definition loaded_options (o : AjaxOutcome) : jsstring :=
  match o with
  | Resolved body =>
      match object_entries body with
      | Some entries => options_markup (printed entries)
      | None => []
      end
  | Rejected _ => []
  end.

Lemma loadProvinces_run (st : State) :
  let o := network st (sent (trace st)) in
  let r := loadProvincesFromAPI st in
  fst r = load_completion o /\
  trace (snd r)
  = trace st
      ++ loading_events (lit "Loading provinces...") (lit "Fetching data from server")
           provinces_call o
      ++ failure_alert (lit "Failed to load provinces: ") o /\
  dom (snd r)
  = match o with
    | Resolved _ =>
        provinceSelect_set_html (province_placeholder ++ loaded_options o) (dom st)
    | Rejected _ => dom st
    end /\
  same_globals st (snd r).
Proof.
  intros o r. subst r.
  destruct (loadProvincesFromAPI st) as [c st'] eqn:E.
  unfold loadProvincesFromAPI, getProvinces in E. stepin E.
  rewrite request_run in E. simpl in E. rewrite sent_app in E. simpl in E.
  rewrite Nat.add_0_r in E. fold o in E.
  unfold loading_events, provinces_call, same_globals, province_placeholder,
    load_completion, failure_alert, loaded_options.
  destruct o as [body|xhr]; simpl in E.
  - unfold Object_entries in E. destruct (object_entries body) as [entries|]; simpl in E.
    + rewrite for_of_province_append in E.
      destruct (all_print entries); injection E as <- <-; finish.
    + injection E as <- <-. finish.
  - rewrite ToString_run in E.
    match type of E with context [prints ?v] => change v with (error (response_of (Rejected xhr))) in E end.
    destruct (prints (error (response_of (Rejected xhr)))); injection E as <- <-; finish.
Qed.

Lemma loadCities_run (provinceCode : JsVal) (st : State) :
  let o := network st (sent (trace st)) in
  let r := loadCitiesFromAPI provinceCode st in
  fst r = load_completion o /\
  trace (snd r)
  = trace st
      ++ loading_events (lit "Loading cities...") (lit "Fetching data from server")
           (cities_call provinceCode) o
      ++ failure_alert (lit "Failed to load cities: ") o /\
  dom (snd r)
  = match o with
    | Resolved _ =>
        citySelect_set_html
          (city_placeholder ++ use_province_option ++ loaded_options o) (dom st)
    | Rejected _ => dom st
    end /\
  same_globals st (snd r).
Proof.
  intros o r. subst r.
  destruct (loadCitiesFromAPI provinceCode st) as [c st'] eqn:E.
  unfold loadCitiesFromAPI, getCities in E. stepin E.
  rewrite request_run in E. simpl in E. rewrite sent_app in E. simpl in E.
  rewrite Nat.add_0_r in E. fold o in E.
  unfold loading_events, cities_call, same_globals, city_placeholder,
    use_province_option, load_completion, failure_alert, loaded_options.
  destruct o as [body|xhr]; simpl in E.
  - unfold Object_entries in E. destruct (object_entries body) as [entries|]; simpl in E.
    + unfold citySelect_append at 1 in E. unfold modify at 1 in E. simpl in E.
      rewrite for_of_city_append in E.
      destruct (all_print entries); injection E as <- <-; finish.
    + unfold citySelect_append, modify in E. injection E as <- <-. finish.
  - rewrite ToString_run in E.
    match type of E with context [prints ?v] => change v with (error (response_of (Rejected xhr))) in E end.
    destruct (prints (error (response_of (Rejected xhr)))); injection E as <- <-; finish.
Qed.

(** How a load of a region completes. *)
Definition geometry_completion (o : AjaxOutcome) : Completion JsVal :=
  match o with
  | Resolved body => if truthy body then Normal body else Normal JNull
  | Rejected _ =>
      if prints (error (response_of o)) then Normal JNull else Throw conversion_error
  end.

(** The effects of a load of a region after the hiding of the indicator. *)
Definition geometry_branch (o : AjaxOutcome) : list Event :=
  match o with
  | Resolved body =>
      if truthy body
      then [EvFitBounds (geoJSON_getBounds body); EvShowAOIInfo;
            EvShowAlert (lit "Region loaded successfully!") (lit "success")]
      else [EvShowAlert (lit "Failed to load region geometry: Unknown error")
              (lit "danger")]
  | Rejected _ => failure_alert (lit "Failed to load region geometry: ") o
  end.

Lemma loadRegionGeometry_run (endpoint code : JsVal) (st : State) :
  let o := network st (sent (trace st)) in
  let r := loadRegionGeometryFromAPI endpoint code st in
  fst r = geometry_completion o /\
  trace (snd r)
  = trace st
      ++ loading_events (lit "Loading region geometry...")
           (lit "Fetching boundary data") (geometry_call endpoint code) o
      ++ geometry_branch o /\
  currentAOI (snd r)
  = match o with
    | Resolved geojson =>
        if truthy geojson
        then Some {| aoi_type := lit "admin";
                     aoi_name := match citySelect_selected_text (dom st) with
                                 | [] => provinceSelect_selected_text (dom st)
                                 | _ => citySelect_selected_text (dom st)
                                 end;
                     aoi_geometry := geoJSON_getBounds geojson;
                     aoi_area := calculateAreaFromBounds (geoJSON_getBounds geojson);
                     aoi_geojson := geojson |}
        else currentAOI st
    | Rejected _ => currentAOI st
    end /\
  drawnItems (snd r)
  = match o with
    | Resolved geojson =>
        if truthy geojson then [GeoJsonLayer geojson] else drawnItems st
    | Rejected _ => drawnItems st
    end /\
  dom (snd r) = dom st /\ analysisResults (snd r) = analysisResults st /\
  selectedIndices (snd r) = selectedIndices st.
Proof.
  intros o r. subst r.
  destruct (loadRegionGeometryFromAPI endpoint code st) as [c st'] eqn:E.
  unfold loadRegionGeometryFromAPI, getRegionGeometry in E. stepin E.
  rewrite request_run in E. simpl in E. rewrite sent_app in E. simpl in E.
  rewrite Nat.add_0_r in E. fold o in E.
  unfold loading_events, geometry_call, geometry_completion,
    geometry_branch, failure_alert.
  destruct o as [body|xhr]; simpl in E.
  - destruct (truthy body) eqn:T; simpl in E; injection E as <- <-; finish.
  - pose proof (error_truthy xhr) as T. simpl in T.
    unfold js_or in E at 1. rewrite T in E. rewrite ToString_run in E.
    match type of E with context [prints ?v] => change v with (error (response_of (Rejected xhr))) in E end.
    destruct (prints (error (response_of (Rejected xhr)))); injection E as <- <-; finish.
Qed.

Lemma new_events_of_trace {A} (m : M A) (st : State) (evs : list Event) :
  trace (snd (m st)) = trace st ++ evs -> new_events m st = evs.
Proof. intros E. unfold new_events. rewrite E. apply skipn_length_app. Qed.
Arguments new_events_of_trace {A} m st [evs] _.

(** C10, as the script has it: when the geometry request fails, or
    succeeds with empty (falsy) data, [loadRegionGeometryFromAPI] leaves
    the current AOI and the drawn layers as they were, and returns
    [null]; only when the error of a failed request does not print does
    it throw, on the concatenation that builds its alert, instead of
    returning. *)
Theorem failed_geometry_load_keeps_aoi_and_layers (endpoint code : JsVal) (st : State) :
  match network st (sent (trace st)) with
  | Resolved body => truthy body = false
  | Rejected _ => True
  end ->
  fst (loadRegionGeometryFromAPI endpoint code st)
  = match network st (sent (trace st)) with
    | Resolved _ => Normal JNull
    | Rejected xhr =>
        if prints (error (response_of (Rejected xhr))) then Normal JNull
        else Throw conversion_error
    end /\
  currentAOI (snd (loadRegionGeometryFromAPI endpoint code st)) = currentAOI st /\
  drawnItems (snd (loadRegionGeometryFromAPI endpoint code st)) = drawnItems st.
Proof.
  intros H.
  destruct (loadRegionGeometry_run endpoint code st) as (R & _ & A & L & _).
  rewrite R, A, L. unfold geometry_completion.
  destruct (network st (sent (trace st))) as [body|xhr].
  - rewrite H. repeat split.
  - repeat split.
Qed.

(** ** The loading indicator *)













(** ** The composite analysis *)

Definition runs_vegetation (analysisType : JsVal) : bool :=
  is_string analysisType (lit "vegetation") || is_string analysisType (lit "combined").

Definition runs_landcover (analysisType : JsVal) : bool :=
  is_string analysisType (lit "landcover") || is_string analysisType (lit "combined").

Definition is_some {A} (x : option A) : bool :=
  match x with Some _ => true | None => false end.

(** The payload a sub-operation hands to the composite: the value it
    returns, when it returns one and the value is not empty (truthy), as
    [if (vegData)] and [if (lcData)] test it. *)
Definition payload (c : Completion JsVal) : option JsVal :=
  match c with
  | Normal v => if truthy v then Some v else None
  | Throw _ => None
  end.

(** What the [catch] clause of the composite does with a sub-operation
    that threw. *)
Definition caught {A} (c : Completion A) : list Event :=
  match c with
  | Throw e =>
      [EvConsoleError (lit "Analysis error:") e;
       EvShowAlert (lit "An error occurred during analysis") (lit "danger")]
  | Normal _ => []
  end.

(** The vegetation sub-operation of a composite run started in [st]
    throws. *)
Definition vegetation_throws (st : State) : bool :=
  runs_vegetation (analysisType_val (dom st)) &&
  is_throw (vegetation_completion (network st (sent (trace st)))).

(** The vegetation sub-operation hands this payload back. *)
Definition vegetation_success (st : State) : option JsVal :=
  if runs_vegetation (analysisType_val (dom st))
  then payload (vegetation_completion (network st (sent (trace st))))
  else None.

(** The outcome of the request of the land-cover sub-operation: the first
    network call of the run, or the second when the vegetation
    sub-operation made one before. *)
Definition landcover_outcome (st : State) : AjaxOutcome :=
  if runs_vegetation (analysisType_val (dom st))
  then network st (S (sent (trace st)))
  else network st (sent (trace st)).

(** The land-cover sub-operation is run: the analysis type asks for it and
    the vegetation sub-operation did not throw. *)
Definition landcover_runs (st : State) : bool :=
  runs_landcover (analysisType_val (dom st)) && negb (vegetation_throws st).

Definition landcover_throws (st : State) : bool :=
  landcover_runs st && is_throw (landcover_completion (landcover_outcome st)).

Definition landcover_success (st : State) : option JsVal :=
  if landcover_runs st
  then payload (landcover_completion (landcover_outcome st))
  else None.

(** A sub-operation of the composite run throws. *)
Definition composite_throws (st : State) : bool :=
  vegetation_throws st || landcover_throws st.

(** What the composite leaves in [analysisResults]. *)
Definition composite_results (st : State) : JsVal :=
  JObj
    (match vegetation_success st with
     | Some vegData =>
         [(lit "vegetation", get_prop vegData (lit "indices"));
          (lit "rgb_tile_url", get_prop vegData (lit "rgb_tile_url"));
          (lit "collection_size", get_prop vegData (lit "collection_size"))]
     | None => []
     end ++
     match landcover_success st with
     | Some lcData => [(lit "landcover", lcData)]
     | None => []
     end).

(** The effects of a composite run with an AOI selected. *)
Definition composite_events (aoi : AOI) (st : State) : list Event :=
  (if runs_vegetation (analysisType_val (dom st))
   then vegetation_events (vegetation_call aoi (dom st) (selectedIndices st))
          (network st (sent (trace st)))
   else []) ++
  if vegetation_throws st then
    caught (vegetation_completion (network st (sent (trace st))))
  else
    (if runs_landcover (analysisType_val (dom st))
     then landcover_events (landcover_call aoi (dom st)) (landcover_outcome st)
     else []) ++
    if landcover_throws st then
      caught (landcover_completion (landcover_outcome st))
    else if is_some (vegetation_success st) || is_some (landcover_success st)
    then [EvDisplayResults; EvScrollToResults]
    else [].

Lemma nullish_falsy (v : JsVal) : nullish v = true -> truthy v = false.
Proof. destruct v; simpl; congruence. Qed.

Lemma sent_vegetation_events (call : AjaxSettings) (o : AjaxOutcome) :
  sent (vegetation_events call o) = 1.
Proof.
  unfold vegetation_events, vegetation_alert. rewrite sent_app.
  destruct o as [body|xhr]; simpl.
  - destruct (nullish body); [reflexivity|]. destruct (prints _); reflexivity.
  - destruct (prints _); reflexivity.
Qed.

Lemma sent_landcover_events (call : AjaxSettings) (o : AjaxOutcome) :
  sent (landcover_events call o) = 1.
Proof.
  unfold landcover_events, landcover_alert. rewrite sent_app.
  destruct o as [body|xhr]; simpl; [reflexivity|]. destruct (prints _); reflexivity.
Qed.

Lemma runCompleteAnalysis_run (st : State) (aoi : AOI) :
  currentAOI st = Some aoi ->
  runCompleteAnalysis st =
  (Normal tt,
   with_trace (trace st ++ composite_events aoi st)
     (with_analysisResults (composite_results st) st)).
Proof.
  intros H.
  unfold runCompleteAnalysis, composite_events, composite_results,
    vegetation_success, landcover_success, landcover_throws, landcover_runs,
    vegetation_throws, landcover_outcome, runs_vegetation, runs_landcover,
    analysisResults_set.
  Opaque vegetation_events landcover_events vegetation_completion landcover_completion.
  run. rewrite H. run.
  destruct (is_string (analysisType_val (dom st)) (lit "vegetation"));
    destruct (is_string (analysisType_val (dom st)) (lit "combined"));
    destruct (is_string (analysisType_val (dom st)) (lit "landcover")); simpl.
  all: repeat
    match goal with
    | |- context [runVegetationAnalysisAPI ?s] =>
        rewrite (@vegetation_run s aoi) by (simpl; rewrite ?H; reflexivity); simpl;
        destruct (vegetation_completion (network st (sent (trace st))))
          as [v1|e1] eqn:E1; simpl;
        [ destruct (truthy v1) eqn:T1; simpl | ]
    | |- context [runLandCoverAnalysisAPI ?s] =>
        rewrite (@landcover_run s aoi) by (simpl; rewrite ?H; reflexivity); simpl;
        rewrite ?sent_app, ?sent_vegetation_events; simpl;
        rewrite ?Nat.add_0_r, ?Nat.add_1_r;
        match goal with
        | |- context [landcover_completion ?o] =>
            destruct (landcover_completion o) as [v2|e2] eqn:E2; simpl;
            [ destruct (truthy v2) eqn:T2; simpl | ]
        end
    end.
  all: unfold with_trace, with_analysisResults; simpl;
       rewrite ?T1, ?T2; simpl;
       repeat rewrite <- app_assoc; simpl; rewrite ?H, ?app_nil_r; reflexivity.
  Transparent vegetation_events landcover_events vegetation_completion
    landcover_completion.
Qed.

Lemma runCompleteAnalysis_no_aoi (st : State) :
  currentAOI st = None ->
  runCompleteAnalysis st =
  (Normal tt,
   with_trace
     (trace st ++ [EvShowAlert (lit "Please select an AOI first") (lit "warning")]) st).
Proof.
  intros H. unfold runCompleteAnalysis. run. rewrite H. run.
  unfold with_trace. rewrite ?H. reflexivity.
Qed.

Lemma composite_new_events (st : State) (aoi : AOI) :
  currentAOI st = Some aoi ->
  new_events runCompleteAnalysis st = composite_events aoi st.
Proof.
  intros H. unfold new_events. rewrite (runCompleteAnalysis_run st H). simpl.
  apply skipn_length_app.
Qed.

(** The results were rendered. *)
Definition displayed (t : list Event) : bool :=
  existsb (fun e => match e with EvDisplayResults => true | _ => false end) t.

Lemma displayed_app (a b : list Event) : displayed (a ++ b) = displayed a || displayed b.
Proof. apply existsb_app. Qed.

Lemma displayed_vegetation_events (call : AjaxSettings) (o : AjaxOutcome) :
  displayed (vegetation_events call o) = false.
Proof.
  unfold vegetation_events, vegetation_alert. rewrite displayed_app.
  destruct o as [body|xhr]; simpl.
  - destruct (nullish body); [reflexivity|]. destruct (prints _); reflexivity.
  - destruct (prints _); reflexivity.
Qed.

Lemma displayed_landcover_events (call : AjaxSettings) (o : AjaxOutcome) :
  displayed (landcover_events call o) = false.
Proof.
  unfold landcover_events, landcover_alert. rewrite displayed_app.
  destruct o as [body|xhr]; simpl; [reflexivity|]. destruct (prints _); reflexivity.
Qed.

Lemma displayed_caught {A} (c : Completion A) : displayed (caught c) = false.
Proof. destruct c; reflexivity. Qed.

Lemma composite_displayed (st : State) (aoi : AOI) :
  displayed (composite_events aoi st)
  = (is_some (vegetation_success st) || is_some (landcover_success st))
    && negb (composite_throws st).
Proof.
  unfold composite_events, composite_throws. rewrite displayed_app.
  assert (V : displayed
                (if runs_vegetation (analysisType_val (dom st))
                 then vegetation_events
                        (vegetation_call aoi (dom st) (selectedIndices st))
                        (network st (sent (trace st)))
                 else []) = false).
  { destruct (runs_vegetation _); [apply displayed_vegetation_events | reflexivity]. }
  rewrite V. cbn [orb].
  destruct (vegetation_throws st) eqn:T.
  - rewrite displayed_caught. cbn [orb negb]. rewrite andb_false_r. reflexivity.
  - rewrite displayed_app.
    assert (L : displayed
                  (if runs_landcover (analysisType_val (dom st))
                   then landcover_events (landcover_call aoi (dom st))
                          (landcover_outcome st)
                   else []) = false).
    { destruct (runs_landcover _); [apply displayed_landcover_events | reflexivity]. }
    rewrite L. cbn [orb].
    destruct (landcover_throws st).
    + rewrite displayed_caught. cbn [negb]. rewrite andb_false_r. reflexivity.
    + cbn [negb]. rewrite andb_true_r.
      destruct (is_some (vegetation_success st) || is_some (landcover_success st));
        reflexivity.
Qed.

(** C2, in the form the script satisfies: in a composite run with an AOI
    selected, [analysisResults] ends up holding the result of every
    sub-operation that handed back a payload that is not empty, whether
    the other one failed, threw or handed nothing back; and the results
    are displayed if and only if at least one sub-operation handed such a
    payload back and none threw.  In particular, with analysis type
    [combined], a vegetation analysis that hands back a payload whose
    number of images prints and a land-cover request that fails leave the
    vegetation result in [analysisResults]; the results are then
    displayed exactly when the error of the failed request prints, the
    land-cover analysis throwing on its alert otherwise. *)
Theorem composite_keeps_successful_results (st : State) (aoi : AOI) :
  currentAOI st = Some aoi ->
  analysisResults (snd (runCompleteAnalysis st)) = composite_results st /\
  displayed (new_events runCompleteAnalysis st)
  = (is_some (vegetation_success st) || is_some (landcover_success st))
    && negb (composite_throws st) /\
  (forall (vegData : JsVal) (xhr : JqXHR),
      analysisType_val (dom st) = JStr (lit "combined") ->
      network st (sent (trace st)) = Resolved vegData ->
      truthy vegData = true ->
      prints (get_prop vegData (lit "collection_size")) = true ->
      network st (S (sent (trace st))) = Rejected xhr ->
      analysisResults (snd (runCompleteAnalysis st))
      = JObj [(lit "vegetation", get_prop vegData (lit "indices"));
              (lit "rgb_tile_url", get_prop vegData (lit "rgb_tile_url"));
              (lit "collection_size", get_prop vegData (lit "collection_size"))] /\
      displayed (new_events runCompleteAnalysis st)
      = prints (error (response_of (Rejected xhr)))).
Proof.
  intros H. rewrite (composite_new_events st H), composite_displayed.
  rewrite (runCompleteAnalysis_run st H). simpl.
  split; [reflexivity|]. split; [reflexivity|].
  intros vegData xhr Ty V T P L.
  assert (N : nullish vegData = false).
  { destruct vegData; try reflexivity; discriminate. }
  unfold composite_results, composite_throws, vegetation_success, landcover_success,
    landcover_throws, landcover_runs, landcover_outcome, vegetation_throws.
  rewrite Ty, V, L.
  replace (runs_vegetation (JStr (lit "combined"))) with true by reflexivity.
  replace (runs_landcover (JStr (lit "combined"))) with true by reflexivity.
  unfold vegetation_completion, landcover_completion. rewrite N, P.
  cbn [is_throw andb negb payload orb]. rewrite T.
  match goal with
  | |- context [if ?b then _ else _] => destruct b eqn:Pe
  end; (split; [reflexivity|]); symmetry; exact Pe.
Qed.

(** ** Order of the network calls *)

(** Calls go out one at a time: a call is sent only when none is in
    flight.  [busy] tells that a call is in flight where the trace starts. *)
Fixpoint serial (busy : bool) (t : list Event) : bool :=
  match t with
  | [] => true
  | EvAjaxSend _ :: r => negb busy && serial true r
  | EvAjaxSettle _ :: r => busy && serial false r
  | _ :: r => serial busy r
  end.

(** No vegetation call goes out after a land-cover call. *)
Fixpoint vegetation_first (t : list Event) : bool :=
  match t with
  | [] => true
  | EvAjaxSend s :: r =>
      (if jsstring_eqb (ajax_url s) (this_baseURL apiClient ++ lit "/analyze/landcover")
       then Nat.eqb (calls_to (lit "/analyze/vegetation") r) 0 else true)
      && vegetation_first r
  | _ :: r => vegetation_first r
  end.

Lemma jsstring_eqb_refl (a : jsstring) : jsstring_eqb a a = true.
Proof. induction a; simpl; [reflexivity|]. rewrite N.eqb_refl. assumption. Qed.

Lemma jsstring_eqb_eq (a b : jsstring) : jsstring_eqb a b = true <-> a = b.
Proof.
  split; [|intros ->; apply jsstring_eqb_refl].
  revert b. induction a as [|x a IH]; destruct b as [|y b]; simpl; try discriminate; auto.
  intros E. apply andb_prop in E. destruct E as [E1 E2].
  apply N.eqb_eq in E1. subst. f_equal. auto.
Qed.

Lemma serial_prefix (before rest : list Event) (busy : bool) :
  serial busy (before ++ rest) = true ->
  exists busy',
    serial busy' rest = true /\
    sent before + (if busy then 1 else 0) = settled before + (if busy' then 1 else 0).
Proof.
  revert busy. induction before as [|e before IH]; intros busy E; simpl in *.
  - exists busy. auto.
  - destruct e; simpl in *; try (apply IH; assumption).
    + apply andb_prop in E. destruct E as [B E]. destruct busy; [discriminate|].
      destruct (IH _ E) as (b' & S' & C). exists b'. split; [assumption|].
      simpl in *. lia.
    + apply andb_prop in E. destruct E as [B E]. destruct busy; [|discriminate].
      destruct (IH _ E) as (b' & S' & C). exists b'. split; [assumption|].
      simpl in *. lia.
Qed.

Lemma serial_send_idle (before after : list Event) (call : AjaxSettings) :
  serial false (before ++ EvAjaxSend call :: after) = true ->
  in_flight before = 0.
Proof.
  intros E. destruct (serial_prefix _ _ _ E) as (b' & S' & C).
  simpl in S'. destruct b'; [discriminate|]. unfold in_flight. lia.
Qed.

Lemma vegetation_first_split (before after : list Event) (call : AjaxSettings) :
  vegetation_first (before ++ EvAjaxSend call :: after) = true ->
  ajax_url call = this_baseURL apiClient ++ lit "/analyze/landcover" ->
  calls_to (lit "/analyze/vegetation") after = 0.
Proof.
  intros E U. induction before as [|e before IH]; simpl in E.
  - rewrite U, jsstring_eqb_refl in E. apply andb_prop in E. destruct E as [E _].
    apply Nat.eqb_eq in E. exact E.
  - destruct e; try (apply IH; assumption).
    apply andb_prop in E. destruct E as [_ E]. apply IH. assumption.
Qed.

Lemma composite_serial (st : State) (aoi : AOI) :
  serial false (composite_events aoi st) = true /\
  vegetation_first (composite_events aoi st) = true.
Proof.
  unfold composite_events, vegetation_throws, vegetation_success, landcover_success,
    landcover_throws, landcover_runs, landcover_outcome, vegetation_throws,
    vegetation_events, landcover_events, vegetation_alert, landcover_alert,
    vegetation_completion, landcover_completion.
  destruct (runs_vegetation (analysisType_val (dom st)));
    destruct (runs_landcover (analysisType_val (dom st))); simpl.
  all: destruct (network st (sent (trace st))) as [body|xhr];
       try destruct (nullish body);
       try destruct (network st (S (sent (trace st)))) as [body2|xhr2]; simpl.
  all: repeat match goal with
         | |- context [if ?b then _ else _] => destruct b; simpl
         end; split; reflexivity.
Qed.

(** C5: in every composite run, a network call goes out only when no call
    is in flight, so two calls are never in flight together; and once the
    land-cover call has gone out no vegetation call follows: the
    vegetation analysis is resolved before the land-cover analysis begins. *)
Theorem vegetation_resolved_before_landcover (st : State)
  (before after : list Event) (call : AjaxSettings) :
  new_events runCompleteAnalysis st = before ++ EvAjaxSend call :: after ->
  in_flight before = 0 /\
  (ajax_url call = this_baseURL apiClient ++ lit "/analyze/landcover" ->
   calls_to (lit "/analyze/vegetation") after = 0).
Proof.
  intros E. destruct (currentAOI st) as [aoi|] eqn:H.
  - rewrite (composite_new_events st H) in E.
    destruct (composite_serial st aoi) as [S1 S2]. rewrite E in S1, S2.
    split; [eapply serial_send_idle; eassumption|].
    intros U. eapply vegetation_first_split; eassumption.
  - unfold new_events in E. rewrite (runCompleteAnalysis_no_aoi st H) in E.
    simpl in E. rewrite skipn_length_app in E.
    destruct before as [|e [|e' before]]; simpl in E; discriminate.
Qed.

Lemma calls_to_app (path : jsstring) (a b : list Event) :
  calls_to path (a ++ b) = calls_to path a + calls_to path b.
Proof.
  induction a as [|e a IH]; simpl; [reflexivity|].
  destruct e; simpl; try assumption.
  destruct (jsstring_eqb _ _); simpl; rewrite IH; reflexivity.
Qed.

Lemma calls_request_events (path : jsstring) (call : AjaxSettings) (o : AjaxOutcome) :
  calls_to path (request_events call o)
  = if jsstring_eqb (ajax_url call) (this_baseURL apiClient ++ path) then 1 else 0.
Proof.
  destruct o; simpl;
    destruct (jsstring_eqb (ajax_url call) (this_baseURL apiClient ++ path));
    reflexivity.
Qed.

Lemma calls_vegetation_alert (path : jsstring) (o : AjaxOutcome) :
  calls_to path (vegetation_alert o) = 0.
Proof.
  unfold vegetation_alert. destruct o as [body|xhr].
  - destruct (nullish body); [reflexivity|]. destruct (prints _); reflexivity.
  - destruct (prints _); reflexivity.
Qed.

Lemma calls_landcover_alert (path : jsstring) (o : AjaxOutcome) :
  calls_to path (landcover_alert o) = 0.
Proof.
  unfold landcover_alert. destruct o as [body|xhr]; [reflexivity|].
  destruct (prints _); reflexivity.
Qed.

Lemma calls_vegetation_events (path : jsstring) (aoi : AOI) (d : Dom)
  (indices : JsVal) (o : AjaxOutcome) :
  calls_to path (vegetation_events (vegetation_call aoi d indices) o)
  = if jsstring_eqb (lit "/analyze/vegetation") path then 1 else 0.
Proof.
  unfold vegetation_events, vegetation_loading.
  rewrite calls_to_app, calls_vegetation_alert.
  change (calls_to path (EvShowLoading ?a ?b :: ?r)) with (calls_to path r).
  rewrite calls_to_app, calls_request_events.
  change (jsstring_eqb (ajax_url (vegetation_call aoi d indices))
            (this_baseURL apiClient ++ path))
    with (jsstring_eqb (lit "/analyze/vegetation") path).
  destruct (jsstring_eqb (lit "/analyze/vegetation") path); reflexivity.
Qed.

Lemma calls_landcover_events (path : jsstring) (aoi : AOI) (d : Dom) (o : AjaxOutcome) :
  calls_to path (landcover_events (landcover_call aoi d) o)
  = if jsstring_eqb (lit "/analyze/landcover") path then 1 else 0.
Proof.
  unfold landcover_events, landcover_loading.
  rewrite calls_to_app, calls_landcover_alert.
  change (calls_to path (EvShowLoading ?a ?b :: ?r)) with (calls_to path r).
  rewrite calls_to_app, calls_request_events.
  change (jsstring_eqb (ajax_url (landcover_call aoi d))
            (this_baseURL apiClient ++ path))
    with (jsstring_eqb (lit "/analyze/landcover") path).
  destruct (jsstring_eqb (lit "/analyze/landcover") path); reflexivity.
Qed.

(** C6: a composite run with analysis type [vegetation] makes no call to
    the land-cover endpoint. *)
Theorem vegetation_only_never_calls_landcover (st : State) :
  analysisType_val (dom st) = JStr (lit "vegetation") ->
  calls_to (lit "/analyze/landcover") (new_events runCompleteAnalysis st) = 0.
Proof.
  intros Ty. destruct (currentAOI st) as [aoi|] eqn:H.
  - rewrite (composite_new_events st H).
    unfold composite_events, landcover_throws, landcover_runs. rewrite Ty.
    replace (runs_vegetation (JStr (lit "vegetation"))) with true by reflexivity.
    replace (runs_landcover (JStr (lit "vegetation"))) with false by reflexivity.
    cbn [andb app]. rewrite !calls_to_app, calls_vegetation_events.
    destruct (vegetation_throws st);
      [destruct (vegetation_completion _)|destruct (_ || _)]; reflexivity.
  - unfold new_events. rewrite (runCompleteAnalysis_no_aoi st H). simpl.
    rewrite skipn_length_app. reflexivity.
Qed.

(** ** The downloaded statistics *)

Definition starts_with_whitespace (s : jsstring) : bool :=
  match s with
  | [] => false
  | c :: _ => is_whitespace c
  end.

Lemma runs_concat (s : jsstring) : List.concat (map snd (runs s)) = s.
Proof.
  induction s as [|c t IH]; [reflexivity|]. simpl.
  destruct (runs t) as [|[kind block] rest]; simpl in *.
  - subst. reflexivity.
  - destruct (Bool.eqb kind (is_whitespace c)); simpl; rewrite IH; reflexivity.
Qed.

(** Every run is not empty and made of characters of its kind. *)
Lemma runs_uniform (s : jsstring) :
  Forall (fun r => snd r <> [] /\
                   forallb (fun c => Bool.eqb (is_whitespace c) (fst r)) (snd r) = true)
    (runs s).
Proof.
  induction s as [|c t IH]; [constructor|]. simpl.
  destruct (runs t) as [|[kind block] rest].
  - constructor; [|constructor]. simpl. split; [discriminate|].
    destruct (is_whitespace c); reflexivity.
  - inversion IH as [|? ? [N U] R]; subst. simpl in *.
    destruct (Bool.eqb kind (is_whitespace c)) eqn:E.
    + constructor; [|assumption]. simpl. split; [discriminate|].
      rewrite U. apply eqb_prop in E. subst. rewrite eqb_reflx. reflexivity.
    + constructor; [|constructor; [split; assumption|assumption]].
      simpl. split; [discriminate|]. rewrite eqb_reflx. reflexivity.
Qed.

(** Runs are maximal: neighbours are of different kinds. *)
Fixpoint alternate (l : list (bool * jsstring)) : Prop :=
  match l with
  | r :: ((r' :: _) as rest) => fst r <> fst r' /\ alternate rest
  | _ => True
  end.

Lemma runs_alternate (s : jsstring) : alternate (runs s).
Proof.
  induction s as [|c t IH]; [exact I|]. simpl.
  destruct (runs t) as [|[kind block] rest]; [exact I|].
  destruct (Bool.eqb kind (is_whitespace c)) eqn:E.
  - destruct rest; [exact I|]. exact IH.
  - split; [|exact IH]. simpl. intros Q. subst.
    rewrite eqb_reflx in E. discriminate.
Qed.

Lemma runs_head (s : jsstring) :
  match runs s with
  | [] => s = []
  | (kind, _) :: _ => kind = starts_with_whitespace s /\ s <> []
  end.
Proof.
  destruct s as [|c t]; [reflexivity|]. simpl.
  destruct (runs t) as [|[kind block] rest]; [split; [reflexivity|discriminate]|].
  destruct (Bool.eqb kind (is_whitespace c)) eqn:E.
  - apply eqb_prop in E. split; [assumption|discriminate].
  - split; [reflexivity|discriminate].
Qed.

Lemma underscore_runs_cons (c : code_unit) (t : jsstring) :
  underscore_runs (c :: t)
  = if is_whitespace c
    then if starts_with_whitespace t then underscore_runs t
         else 95%N :: underscore_runs t
    else c :: underscore_runs t.
Proof.
  unfold underscore_runs. simpl. pose proof (runs_head t) as H.
  destruct (runs t) as [|[kind block] rest].
  - subst. simpl. destruct (is_whitespace c); reflexivity.
  - destruct H as [H _]. rewrite <- H.
    destruct kind, (is_whitespace c); reflexivity.
Qed.

Lemma replace_whitespace_in_match (t : jsstring) :
  replace_whitespace false t
  = if starts_with_whitespace t then 95%N :: replace_whitespace true t
    else replace_whitespace true t.
Proof. destruct t as [|c t]; [reflexivity|]. simpl. destruct (is_whitespace c); reflexivity. Qed.

(** [replace(/\s+/g, '_')] puts one underscore for every run of white space. *)
Lemma replace_whitespace_runs (s : jsstring) :
  replace_whitespace false s = underscore_runs s.
Proof.
  induction s as [|c t IH]; [reflexivity|].
  rewrite underscore_runs_cons. simpl. rewrite <- IH.
  rewrite (replace_whitespace_in_match t).
  destruct (is_whitespace c), (starts_with_whitespace t); reflexivity.
Qed.

Lemma stats_region (date : jsstring) (aoi : AOI) (d : Dom) (results : JsVal) :
  get_prop (json_image (stats_object date aoi d results)) (lit "region")
  = JStr (aoi_name aoi).
Proof.
  unfold stats_object. rewrite json_image_object. unfold defined_props.
  cbn [filter snd negb is_undefined].
  destruct (is_undefined (aoi_area aoi)), (is_undefined (analysisType_val d)),
    (is_undefined results); reflexivity.
Qed.

Lemma stats_text (date : jsstring) (aoi : AOI) (d : Dom) (results : JsVal) :
  exists text, JSON_stringify_2 (stats_object date aoi d results) = Some text.
Proof. eexists. unfold JSON_stringify_2, stats_object. apply serialize_object. Qed.

Opaque JSON_stringify_2 download_name.

(** C8: with an AOI selected, [downloadStatisticsReal] hands the browser
    one JSON blob and one download.  Parsing the blob back yields an
    object whose [region] field is the name of the AOI.  The file name is
    [gee_analysis_], the name of the AOI with every run of white space
    replaced by a single underscore, an underscore, the time of the
    download in epoch milliseconds, and [.json]. *)
Theorem download_round_trips (st : State) (aoi : AOI) :
  currentAOI st = Some aoi ->
  (Z.abs (clock st (S (clock_reads st))) <= 8640000000000000)%Z ->
  exists (blob href : jsstring) (stats : JsVal),
    new_events downloadStatisticsReal st
    = [EvCreateObjectURL blob (lit "application/json");
       EvDownload
         (lit "gee_analysis_" ++ underscore_runs (aoi_name aoi) ++ lit "_"
            ++ decimal_of_Z (clock st (S (clock_reads st))) ++ lit ".json") href;
       EvRevokeObjectURL href;
       EvShowAlert (lit "Statistics downloaded successfully!") (lit "success")] /\
    JSON_parse blob = Some stats /\
    get_prop stats (lit "region") = JStr (aoi_name aoi).
Proof.
  intros H T.
  destruct (stats_text (toISOString (clock st (clock_reads st))) aoi (dom st)
              (analysisResults st)) as [text E].
  exists text, (object_url st (created (trace st))),
    (json_image (stats_object (toISOString (clock st (clock_reads st))) aoi (dom st)
                   (analysisResults st))).
  split; [|split].
  - unfold new_events, downloadStatisticsReal, new_Date, createObjectURL.
    run. rewrite H. run. rewrite E.
    repeat rewrite <- app_assoc. simpl. rewrite skipn_length_app.
    Transparent download_name. unfold download_name. simpl to_string.
    rewrite number_to_string_of_Z by lia.
    rewrite replace_whitespace_runs. reflexivity.
  - Transparent JSON_stringify_2.
    apply (JSON_parse_serialize (gap := lit "  ")); [reflexivity|exact E].
  - apply stats_region.
Qed.

End Script.

(* ================================================================== *)
(** * More of the script: loads, endpoints, analyses and download *)
(* ================================================================== *)

Section Coverage.
Context {NUM : JsNumber}.
Variable geoJSON_getBounds : JsVal -> Bounds.
Variable calculateAreaFromBounds : Bounds -> JsVal.
Variable toISOString : Z -> jsstring.

Ltac step :=
  unfold bind, get, emit, modify, ret, throw, try_catch, showLoading, hideLoading,
    showAlert, showAOIInfo, displayResults, console_error, with_trace; simpl.

Ltac stepin H :=
  unfold bind, get, emit, modify, ret, throw, try_catch, showLoading, hideLoading,
    showAlert, showAOIInfo, displayResults, console_error, with_trace in H;
  simpl in H.

Arguments new_events_of_trace {NUM A} m st [evs] _.

(** The AOI a loaded region becomes. *)
Definition admin_aoi (d : Dom) (geojson : JsVal) : AOI :=
  {| aoi_type := lit "admin";
     aoi_name := match citySelect_selected_text d with
                 | [] => provinceSelect_selected_text d
                 | _ => citySelect_selected_text d
                 end;
     aoi_geometry := geoJSON_getBounds geojson;
     aoi_area := calculateAreaFromBounds (geoJSON_getBounds geojson);
     aoi_geojson := geojson |}.

Lemma alerts_app (a b : list Event) : alerts (a ++ b) = alerts a + alerts b.
Proof.
  induction a as [|e a IH]; simpl; [reflexivity|].
  destruct e; simpl; rewrite IH; reflexivity.
Qed.

Lemma loading_events_quiet (title subtitle : jsstring) (call : AjaxSettings)
  (o : AjaxOutcome) :
  alerts (loading_events title subtitle call o) = 0.
Proof. destruct o; reflexivity. Qed.

Lemma object_entries_nullish (body : JsVal) :
  object_entries body = None <-> nullish body = true.
Proof. destruct body; simpl; split; congruence. Qed.

(** X1: when the reply to a load is a success whose body has entries, the
    selector is rebuilt from the reply alone: the province selector holds
    its placeholder and one option per entry, in the order of the reply,
    up to the first entry whose code does not print; the city selector
    holds its placeholder, the [use_province] option and the same options.
    When every code prints that is one option per entry and the body is
    returned; at a code that does not print the load throws, leaving the
    selector filled that far.  What the selector held before is gone, the
    other selector is untouched and no alert is shown. *)
Theorem selectors_rebuilt_from_reply (provinceCode : JsVal) (st : State)
  (body : JsVal) (entries : list (jsstring * JsVal)) :
  network st (sent (trace st)) = Resolved body ->
  object_entries body = Some entries ->
  (fst (loadProvincesFromAPI st)
   = (if all_print entries then Normal body else Throw conversion_error) /\
   provinceSelect_html (dom (snd (loadProvincesFromAPI st)))
   = province_placeholder ++ options_markup (printed entries) /\
   citySelect_html (dom (snd (loadProvincesFromAPI st))) = citySelect_html (dom st) /\
   alerts (new_events loadProvincesFromAPI st) = 0) /\
  (fst (loadCitiesFromAPI provinceCode st)
   = (if all_print entries then Normal body else Throw conversion_error) /\
   citySelect_html (dom (snd (loadCitiesFromAPI provinceCode st)))
   = city_placeholder ++ use_province_option ++ options_markup (printed entries) /\
   provinceSelect_html (dom (snd (loadCitiesFromAPI provinceCode st)))
   = provinceSelect_html (dom st) /\
   alerts (new_events (loadCitiesFromAPI provinceCode) st) = 0) /\
  (all_print entries = true -> printed entries = entries).
Proof.
  intros N E.
  destruct (loadProvinces_run st) as (R1 & T1 & D1 & _).
  destruct (loadCities_run provinceCode st) as (R2 & T2 & D2 & _).
  rewrite N in *. unfold load_completion, loaded_options, failure_alert in *.
  rewrite E in *. split; [|split].
  - rewrite R1, D1, (new_events_of_trace _ _ T1), alerts_app, loading_events_quiet.
    destruct (dom st); repeat split.
  - rewrite R2, D2, (new_events_of_trace _ _ T2), alerts_app, loading_events_quiet.
    destruct (dom st); repeat split.
  - apply printed_all.
Qed.

(** X2: when the request of a load fails, the load leaves both selectors
    as they were.  When the error of the request prints, the load shows
    one alert of severity [danger] whose text ends with the error and
    returns the empty object; when the error does not print, the load
    throws on the concatenation that builds the alert, and shows none. *)
Theorem failed_load_keeps_selectors (provinceCode : JsVal) (st : State) (xhr : JqXHR) :
  network st (sent (trace st)) = Rejected xhr ->
  let message := error (response_of (Rejected xhr)) in
  let completion : Completion JsVal :=
    if prints message then Normal (JObj []) else Throw conversion_error in
  let alert (prefix : jsstring) :=
    if prints message
    then [EvShowAlert (prefix ++ to_string message) (lit "danger")]
    else [] in
  (fst (loadProvincesFromAPI st) = completion /\
   dom (snd (loadProvincesFromAPI st)) = dom st /\
   new_events loadProvincesFromAPI st
   = loading_events (lit "Loading provinces...") (lit "Fetching data from server")
       provinces_call (Rejected xhr)
     ++ alert (lit "Failed to load provinces: ")) /\
  (fst (loadCitiesFromAPI provinceCode st) = completion /\
   dom (snd (loadCitiesFromAPI provinceCode st)) = dom st /\
   new_events (loadCitiesFromAPI provinceCode) st
   = loading_events (lit "Loading cities...") (lit "Fetching data from server")
       (cities_call provinceCode) (Rejected xhr)
     ++ alert (lit "Failed to load cities: ")).
Proof.
  intros N message completion alert. subst message completion alert.
  destruct (loadProvinces_run st) as (R1 & T1 & D1 & _).
  destruct (loadCities_run provinceCode st) as (R2 & T2 & D2 & _).
  rewrite N in *. split.
  - rewrite R1, D1, (new_events_of_trace _ _ T1). repeat split.
  - rewrite R2, D2, (new_events_of_trace _ _ T2). repeat split.
Qed.

(** X3: a reply that is a success with a [null] or missing body makes a
    load throw a [TypeError] at [Object.entries]: by then the loading
    indicator is hidden and the selector is already reset to its fixed
    options, and no alert tells the user. *)
Theorem null_reply_breaks_load (provinceCode : JsVal) (st : State) (body : JsVal) :
  network st (sent (trace st)) = Resolved body ->
  nullish body = true ->
  (fst (loadProvincesFromAPI st)
   = Throw (TypeError (lit "Cannot convert undefined or null to object")) /\
   provinceSelect_html (dom (snd (loadProvincesFromAPI st))) = province_placeholder /\
   hidden (new_events loadProvincesFromAPI st) = 1 /\
   alerts (new_events loadProvincesFromAPI st) = 0) /\
  (fst (loadCitiesFromAPI provinceCode st)
   = Throw (TypeError (lit "Cannot convert undefined or null to object")) /\
   citySelect_html (dom (snd (loadCitiesFromAPI provinceCode st)))
   = city_placeholder ++ use_province_option /\
   hidden (new_events (loadCitiesFromAPI provinceCode) st) = 1 /\
   alerts (new_events (loadCitiesFromAPI provinceCode) st) = 0).
Proof.
  intros N Z. apply object_entries_nullish in Z.
  destruct (loadProvinces_run st) as (R1 & T1 & D1 & _).
  destruct (loadCities_run provinceCode st) as (R2 & T2 & D2 & _).
  rewrite N in *. unfold load_completion, loaded_options, failure_alert in *.
  rewrite Z in *. rewrite app_nil_r in *. split.
  - rewrite R1, D1, (new_events_of_trace _ _ T1). destruct (dom st); repeat split.
  - rewrite R2, D2, (new_events_of_trace _ _ T2). destruct (dom st); repeat split.
Qed.

(** X4: when the geometry request succeeds with data, the region replaces
    what was drawn and selected: the drawn layers are exactly the layer of
    the reply, the AOI is an [admin] area named after the selected city,
    or after the selected province when no city text is selected, with
    the bounds and the area of the new layer; the map is fitted, a
    success alert is shown and the GeoJSON is returned. *)
Theorem loaded_region_replaces_aoi (endpoint code : JsVal) (st : State)
  (geojson : JsVal) :
  network st (sent (trace st)) = Resolved geojson ->
  truthy geojson = true ->
  let r := loadRegionGeometryFromAPI geoJSON_getBounds calculateAreaFromBounds
             endpoint code st in
  fst r = Normal geojson /\
  drawnItems (snd r) = [GeoJsonLayer geojson] /\
  currentAOI (snd r) = Some (admin_aoi (dom st) geojson) /\
  dom (snd r) = dom st /\
  new_events (loadRegionGeometryFromAPI geoJSON_getBounds calculateAreaFromBounds
                endpoint code) st
  = loading_events (lit "Loading region geometry...") (lit "Fetching boundary data")
      (geometry_call endpoint code) (Resolved geojson)
    ++ [EvFitBounds (geoJSON_getBounds geojson); EvShowAOIInfo;
        EvShowAlert (lit "Region loaded successfully!") (lit "success")].
Proof.
  intros N T r. subst r.
  destruct (loadRegionGeometry_run geoJSON_getBounds calculateAreaFromBounds
              endpoint code st) as (R & Tr & A & L & D & _).
  rewrite N in *. unfold geometry_completion, geometry_branch in *. rewrite T in *.
  rewrite (new_events_of_trace _ _ Tr). auto.
Qed.

(** X5: the effects of a geometry load after the hiding of the indicator.
    On a success with data they are the fitting of the map, the refresh
    of the AOI panel and the success alert.  The alert reads
    [Unknown error] exactly when the request succeeded with empty data.
    When the request itself failed its error is always truthy, so that
    the fallback text is never used: the alert carries the error when the
    error prints, and otherwise the load throws on the concatenation and
    shows no alert. *)
Theorem geometry_failure_text (endpoint code : JsVal) (st : State) :
  let load := loadRegionGeometryFromAPI geoJSON_getBounds calculateAreaFromBounds
                endpoint code in
  let o := network st (sent (trace st)) in
  let before := loading_events (lit "Loading region geometry...")
                  (lit "Fetching boundary data") (geometry_call endpoint code) o in
  match o with
  | Resolved body =>
      new_events load st
      = before ++
        if truthy body
        then [EvFitBounds (geoJSON_getBounds body); EvShowAOIInfo;
              EvShowAlert (lit "Region loaded successfully!") (lit "success")]
        else [EvShowAlert (lit "Failed to load region geometry: Unknown error")
                (lit "danger")]
  | Rejected xhr =>
      truthy (error (response_of o)) = true /\
      if prints (error (response_of o))
      then fst (load st) = Normal JNull /\
           new_events load st
           = before ++ [EvShowAlert
                          (lit "Failed to load region geometry: "
                             ++ to_string (error (response_of o))) (lit "danger")]
      else fst (load st) = Throw conversion_error /\
           new_events load st = before
  end.
Proof.
  intros load o before. subst load before.
  destruct (loadRegionGeometry_run geoJSON_getBounds calculateAreaFromBounds
              endpoint code st) as (R & Tr & _).
  fold o in R, Tr. unfold geometry_completion, geometry_branch, failure_alert in *.
  destruct o as [body|xhr].
  - apply new_events_of_trace. exact Tr.
  - split; [apply error_truthy|].
    rewrite R, (new_events_of_trace _ _ Tr).
    destruct (prints (error (response_of (Rejected xhr))));
      rewrite ?app_nil_r; split; reflexivity.
Qed.

(** ** The endpoint methods on the wire *)

(** A call with the defaults of the client: JSON content type and the
    timeout of the client. *)
Definition wire_call (this : GEEApiClient) (method path : jsstring)
  (body : option jsstring) : AjaxSettings :=
  {| ajax_url := this_baseURL this ++ path;
     ajax_method := method;
     ajax_data := body;
     ajax_contentType := JStr (lit "application/json");
     ajax_timeout := this_timeout this;
     ajax_dataType := lit "json" |}.

(** The body of a POST: [params ? JSON.stringify(params) : undefined]. *)
Definition post_body (params : JsVal) : option jsstring :=
  if truthy params then JSON_stringify params else None.

Lemma post_settings (this : GEEApiClient) (path : jsstring) (params : JsVal) :
  ajax_settings this path (post params) = wire_call this (lit "POST") path (post_body params).
Proof. reflexivity. Qed.

Lemma get_settings (this : GEEApiClient) (path : jsstring) :
  ajax_settings this path no_options = wire_call this (lit "GET") path None.
Proof. reflexivity. Qed.

Lemma request_new_events (this : GEEApiClient) (path : jsstring) (options : Options)
  (st : State) :
  new_events (request this path options) st
  = request_events (ajax_settings this path options) (network st (sent (trace st))).
Proof. unfold new_events. rewrite request_run. simpl. apply skipn_length_app. Qed.

Lemma truthy_defined (v : JsVal) : truthy v = true -> is_undefined v = false.
Proof. destruct v; simpl; congruence. Qed.

(** X6: each endpoint method makes one call to its own path under the
    base URL of the client, with the JSON content type and the timeout of
    the client.  The four readers send a GET without a body.  The four
    writers send a POST whose body is the JSON text of the parameters,
    which [JSON.parse] reads back as the parameters; parameters that are
    falsy are sent as a POST without a body. *)
Theorem endpoint_wire_format (this : GEEApiClient)
  (params provinceCode endpoint code : JsVal) (st : State) :
  let o := network st (sent (trace st)) in
  let reads (m : M RequestResult) (path : jsstring) :=
    new_events m st = request_events (wire_call this (lit "GET") path None) o in
  let writes (m : M RequestResult) (path : jsstring) :=
    new_events m st
    = request_events (wire_call this (lit "POST") path (post_body params)) o in
  reads (healthCheck this) (lit "/health") /\
  reads (getProvinces this) (lit "/regions/provinces") /\
  reads (getCities this provinceCode)
    (lit "/regions/cities?province_code=" ++ to_string provinceCode) /\
  reads (getRegionGeometry this endpoint code)
    (lit "/regions/geometry?endpoint=" ++ to_string endpoint
       ++ lit "&code=" ++ to_string code) /\
  writes (analyzeVegetation this params) (lit "/analyze/vegetation") /\
  writes (analyzeLandCover this params) (lit "/analyze/landcover") /\
  writes (analyzeTimeSeries this params) (lit "/timeseries") /\
  writes (exportToDrive this params) (lit "/export") /\
  match post_body params with
  | Some text => JSON_parse text = Some (json_image params)
  | None => truthy params = false
  end.
Proof.
  intros o reads writes. subst reads writes o.
  unfold healthCheck, getProvinces, getCities, getRegionGeometry, analyzeVegetation,
    analyzeLandCover, analyzeTimeSeries, exportToDrive.
  rewrite !request_new_events, !post_settings, !get_settings.
  repeat (split; [reflexivity|]).
  unfold post_body. destruct (truthy params) eqn:T; [|reflexivity].
  unfold JSON_stringify.
  rewrite (serialize_defined [] [] params (truthy_defined params T)).
  apply (JSON_parse_serialize (gap := [])); [reflexivity|].
  apply serialize_defined, truthy_defined, T.
Qed.

(** ** The text of a failure *)

(** What the user reads about a failed request: the [error] field of the
    JSON error body when it is there, else the status text of the
    transport, else [Network error]. *)
Definition failure_text (xhr : JqXHR) : jsstring :=
  let field := get_prop_opt (responseJSON xhr) (lit "error") in
  if truthy field then to_string field
  else match statusText xhr with
       | [] => lit "Network error"
       | _ => statusText xhr
       end.

Lemma failure_text_error (xhr : JqXHR) :
  to_string (error (response_of (Rejected xhr))) = failure_text xhr.
Proof.
  unfold failure_text. simpl. unfold js_or.
  destruct (truthy (get_prop_opt (responseJSON xhr) (lit "error"))); [reflexivity|].
  destruct (statusText xhr); reflexivity.
Qed.

(** X7: the error of a failed request reaches the user verbatim: with an
    AOI selected and an error that prints, each of the five operations
    shows one alert of severity [danger] made of its own prefix and the
    text of the failure. *)
Theorem failure_text_reaches_the_user (provinceCode endpoint code : JsVal)
  (st : State) (aoi : AOI) (xhr : JqXHR) :
  currentAOI st = Some aoi ->
  network st (sent (trace st)) = Rejected xhr ->
  prints (error (response_of (Rejected xhr))) = true ->
  let told {A} (m : M A) (prefix : jsstring) :=
    In (EvShowAlert (prefix ++ failure_text xhr) (lit "danger")) (new_events m st) /\
    alerts (new_events m st) = 1 in
  told loadProvincesFromAPI (lit "Failed to load provinces: ") /\
  told (loadCitiesFromAPI provinceCode) (lit "Failed to load cities: ") /\
  told (loadRegionGeometryFromAPI geoJSON_getBounds calculateAreaFromBounds
          endpoint code) (lit "Failed to load region geometry: ") /\
  told runVegetationAnalysisAPI (lit "Vegetation analysis failed: ") /\
  told runLandCoverAnalysisAPI (lit "Land cover analysis failed: ").
Proof.
  intros H N P told. subst told. rewrite <- failure_text_error.
  destruct (loadProvinces_run st) as (_ & T1 & _).
  destruct (loadCities_run provinceCode st) as (_ & T2 & _).
  destruct (loadRegionGeometry_run geoJSON_getBounds calculateAreaFromBounds
              endpoint code st) as (_ & T3 & _).
  rewrite N in *. unfold geometry_branch, failure_alert in *. rewrite P in *.
  rewrite (new_events_of_trace _ _ T1), (new_events_of_trace _ _ T2),
    (new_events_of_trace _ _ T3).
  unfold new_events. rewrite (vegetation_run st H), (landcover_run st H). rewrite N.
  unfold vegetation_events, landcover_events, vegetation_alert, landcover_alert.
  rewrite P.
  simpl snd. unfold with_trace. simpl trace. rewrite !skipn_length_app.
  repeat split; try (apply in_or_app; right; left; reflexivity);
    simpl; repeat (first [left; reflexivity | right]).
Qed.

(** ** The loading indicator over a whole operation *)

(** Whether the loading indicator is up after the effects [t], when it was
    [visible] before them. *)
Fixpoint loading_visible (visible : bool) (t : list Event) : bool :=
  match t with
  | [] => visible
  | EvShowLoading _ _ :: r => loading_visible true r
  | EvHideLoading :: r => loading_visible false r
  | _ :: r => loading_visible visible r
  end.

Lemma loading_visible_app (visible : bool) (a b : list Event) :
  loading_visible visible (a ++ b) = loading_visible (loading_visible visible a) b.
Proof.
  revert visible. induction a as [|e a IH]; intros visible; [reflexivity|].
  destruct e; simpl; apply IH.
Qed.

Lemma loading_events_hidden (visible : bool) (title subtitle : jsstring)
  (call : AjaxSettings) (o : AjaxOutcome) :
  loading_visible visible (loading_events title subtitle call o) = false.
Proof. destruct o; reflexivity. Qed.

Lemma vegetation_events_hidden (visible : bool) (call : AjaxSettings) (o : AjaxOutcome) :
  loading_visible visible (vegetation_events call o) = false.
Proof.
  unfold vegetation_events, vegetation_alert. rewrite loading_visible_app.
  destruct o as [body|xhr]; simpl.
  - destruct (nullish body); [reflexivity|]. destruct (prints _); reflexivity.
  - destruct (prints _); reflexivity.
Qed.

Lemma landcover_events_hidden (visible : bool) (call : AjaxSettings) (o : AjaxOutcome) :
  loading_visible visible (landcover_events call o) = false.
Proof.
  unfold landcover_events, landcover_alert. rewrite loading_visible_app.
  destruct o as [body|xhr]; simpl; [reflexivity|]. destruct (prints _); reflexivity.
Qed.

Lemma vegetation_new_events (st : State) (aoi : AOI) :
  currentAOI st = Some aoi ->
  new_events runVegetationAnalysisAPI st
  = vegetation_events (vegetation_call aoi (dom st) (selectedIndices st))
      (network st (sent (trace st))).
Proof.
  intros H. unfold new_events. rewrite (vegetation_run st H).
  simpl snd. unfold with_trace. simpl trace. apply skipn_length_app.
Qed.

Lemma landcover_new_events (st : State) (aoi : AOI) :
  currentAOI st = Some aoi ->
  new_events runLandCoverAnalysisAPI st
  = landcover_events (landcover_call aoi (dom st)) (network st (sent (trace st))).
Proof.
  intros H. unfold new_events. rewrite (landcover_run st H).
  simpl snd. unfold with_trace. simpl trace. apply skipn_length_app.
Qed.

Lemma no_aoi_new_events (st : State) :
  currentAOI st = None ->
  let warning := [EvShowAlert (lit "Please select an AOI first") (lit "warning")] in
  new_events runVegetationAnalysisAPI st = warning /\
  new_events runLandCoverAnalysisAPI st = warning /\
  new_events runCompleteAnalysis st = warning.
Proof.
  intros H warning. unfold new_events.
  rewrite (runCompleteAnalysis_no_aoi st H).
  unfold runVegetationAnalysisAPI, runLandCoverAnalysisAPI.
  step. rewrite H. step. rewrite !skipn_length_app. repeat split.
Qed.

Lemma composite_events_hidden (aoi : AOI) (st : State) :
  loading_visible false (composite_events aoi st) = false.
Proof.
  unfold composite_events. rewrite loading_visible_app.
  assert (V : loading_visible false
                (if runs_vegetation (analysisType_val (dom st))
                 then vegetation_events
                        (vegetation_call aoi (dom st) (selectedIndices st))
                        (network st (sent (trace st)))
                 else []) = false).
  { destruct (runs_vegetation _); [apply vegetation_events_hidden|reflexivity]. }
  rewrite V. destruct (vegetation_throws st); [destruct (vegetation_completion _); reflexivity|].
  rewrite loading_visible_app.
  assert (L : loading_visible false
                (if runs_landcover (analysisType_val (dom st))
                 then landcover_events (landcover_call aoi (dom st))
                        (landcover_outcome st)
                 else []) = false).
  { destruct (runs_landcover _); [apply landcover_events_hidden|reflexivity]. }
  rewrite L.
  destruct (landcover_throws st); [destruct (landcover_completion _); reflexivity|].
  destruct (_ || _); reflexivity.
Qed.

(** X8: no operation leaves the loading indicator up.  In every state and
    for every outcome of the network, also when the operation throws, the
    indicator is down at the end of each of the three loads, of the two
    analyses and of the composite analysis. *)
Theorem loading_indicator_never_left_up (provinceCode endpoint code : JsVal)
  (st : State) :
  let down {A} (m : M A) := loading_visible false (new_events m st) = false in
  down loadProvincesFromAPI /\
  down (loadCitiesFromAPI provinceCode) /\
  down (loadRegionGeometryFromAPI geoJSON_getBounds calculateAreaFromBounds
          endpoint code) /\
  down runVegetationAnalysisAPI /\
  down runLandCoverAnalysisAPI /\
  down runCompleteAnalysis.
Proof.
  intros down. subst down.
  destruct (loadProvinces_run st) as (_ & T1 & _).
  destruct (loadCities_run provinceCode st) as (_ & T2 & _).
  assert (T3 : exists tail,
             new_events (loadRegionGeometryFromAPI geoJSON_getBounds
                           calculateAreaFromBounds endpoint code) st
             = loading_events (lit "Loading region geometry...")
                 (lit "Fetching boundary data") (geometry_call endpoint code)
                 (network st (sent (trace st))) ++ tail /\
             loading_visible false tail = false).
  { destruct (loadRegionGeometry_run geoJSON_getBounds calculateAreaFromBounds
                endpoint code st) as (_ & T & _).
    rewrite (new_events_of_trace _ _ T). eexists. split; [reflexivity|].
    unfold geometry_branch, failure_alert.
    destruct (network st (sent (trace st))) as [body|xhr];
      [destruct (truthy body)|destruct (prints _)]; reflexivity. }
  destruct T3 as (tail & -> & T3).
  rewrite (new_events_of_trace _ _ T1), (new_events_of_trace _ _ T2).
  rewrite !loading_visible_app, !loading_events_hidden.
  unfold failure_alert. repeat split.
  - destruct (network st (sent (trace st))); [|destruct (prints _)]; reflexivity.
  - destruct (network st (sent (trace st))); [|destruct (prints _)]; reflexivity.
  - exact T3.
  - destruct (currentAOI st) as [aoi|] eqn:H.
    + rewrite (vegetation_new_events st H). apply vegetation_events_hidden.
    + destruct (no_aoi_new_events st H) as (-> & _). reflexivity.
  - destruct (currentAOI st) as [aoi|] eqn:H.
    + rewrite (landcover_new_events st H). apply landcover_events_hidden.
    + destruct (no_aoi_new_events st H) as (_ & -> & _). reflexivity.
  - destruct (currentAOI st) as [aoi|] eqn:H.
    + rewrite (composite_new_events st H). apply composite_events_hidden.
    + destruct (no_aoi_new_events st H) as (_ & _ & ->). reflexivity.
Qed.

(** ** What the operations leave alone *)

(** X9: the three loads and the two analyses never touch the results of
    the last analysis or the selected indices, and no operation but the
    load of a region touches the AOI or the drawn layers; the analyses and
    the load of a region leave the page fields alone, and the composite
    analysis changes nothing but the results.  Every operation only adds
    to the history of effects. *)
Theorem operations_leave_the_rest_alone (provinceCode endpoint code : JsVal)
  (st : State) :
  let extends {A} (m : M A) := exists evs, trace (snd (m st)) = trace st ++ evs in
  (same_globals st (snd (loadProvincesFromAPI st)) /\ extends loadProvincesFromAPI) /\
  (same_globals st (snd (loadCitiesFromAPI provinceCode st)) /\
   extends (loadCitiesFromAPI provinceCode)) /\
  (let r := snd (loadRegionGeometryFromAPI geoJSON_getBounds calculateAreaFromBounds
                   endpoint code st) in
   dom r = dom st /\ analysisResults r = analysisResults st /\
   selectedIndices r = selectedIndices st /\
   extends (loadRegionGeometryFromAPI geoJSON_getBounds calculateAreaFromBounds
              endpoint code)) /\
  (same_globals st (snd (runVegetationAnalysisAPI st)) /\
   dom (snd (runVegetationAnalysisAPI st)) = dom st /\
   extends runVegetationAnalysisAPI) /\
  (same_globals st (snd (runLandCoverAnalysisAPI st)) /\
   dom (snd (runLandCoverAnalysisAPI st)) = dom st /\
   extends runLandCoverAnalysisAPI) /\
  (let r := snd (runCompleteAnalysis st) in
   currentAOI r = currentAOI st /\ drawnItems r = drawnItems st /\
   selectedIndices r = selectedIndices st /\ dom r = dom st /\
   extends runCompleteAnalysis).
Proof.
  intros extends. subst extends. unfold same_globals.
  destruct (loadProvinces_run st) as (_ & T1 & _ & G1).
  destruct (loadCities_run provinceCode st) as (_ & T2 & _ & G2).
  destruct (loadRegionGeometry_run geoJSON_getBounds calculateAreaFromBounds
              endpoint code st) as (_ & T3 & _ & _ & D3 & R3 & S3).
  split; [split; [exact G1|eexists; exact T1]|].
  split; [split; [exact G2|eexists; exact T2]|].
  split.
  { repeat split; try assumption. eexists; exact T3. }
  destruct (currentAOI st) as [aoi|] eqn:H.
  - rewrite (vegetation_run st H), (landcover_run st H),
      (runCompleteAnalysis_run st H).
    simpl; rewrite ?H; repeat split; eexists; reflexivity.
  - rewrite (runCompleteAnalysis_no_aoi st H).
    unfold runVegetationAnalysisAPI, runLandCoverAnalysisAPI.
    step. rewrite H. step. rewrite ?H. repeat split; eexists; reflexivity.
Qed.

(** ** Exceptions *)

(** X10: which operations throw, and when.  The composite analysis never
    throws, in any state and for any outcome of the network: it catches
    what its analyses throw.  The load of a region and the land-cover
    analysis throw in one case only, a failed request whose error does
    not print, on the concatenation that builds their alert; the land-cover
    analysis only with an AOI selected.  The vegetation analysis throws,
    with an AOI selected, on a failed request whose error does not print
    and on a success whose body is [null] or missing or whose number of
    images does not print. *)
Theorem which_operations_throw (endpoint code : JsVal) (st : State) :
  let o := network st (sent (trace st)) in
  let unprintable_error :=
    match o with
    | Resolved _ => false
    | Rejected xhr => negb (prints (error (response_of o)))
    end in
  fst (runCompleteAnalysis st) = Normal tt /\
  is_throw (fst (loadRegionGeometryFromAPI geoJSON_getBounds calculateAreaFromBounds
                   endpoint code st))
  = unprintable_error /\
  is_throw (fst (runLandCoverAnalysisAPI st))
  = is_some (currentAOI st) && unprintable_error /\
  is_throw (fst (runVegetationAnalysisAPI st))
  = is_some (currentAOI st)
    && match o with
       | Resolved body =>
           nullish body || negb (prints (get_prop body (lit "collection_size")))
       | Rejected _ => unprintable_error
       end.
Proof.
  intros o unprintable_error. subst unprintable_error.
  destruct (loadRegionGeometry_run geoJSON_getBounds calculateAreaFromBounds
              endpoint code st) as (R & _).
  fold o in R. rewrite R. unfold geometry_completion.
  destruct (currentAOI st) as [aoi|] eqn:H.
  - rewrite (runCompleteAnalysis_run st H), (landcover_run st H),
      (vegetation_run st H). fold o.
    unfold landcover_completion, vegetation_completion. cbn [fst is_some andb].
    destruct o as [body|xhr].
    + destruct (truthy body), (nullish body),
        (prints (get_prop body (lit "collection_size"))); repeat split.
    + destruct (prints (error (response_of (Rejected xhr)))); repeat split.
  - rewrite (runCompleteAnalysis_no_aoi st H).
    unfold runVegetationAnalysisAPI, runLandCoverAnalysisAPI.
    step. rewrite H. cbn [is_some andb].
    destruct o as [body|xhr];
      [destruct (truthy body)|destruct (prints (error (response_of (Rejected xhr))))];
      repeat split.
Qed.

(** X11: when the vegetation analysis throws inside the composite
    analysis, the composite catches it: it completes, logs the error,
    shows the alert [An error occurred during analysis], leaves the
    results empty and displays nothing; the land-cover analysis is not
    run, also when the analysis type is [combined]. *)
Theorem null_vegetation_reply_aborts_composite (st : State) (aoi : AOI)
  (body : JsVal) :
  currentAOI st = Some aoi ->
  runs_vegetation (analysisType_val (dom st)) = true ->
  network st (sent (trace st)) = Resolved body ->
  nullish body = true ->
  fst (runCompleteAnalysis st) = Normal tt /\
  new_events runCompleteAnalysis st
  = vegetation_loading (vegetation_call aoi (dom st) (selectedIndices st))
      (Resolved body)
    ++ [EvConsoleError (lit "Analysis error:")
          (TypeError (lit "Cannot read properties of undefined or null"));
        EvShowAlert (lit "An error occurred during analysis") (lit "danger")] /\
  analysisResults (snd (runCompleteAnalysis st)) = JObj [] /\
  sent (new_events runCompleteAnalysis st) = 1.
Proof.
  intros H V N Z.
  rewrite (composite_new_events st H), (runCompleteAnalysis_run st H).
  unfold composite_events, composite_results, vegetation_success, landcover_success,
    landcover_runs, vegetation_throws, vegetation_events, vegetation_alert,
    vegetation_completion.
  rewrite V, N, Z. cbn [is_throw andb negb payload caught app].
  rewrite andb_false_r, !app_nil_r. repeat split.
Qed.

(** X12: with an AOI selected and an analysis type that is none of
    [vegetation], [landcover] and [combined], the composite analysis
    sends nothing and shows nothing, yet it has already emptied the
    results of the previous analysis. *)
Theorem unknown_analysis_type_clears_results (st : State) (aoi : AOI) :
  currentAOI st = Some aoi ->
  runs_vegetation (analysisType_val (dom st)) = false ->
  runs_landcover (analysisType_val (dom st)) = false ->
  new_events runCompleteAnalysis st = [] /\
  analysisResults (snd (runCompleteAnalysis st)) = JObj [].
Proof.
  intros H V L.
  rewrite (composite_new_events st H), (runCompleteAnalysis_run st H).
  unfold composite_events, composite_results, vegetation_success, landcover_success,
    landcover_throws, landcover_runs, vegetation_throws.
  rewrite V, L. split; reflexivity.
Qed.

(** ** The calls of the composite analysis *)

(** X13: with an AOI selected, the composite analysis calls the
    vegetation endpoint once when the analysis type asks for it and never
    otherwise, and the land-cover endpoint once when the type asks for it
    and the vegetation analysis did not throw, and never otherwise; it
    sends nothing else. *)
Theorem composite_calls_each_endpoint_once (st : State) (aoi : AOI) :
  currentAOI st = Some aoi ->
  let evs := new_events runCompleteAnalysis st in
  let vegetation := if runs_vegetation (analysisType_val (dom st)) then 1 else 0 in
  let landcover :=
    if runs_landcover (analysisType_val (dom st)) && negb (vegetation_throws st)
    then 1 else 0 in
  calls_to (lit "/analyze/vegetation") evs = vegetation /\
  calls_to (lit "/analyze/landcover") evs = landcover /\
  sent evs = vegetation + landcover.
Proof.
  intros H evs vegetation landcover. subst evs vegetation landcover.
  rewrite (composite_new_events st H). unfold composite_events.
  assert (C : forall {A} (c : Completion A) path,
             calls_to path (caught c) = 0 /\ sent (caught c) = 0).
  { intros A c path. destruct c; split; reflexivity. }
  rewrite !calls_to_app, sent_app.
  destruct (runs_vegetation (analysisType_val (dom st))) eqn:V;
    rewrite ?calls_vegetation_events, ?sent_vegetation_events;
    destruct (vegetation_throws st) eqn:T;
    rewrite ?andb_false_r, ?andb_true_r;
    rewrite ?calls_to_app, ?sent_app;
    rewrite ?(proj1 (C _ _ _)), ?(proj2 (C _ _ (lit "/"))).
  all: destruct (runs_landcover (analysisType_val (dom st))) eqn:L;
    rewrite ?calls_vegetation_events, ?calls_landcover_events, ?sent_landcover_events;
    try (destruct (landcover_throws st);
         [rewrite ?(proj1 (C _ _ _)), ?(proj2 (C _ _ (lit "/")))
         |destruct (is_some (vegetation_success st) || is_some (landcover_success st))]);
    repeat split.
Qed.

(** ** The download, field by field *)

Lemma undefined_value (x : JsVal) : is_undefined x = true -> x = JUndefined.
Proof. destruct x; simpl; congruence. Qed.

(** What [JSON.parse] reads back for the fields of the [stats] object. *)
Lemma stats_fields (date : jsstring) (aoi : AOI) (d : Dom) (results : JsVal) :
  let stats := json_image (stats_object date aoi d results) in
  get_prop stats (lit "analysis_date") = JStr date /\
  get_prop stats (lit "area_km2") = json_image (aoi_area aoi) /\
  get_prop stats (lit "year") = JStr (yearValue_text d) /\
  get_prop stats (lit "analysis_type") = json_image (analysisType_val d) /\
  get_prop stats (lit "results") = json_image results.
Proof.
  intros stats. subst stats. unfold stats_object. rewrite json_image_object.
  unfold defined_props. cbn [filter snd negb is_undefined].
  destruct (is_undefined (aoi_area aoi)) eqn:A;
    [rewrite (undefined_value _ A)|];
    (destruct (is_undefined (analysisType_val d)) eqn:T;
     [rewrite (undefined_value _ T)|]);
    (destruct (is_undefined results) eqn:R; [rewrite (undefined_value _ R)|]);
    repeat split.
Qed.

Definition download_events (blob name href : jsstring) : list Event :=
  [EvCreateObjectURL blob (lit "application/json");
   EvDownload name href;
   EvRevokeObjectURL href;
   EvShowAlert (lit "Statistics downloaded successfully!") (lit "success")].

Lemma download_run (st : State) (aoi : AOI) :
  currentAOI st = Some aoi ->
  let stats := stats_object (toISOString (clock st (clock_reads st))) aoi (dom st)
                 (analysisResults st) in
  let r := downloadStatisticsReal toISOString st in
  exists blob,
    JSON_stringify_2 stats = Some blob /\
    fst r = Normal tt /\
    trace (snd r)
    = trace st
      ++ download_events blob
           (download_name (aoi_name aoi) (clock st (S (clock_reads st))))
           (object_url st (created (trace st))) /\
    clock_reads (snd r) = S (S (clock_reads st)) /\
    currentAOI (snd r) = currentAOI st /\ analysisResults (snd r) = analysisResults st /\
    selectedIndices (snd r) = selectedIndices st /\ dom (snd r) = dom st /\
    drawnItems (snd r) = drawnItems st.
Proof.
  intros H stats r. subst stats r.
  destruct (stats_text (toISOString (clock st (clock_reads st))) aoi (dom st)
              (analysisResults st)) as [text E].
  exists text. split; [exact E|].
  destruct (downloadStatisticsReal toISOString st) as [c st'] eqn:R.
  unfold downloadStatisticsReal, new_Date, createObjectURL in R.
  Opaque JSON_stringify_2 download_name.
  stepin R. rewrite H in R. stepin R. rewrite E in R.
  Transparent JSON_stringify_2 download_name.
  injection R as <- <-. unfold download_events. simpl.
  repeat rewrite <- app_assoc. repeat split; try assumption; reflexivity.
Qed.

(** X14: with an AOI selected, the blob of the download reads back as an
    object that carries the page as it is at that moment: the ISO text of
    the first clock reading as [analysis_date], the text of the year
    field as [year], and the JSON images of the area of the AOI, of the
    analysis type and of the results of the last analysis. *)
Theorem download_exports_the_page (st : State) (aoi : AOI) :
  currentAOI st = Some aoi ->
  exists (blob name href : jsstring) (stats : JsVal),
    new_events (downloadStatisticsReal toISOString) st
    = download_events blob name href /\
    JSON_parse blob = Some stats /\
    get_prop stats (lit "analysis_date")
    = JStr (toISOString (clock st (clock_reads st))) /\
    get_prop stats (lit "area_km2") = json_image (aoi_area aoi) /\
    get_prop stats (lit "year") = JStr (yearValue_text (dom st)) /\
    get_prop stats (lit "analysis_type") = json_image (analysisType_val (dom st)) /\
    get_prop stats (lit "results") = json_image (analysisResults st).
Proof.
  intros H. destruct (download_run st H) as (blob & E & _ & T & _).
  do 3 eexists. eexists (json_image _).
  split; [exact (new_events_of_trace _ _ T)|].
  split; [apply (JSON_parse_serialize (gap := lit "  ")); [reflexivity|exact E]|].
  apply stats_fields.
Qed.

(** X15: a download that follows a composite analysis exports the results
    of that analysis: the [results] field of the blob is the JSON image
    of what the analysis left in [analysisResults], whatever the results
    were before. *)
Theorem download_after_analysis_exports_its_results (st : State) (aoi : AOI) :
  currentAOI st = Some aoi ->
  let analysed := snd (runCompleteAnalysis st) in
  exists (blob name href : jsstring) (stats : JsVal),
    new_events (downloadStatisticsReal toISOString) analysed
    = download_events blob name href /\
    JSON_parse blob = Some stats /\
    get_prop stats (lit "results") = json_image (composite_results st).
Proof.
  intros H analysed.
  assert (A : currentAOI analysed = Some aoi /\
              analysisResults analysed = composite_results st).
  { subst analysed. rewrite (runCompleteAnalysis_run st H). simpl.
    split; [exact H|reflexivity]. }
  destruct A as [A R].
  destruct (download_run analysed A) as (blob & E & _ & T & _).
  do 3 eexists. eexists (json_image _).
  split; [exact (new_events_of_trace _ _ T)|].
  split; [apply (JSON_parse_serialize (gap := lit "  ")); [reflexivity|exact E]|].
  rewrite <- R. apply stats_fields.
Qed.

(** X16: a download changes nothing on the page: the AOI, the results,
    the selected indices, the page fields and the drawn layers are as
    before, with or without an AOI.  It reads the clock twice with an AOI
    selected, and once before it throws without one. *)
Theorem download_leaves_the_page_alone (st : State) :
  let r := snd (downloadStatisticsReal toISOString st) in
  currentAOI r = currentAOI st /\ analysisResults r = analysisResults st /\
  selectedIndices r = selectedIndices st /\ dom r = dom st /\
  drawnItems r = drawnItems st /\
  clock_reads r
  = clock_reads st + match currentAOI st with Some _ => 2 | None => 1 end.
Proof.
  intros r. subst r. destruct (currentAOI st) as [aoi|] eqn:H.
  - destruct (download_run st H) as (blob & _ & _ & _ & C & A & R & S & D & L).
    rewrite A, R, S, D, L, C. repeat split; try assumption. lia.
  - unfold downloadStatisticsReal, new_Date.
    Opaque JSON_stringify_2 download_name.
    step. rewrite H. step.
    Transparent JSON_stringify_2 download_name.
    rewrite ?H. repeat split. lia.
Qed.

(** ** The name of the downloaded file *)

Definition no_whitespace (s : jsstring) : bool :=
  forallb (fun c => negb (is_whitespace c)) s.

Lemma no_whitespace_app (a b : jsstring) :
  no_whitespace (a ++ b) = no_whitespace a && no_whitespace b.
Proof. apply forallb_app. Qed.

Lemma replace_whitespace_clean (in_match : bool) (s : jsstring) :
  no_whitespace (replace_whitespace in_match s) = true.
Proof.
  revert in_match. induction s as [|c t IH]; intros in_match; [reflexivity|].
  simpl. destruct (is_whitespace c) eqn:W.
  - destruct in_match; [apply IH|]. change (no_whitespace (replace_whitespace true t) = true).
    apply IH.
  - change (negb (is_whitespace c) && no_whitespace (replace_whitespace false t) = true).
    rewrite W. apply IH.
Qed.

Lemma replace_whitespace_fixed (s : jsstring) :
  no_whitespace s = true -> replace_whitespace false s = s.
Proof.
  induction s as [|c t IH]; [reflexivity|]. simpl. intros H.
  apply andb_prop in H. destruct H as [W H].
  destruct (is_whitespace c); [discriminate|]. rewrite (IH H). reflexivity.
Qed.

Lemma digit_not_whitespace (c : code_unit) :
  is_digit c = true -> is_whitespace c = false.
Proof.
  unfold is_digit, is_whitespace. intros H. apply andb_prop in H.
  destruct H as [L U]. apply N.leb_le in L. apply N.leb_le in U.
  repeat match goal with
         | |- context [N.eqb c ?k] => destruct (N.eqb_spec c k); [lia|]
         | |- context [N.leb ?a ?b] => destruct (N.leb_spec a b); try lia
         end; reflexivity.
Qed.

Lemma digits_clean (l : jsstring) : forallb is_digit l = true -> no_whitespace l = true.
Proof.
  induction l as [|c l IH]; [reflexivity|]. simpl. intros H.
  apply andb_prop in H. destruct H as [D H].
  rewrite (digit_not_whitespace c D), (IH H). reflexivity.
Qed.

Lemma integer_token_clean (t : jsstring) :
  is_integer_token t = true -> no_whitespace t = true.
Proof.
  destruct t as [|c r]; [discriminate|]. unfold is_integer_token.
  destruct (N.eqb_spec c 45) as [->|N].
  - destruct r as [|d r]; [discriminate|]. intros H.
    change (no_whitespace (45%N :: d :: r)) with (no_whitespace (d :: r)).
    apply digits_clean, H.
  - apply digits_clean.
Qed.

(** X17: with an AOI selected, the name of the downloaded file holds no
    white space at all, whatever the name of the AOI; a name of the AOI
    without white space goes into the file name as it is. *)
Theorem download_name_has_no_white_space (st : State) (aoi : AOI) :
  currentAOI st = Some aoi ->
  (Z.abs (clock st (S (clock_reads st))) <= 8640000000000000)%Z ->
  exists blob name href : jsstring,
    new_events (downloadStatisticsReal toISOString) st
    = download_events blob name href /\
    no_whitespace name = true /\
    (no_whitespace (aoi_name aoi) = true ->
     name = lit "gee_analysis_" ++ aoi_name aoi ++ lit "_"
              ++ decimal_of_Z (clock st (S (clock_reads st))) ++ lit ".json").
Proof.
  intros H T. destruct (download_run st H) as (blob & _ & _ & Tr & _).
  do 3 eexists. split; [exact (new_events_of_trace _ _ Tr)|].
  unfold download_name. simpl to_string. rewrite number_to_string_of_Z by lia.
  split.
  - rewrite !no_whitespace_app, replace_whitespace_clean,
      (integer_token_clean _ (decimal_of_Z_integer_token _)). reflexivity.
  - intros W. rewrite (replace_whitespace_fixed _ W). reflexivity.
Qed.

(* ================================================================== *)
(** * The page around the script: start-up and event handlers *)
(* ================================================================== *)

(** The closures [updateEventHandlersForAPI] binds to the page, and the
    handlers of other scripts, of which this script knows nothing. *)
Inductive Handler :=
| ProvinceChange
| LoadRegionClick
| RunAnalysisClick
| DownloadStatsClick
| Foreign (id : nat).

(** A handler bound to an event of the element with the given id. *)
Record Binding := {
  bound_element : jsstring;
  bound_event : jsstring;
  bound_handler : Handler
}.

(** What the page does, line by line: an effect of the functions above,
    or a line of the console written at start-up. *)
Inductive Line :=
| Effect (e : Event)
| ConsoleLog (text : jsstring)
| ConsoleError (text : jsstring).

(** The script's state together with what the start-up code and the
    handlers read and write besides: the selected values of the two
    selectors, the [disabled] property of the city selector and the
    handlers bound to the page. *)
Record Browser := {
  script : State;
  provinceSelect_val : JsVal;
  citySelect_val : JsVal;
  citySelect_disabled : bool;
  bindings : list Binding;
  lines : list Line
}.

Definition with_citySelect_disabled (disabled : bool) (b : Browser) : Browser :=
  {| script := script b; provinceSelect_val := provinceSelect_val b;
     citySelect_val := citySelect_val b; citySelect_disabled := disabled;
     bindings := bindings b; lines := lines b |}.

Definition with_bindings (l : list Binding) (b : Browser) : Browser :=
  {| script := script b; provinceSelect_val := provinceSelect_val b;
     citySelect_val := citySelect_val b; citySelect_disabled := citySelect_disabled b;
     bindings := l; lines := lines b |}.

Definition with_lines (l : list Line) (b : Browser) : Browser :=
  {| script := script b; provinceSelect_val := provinceSelect_val b;
     citySelect_val := citySelect_val b; citySelect_disabled := citySelect_disabled b;
     bindings := bindings b; lines := l |}.

(** Computations of the page: state and exceptions, as for the script. *)
Definition PageM (A : Type) : Type := Browser -> Completion A * Browser.

Definition page_ret {A} (a : A) : PageM A := fun b => (Normal a, b).

Definition page_bind {A C} (m : PageM A) (k : A -> PageM C) : PageM C :=
  fun b =>
    match m b with
    | (Normal a, b') => k a b'
    | (Throw e, b') => (Throw e, b')
    end.

Definition page_get {A} (f : Browser -> A) : PageM A := fun b => (Normal (f b), b).
Definition page_modify (f : Browser -> Browser) : PageM unit :=
  fun b => (Normal tt, f b).

Declare Scope page_scope.
Notation "x <- m ;; k" := (page_bind m (fun x => k))
  (at level 61, m at next level, right associativity) : page_scope.
Notation "m ;; k" := (page_bind m (fun _ => k))
  (at level 61, right associativity) : page_scope.
Local Open Scope page_scope.

(** A function of the script run on the page: its effects go to the
    lines of the page in their order. *)
Definition lift {A} (m : M A) : PageM A :=
  fun b =>
    (fst (m (script b)),
     {| script := snd (m (script b)); provinceSelect_val := provinceSelect_val b;
        citySelect_val := citySelect_val b;
        citySelect_disabled := citySelect_disabled b;
        bindings := bindings b;
        lines := lines b ++ map Effect (new_events m (script b)) |}).

Definition console_log (text : jsstring) : PageM unit :=
  page_modify (fun b => with_lines (lines b ++ [ConsoleLog text]) b).

Definition console_error_text (text : jsstring) : PageM unit :=
  page_modify (fun b => with_lines (lines b ++ [ConsoleError text]) b).

(** ** Start-up *)

(** The first [$(document).ready] handler: the test of the connection,
    then the load of the provinces. *)
Definition ready_connection_test : PageM unit :=
  health <- lift (healthCheck apiClient) ;;
  (* health.success && health.data.ee_initialized *)
  connected <- (if success health
                then lift (member (data health) (lit "ee_initialized"))
                else page_ret (JBool false)) ;;
  (if truthy connected
   then console_log ([10003%N] ++ lit " Backend connected and Earth Engine initialized") ;;
        lift (showAlert (lit "Connected to GEE Backend") (lit "success"))
   else console_error_text ([10007%N] ++ lit " Backend connection failed") ;;
        lift (showAlert (lit "Warning: Backend not connected. Using demo mode.")
                (lit "warning"))) ;;
  _ <- lift loadProvincesFromAPI ;;
  page_ret tt.

(** ** Event handlers *)

Definition bound_to (element event : jsstring) (x : Binding) : bool :=
  jsstring_eqb (bound_element x) element && jsstring_eqb (bound_event x) event.

(** [$('#element').off(event)]: every handler of the event goes. *)
Definition off (element event : jsstring) : PageM unit :=
  page_modify (fun b =>
    with_bindings (filter (fun x => negb (bound_to element event x)) (bindings b)) b).

(** [$('#element').on(event, handler)]: the handler is added last. *)
Definition on (element event : jsstring) (handler : Handler) : PageM unit :=
  page_modify (fun b =>
    with_bindings
      (bindings b ++ [{| bound_element := element; bound_event := event;
                         bound_handler := handler |}]) b).

Definition updateEventHandlersForAPI : PageM unit :=
  off (lit "provinceSelect") (lit "change") ;;
  on (lit "provinceSelect") (lit "change") ProvinceChange ;;
  off (lit "loadRegion") (lit "click") ;;
  on (lit "loadRegion") (lit "click") LoadRegionClick ;;
  off (lit "runAnalysis") (lit "click") ;;
  on (lit "runAnalysis") (lit "click") RunAnalysisClick ;;
  off (lit "downloadStats") (lit "click") ;;
  on (lit "downloadStats") (lit "click") DownloadStatsClick.

(** The second [$(document).ready] handler. *)
Definition ready_bind_handlers : PageM unit :=
  updateEventHandlersForAPI ;;
  console_log (lit "API Integration loaded and ready").

(** The handler of [change] on the province selector. *)
Definition province_change : PageM unit :=
  provinceCode <- page_get provinceSelect_val ;;
  if truthy provinceCode then
    _ <- lift (loadCitiesFromAPI provinceCode) ;;
    page_modify (with_citySelect_disabled false)
  else
    page_modify (with_citySelect_disabled true) ;;
    lift (citySelect_html_set city_placeholder).

(** The handler of [click] on the Load Region button. *)
Definition load_region_click : PageM unit :=
  provinceCode <- page_get provinceSelect_val ;;
  cityCode <- page_get citySelect_val ;;
  if negb (truthy provinceCode) then
    lift (showAlert (lit "Please select a province") (lit "warning"))
  else
    let target :=
      if truthy cityCode && negb (is_string cityCode (lit "use_province"))
      then (JStr (lit "city"), cityCode)
      else (JStr (lit "province"), provinceCode) in
    _ <- lift (loadRegionGeometryFromAPI geoJSON_getBounds calculateAreaFromBounds
                 (fst target) (snd target)) ;;
    page_ret tt.

(** The handlers of [click] on the Run Analysis and Download buttons. *)
Definition run_analysis_click : PageM unit := lift runCompleteAnalysis.
Definition download_stats_click : PageM unit :=
  lift (downloadStatisticsReal toISOString).

(** The code a bound handler runs; that of a foreign handler is not known
    here. *)
Definition handler_code (h : Handler) : option (PageM unit) :=
  match h with
  | ProvinceChange => Some province_change
  | LoadRegionClick => Some load_region_click
  | RunAnalysisClick => Some run_analysis_click
  | DownloadStatsClick => Some download_stats_click
  | Foreign _ => None
  end.

(** ** Properties of the handlers bound to the page *)

Definition handlers_of (element event : jsstring) (l : list Binding) : list Handler :=
  map bound_handler (filter (bound_to element event) l).

(** The four events the script binds. *)
Definition own_target (element event : jsstring) : bool :=
  jsstring_eqb element (lit "provinceSelect") && jsstring_eqb event (lit "change")
  || jsstring_eqb element (lit "loadRegion") && jsstring_eqb event (lit "click")
  || jsstring_eqb element (lit "runAnalysis") && jsstring_eqb event (lit "click")
  || jsstring_eqb element (lit "downloadStats") && jsstring_eqb event (lit "click").

Definition own_bindings : list Binding :=
  [{| bound_element := lit "provinceSelect"; bound_event := lit "change";
      bound_handler := ProvinceChange |};
   {| bound_element := lit "loadRegion"; bound_event := lit "click";
      bound_handler := LoadRegionClick |};
   {| bound_element := lit "runAnalysis"; bound_event := lit "click";
      bound_handler := RunAnalysisClick |};
   {| bound_element := lit "downloadStats"; bound_event := lit "click";
      bound_handler := DownloadStatsClick |}].

Definition foreign_bindings (l : list Binding) : list Binding :=
  filter (fun x => negb (own_target (bound_element x) (bound_event x))) l.

Lemma jsstring_eqb_sym (a b : jsstring) : jsstring_eqb a b = jsstring_eqb b a.
Proof.
  revert b. induction a as [|x a IH]; intros [|y b]; try reflexivity.
  simpl. rewrite IH, N.eqb_sym. reflexivity.
Qed.

Lemma off_off_off_off (l : list Binding) :
  filter (fun x => negb (bound_to (lit "downloadStats") (lit "click") x))
    (filter (fun x => negb (bound_to (lit "runAnalysis") (lit "click") x))
       (filter (fun x => negb (bound_to (lit "loadRegion") (lit "click") x))
          (filter (fun x => negb (bound_to (lit "provinceSelect") (lit "change") x))
             l)))
  = foreign_bindings l.
Proof.
  unfold foreign_bindings.
  induction l as [|x l IH]; [reflexivity|].
  cbn [filter]. unfold own_target at 1. fold (bound_to (lit "provinceSelect") (lit "change") x).
  fold (bound_to (lit "loadRegion") (lit "click") x).
  fold (bound_to (lit "runAnalysis") (lit "click") x).
  fold (bound_to (lit "downloadStats") (lit "click") x).
  destruct (bound_to (lit "provinceSelect") (lit "change") x); cbn [negb orb];
    [exact IH|]. cbn [filter].
  destruct (bound_to (lit "loadRegion") (lit "click") x); cbn [negb orb];
    [exact IH|]. cbn [filter].
  destruct (bound_to (lit "runAnalysis") (lit "click") x); cbn [negb orb];
    [exact IH|]. cbn [filter].
  destruct (bound_to (lit "downloadStats") (lit "click") x); cbn [negb orb];
    [exact IH|]. rewrite IH. reflexivity.
Qed.

Lemma rebind_step (element event : jsstring) (h : Handler) (rest : PageM unit)
  (b : Browser) :
  (off element event ;; on element event h ;; rest) b
  = rest (with_bindings
            (filter (fun x => negb (bound_to element event x)) (bindings b)
               ++ [{| bound_element := element; bound_event := event;
                      bound_handler := h |}]) b).
Proof. reflexivity. Qed.

Lemma rebind_last (element event : jsstring) (h : Handler) (b : Browser) :
  (off element event ;; on element event h) b
  = (Normal tt,
     with_bindings
       (filter (fun x => negb (bound_to element event x)) (bindings b)
          ++ [{| bound_element := element; bound_event := event;
                 bound_handler := h |}]) b).
Proof. reflexivity. Qed.

Lemma off_other (element event : jsstring) (l : list Binding) (x : Binding) :
  bound_to element event x = false ->
  filter (fun y => negb (bound_to element event y)) (l ++ [x])
  = filter (fun y => negb (bound_to element event y)) l ++ [x].
Proof. intros H. rewrite filter_app. cbn [filter]. rewrite H. reflexivity. Qed.

Lemma with_bindings_twice (l l' : list Binding) (b : Browser) :
  with_bindings l (with_bindings l' b) = with_bindings l b.
Proof. reflexivity. Qed.

Lemma bindings_with_bindings (l : list Binding) (b : Browser) :
  bindings (with_bindings l b) = l.
Proof. reflexivity. Qed.

Lemma updateEventHandlersForAPI_run (b : Browser) :
  updateEventHandlersForAPI b
  = (Normal tt, with_bindings (foreign_bindings (bindings b) ++ own_bindings) b).
Proof.
  unfold updateEventHandlersForAPI.
  rewrite !rebind_step, rebind_last.
  rewrite !with_bindings_twice, !bindings_with_bindings.
  rewrite <- off_off_off_off.
  repeat (rewrite off_other by reflexivity).
  repeat rewrite <- app_assoc. reflexivity.
Qed.

Lemma foreign_bindings_idempotent (l : list Binding) :
  foreign_bindings (foreign_bindings l) = foreign_bindings l.
Proof.
  unfold foreign_bindings. induction l as [|x l IH]; [reflexivity|].
  cbn [filter].
  destruct (own_target (bound_element x) (bound_event x)) eqn:O; cbn [negb];
    [exact IH|]. cbn [filter]. rewrite O. cbn [negb]. rewrite IH. reflexivity.
Qed.

Lemma foreign_bindings_of (element event : jsstring) (l : list Binding) :
  own_target element event = false ->
  filter (bound_to element event) (foreign_bindings l) = filter (bound_to element event) l.
Proof.
  intros O. unfold foreign_bindings. induction l as [|x l IH]; [reflexivity|].
  cbn [filter]. destruct (bound_to element event x) eqn:Bx.
  - unfold bound_to in Bx. apply andb_prop in Bx. destruct Bx as [E1 E2].
    apply jsstring_eqb_eq in E1. apply jsstring_eqb_eq in E2.
    rewrite E1, E2, O. cbn [negb filter]. unfold bound_to at 1.
    rewrite E1, E2, !jsstring_eqb_refl. cbn [andb]. rewrite IH. reflexivity.
  - destruct (own_target (bound_element x) (bound_event x)); cbn [negb filter];
      rewrite ?Bx; exact IH.
Qed.

Lemma foreign_bindings_own (element event : jsstring) (l : list Binding) :
  own_target element event = true ->
  filter (bound_to element event) (foreign_bindings l) = [].
Proof.
  intros O. unfold foreign_bindings. induction l as [|x l IH]; [reflexivity|].
  cbn [filter].
  destruct (own_target (bound_element x) (bound_event x)) eqn:Ox; cbn [negb];
    [exact IH|]. cbn [filter]. destruct (bound_to element event x) eqn:Bx; [|exact IH].
  unfold bound_to in Bx. apply andb_prop in Bx. destruct Bx as [E1 E2].
  apply jsstring_eqb_eq in E1. apply jsstring_eqb_eq in E2.
  rewrite E1, E2 in Ox. congruence.
Qed.

(** X18: after [updateEventHandlersForAPI], each of the four events of
    the script has exactly one handler, the one of the script, whatever
    was bound to it before; the handlers of every other event are as
    before; and running the function again changes nothing, so no handler
    ever fires twice. *)
Theorem handlers_bound_exactly_once (b : Browser) :
  let after := bindings (snd (updateEventHandlersForAPI b)) in
  handlers_of (lit "provinceSelect") (lit "change") after = [ProvinceChange] /\
  handlers_of (lit "loadRegion") (lit "click") after = [LoadRegionClick] /\
  handlers_of (lit "runAnalysis") (lit "click") after = [RunAnalysisClick] /\
  handlers_of (lit "downloadStats") (lit "click") after = [DownloadStatsClick] /\
  (forall element event,
      handlers_of element event after
      = if own_target element event
        then handlers_of element event own_bindings
        else handlers_of element event (bindings b)) /\
  bindings (snd (updateEventHandlersForAPI (snd (updateEventHandlersForAPI b))))
  = after.
Proof.
  intros after. subst after. rewrite !updateEventHandlersForAPI_run.
  cbn [snd with_bindings bindings]. unfold handlers_of.
  rewrite !filter_app, !foreign_bindings_own by reflexivity.
  repeat (split; [reflexivity|]). split.
  - intros element event. rewrite filter_app.
    destruct (own_target element event) eqn:O.
    + rewrite (foreign_bindings_own _ _ _ O). reflexivity.
    + rewrite (foreign_bindings_of _ _ _ O).
      assert (E : filter (bound_to element event) own_bindings = []).
      { unfold own_target in O. unfold own_bindings, bound_to.
        cbn [filter bound_element bound_event].
        rewrite (jsstring_eqb_sym (lit "provinceSelect")),
          (jsstring_eqb_sym (lit "change")), (jsstring_eqb_sym (lit "loadRegion")),
          (jsstring_eqb_sym (lit "click")), (jsstring_eqb_sym (lit "runAnalysis")),
          (jsstring_eqb_sym (lit "downloadStats")).
        destruct (jsstring_eqb element (lit "provinceSelect")
                  && jsstring_eqb event (lit "change"));
          [discriminate|].
        destruct (jsstring_eqb element (lit "loadRegion")
                  && jsstring_eqb event (lit "click"));
          [discriminate|].
        destruct (jsstring_eqb element (lit "runAnalysis")
                  && jsstring_eqb event (lit "click"));
          [discriminate|].
        destruct (jsstring_eqb element (lit "downloadStats")
                  && jsstring_eqb event (lit "click"));
          [discriminate|]. reflexivity. }
      rewrite E, app_nil_r. reflexivity.
  - unfold foreign_bindings at 1. rewrite filter_app.
    fold (foreign_bindings (foreign_bindings (bindings b))).
    fold (foreign_bindings own_bindings).
    rewrite foreign_bindings_idempotent.
    replace (foreign_bindings own_bindings) with (@nil Binding) by reflexivity.
    rewrite app_nil_r. reflexivity.
Qed.

(** ** Properties of the start-up *)

Definition health_call : AjaxSettings :=
  ajax_settings apiClient (lit "/health") no_options.

(** The reply to the health check tells that Earth Engine is up. *)
Definition connected (o : AjaxOutcome) : bool :=
  match o with
  | Resolved body => truthy (get_prop body (lit "ee_initialized"))
  | Rejected _ => false
  end.

(** The reply to the health check is a success without a body. *)
Definition bodiless (o : AjaxOutcome) : bool :=
  match o with
  | Resolved body => nullish body
  | Rejected _ => false
  end.

Definition verdict_alert (ok : bool) : Event :=
  if ok then EvShowAlert (lit "Connected to GEE Backend") (lit "success")
  else EvShowAlert (lit "Warning: Backend not connected. Using demo mode.")
         (lit "warning").

Definition verdict_console (ok : bool) : Line :=
  if ok then ConsoleLog ([10003%N] ++ lit " Backend connected and Earth Engine initialized")
  else ConsoleError ([10007%N] ++ lit " Backend connection failed").

Lemma lift_run {A} (m : M A) (b : Browser) (c : Completion A) (st' : State)
  (evs : list Event) :
  m (script b) = (c, st') -> trace st' = trace (script b) ++ evs ->
  lift m b
  = (c, {| script := st'; provinceSelect_val := provinceSelect_val b;
           citySelect_val := citySelect_val b;
           citySelect_disabled := citySelect_disabled b;
           bindings := bindings b;
           lines := lines b ++ map Effect evs |}).
Proof.
  intros E T. unfold lift, new_events. rewrite E. simpl fst. simpl snd.
  rewrite T, skipn_length_app. reflexivity.
Qed.
Arguments lift_run {A} m b [c st' evs] _ _.

Lemma ready_connection_test_run (b : Browser) :
  let st := script b in
  let o := network st (sent (trace st)) in
  let asked := request_events health_call o in
  let r := ready_connection_test b in
  if bodiless o then
    fst r = Throw (TypeError (lit "Cannot read properties of undefined or null")) /\
    script (snd r) = with_trace (trace st ++ asked) st /\
    lines (snd r) = lines b ++ map Effect asked
  else
    let st1 := with_trace (trace st ++ asked ++ [verdict_alert (connected o)]) st in
    fst r = match fst (loadProvincesFromAPI st1) with
            | Normal _ => Normal tt
            | Throw e => Throw e
            end /\
    script (snd r) = snd (loadProvincesFromAPI st1) /\
    lines (snd r)
    = lines b ++ map Effect asked
        ++ [verdict_console (connected o); Effect (verdict_alert (connected o))]
        ++ map Effect (new_events loadProvincesFromAPI st1).
Proof.
  intros st o asked r. subst r.
  destruct (ready_connection_test b) as [c b'] eqn:R.
  unfold ready_connection_test, healthCheck in R.
  unfold page_bind at 1 in R.
  rewrite (lift_run _ b (request_run apiClient (lit "/health") no_options (script b))
             eq_refl) in R.
  fold st o health_call asked in R.
  destruct o as [body|xhr] eqn:O; cbn [bodiless response_of success data] in *.
  - unfold page_bind at 1 in R. unfold member in R.
    destruct (nullish body) eqn:Z.
    + destruct body; try discriminate; injection R as <- <-; repeat split;
        cbn [snd lines]; unfold new_events, throw; cbn [snd];
        rewrite skipn_all, app_nil_r; reflexivity.
    + assert (E : forall b0 : Browser,
                 lift (match body with
                       | JUndefined | JNull =>
                           throw (TypeError (lit "Cannot read properties of undefined or null"))
                       | _ => ret (get_prop body (lit "ee_initialized"))
                       end) b0
                 = (Normal (get_prop body (lit "ee_initialized")),
                    with_lines (lines b0 ++ []) b0)).
      { intros b0. destruct body; try discriminate; unfold lift, new_events, ret;
          simpl; rewrite skipn_all; destruct b0; reflexivity. }
      rewrite E in R. cbn [connected].
      unfold page_bind, console_log, console_error_text,
        page_modify, page_ret, lift, showAlert, emit, modify, new_events, verdict_alert,
        verdict_console in *.
      destruct (truthy (get_prop body (lit "ee_initialized")));
        cbn [fst snd script lines with_lines with_trace trace] in R;
        rewrite ?app_nil_r, !skipn_length_app in R;
        repeat rewrite <- app_assoc in R;
        (destruct (loadProvincesFromAPI _) as [[v|e] st2] eqn:L;
         injection R as <- <-; cbn [fst snd script lines];
         repeat split; repeat rewrite <- app_assoc; reflexivity).
  - unfold page_bind, console_log, console_error_text,
      page_modify, page_ret, lift, showAlert, emit, modify, new_events, verdict_alert,
      verdict_console in *. cbn [connected truthy] in *.
    cbn [fst snd script lines with_lines with_trace trace] in R.
    rewrite ?app_nil_r, !skipn_length_app in R.
    repeat rewrite <- app_assoc in R.
    destruct (loadProvincesFromAPI _) as [[v|e] st2] eqn:L;
      injection R as <- <-; cbn [fst snd script lines];
      repeat split; repeat rewrite <- app_assoc; reflexivity.
Qed.

Definition new_lines {A} (m : PageM A) (b : Browser) : list Line :=
  skipn (List.length (lines b)) (lines (snd (m b))).

Lemma sent_request_events (call : AjaxSettings) (o : AjaxOutcome) :
  sent (request_events call o) = 1.
Proof. destruct o; reflexivity. Qed.

(** X19: at start-up the page tests the connection, says what it found
    and then loads the provinces.  The verdict is a success only when the
    health reply is a success whose body has a truthy [ee_initialized];
    every other reply with a body, and every failure, gives the warning.
    In both cases the provinces are requested next, so the province
    selector follows the second reply of the network: on a success it
    holds its placeholder and the options of the entries, up to the first
    entry whose code does not print.  A health reply
    that is a success without a body stops the start-up with a
    [TypeError]: no verdict is shown and the provinces are never
    requested. *)
Theorem start_up_tests_then_loads (b : Browser) :
  let st := script b in
  let o := network st (sent (trace st)) in
  let r := ready_connection_test b in
  let asked := map Effect (request_events health_call o) in
  if bodiless o then
    fst r = Throw (TypeError (lit "Cannot read properties of undefined or null")) /\
    new_lines ready_connection_test b = asked /\
    dom (script (snd r)) = dom st
  else
    exists loaded : list Event,
      new_lines ready_connection_test b
      = asked ++ [verdict_console (connected o); Effect (verdict_alert (connected o))]
          ++ map Effect loaded /\
      sent loaded = 1 /\
      calls_to (lit "/regions/provinces") loaded = 1 /\
      provinceSelect_html (dom (script (snd r)))
      = match network st (S (sent (trace st))) with
        | Resolved provinces =>
            province_placeholder
              ++ match object_entries provinces with
                 | Some entries => options_markup (printed entries)
                 | None => []
                 end
        | Rejected _ => provinceSelect_html (dom st)
        end.
Proof.
  intros st o r asked. subst r asked.
  pose proof (ready_connection_test_run b) as R. cbv zeta in R.
  fold st in R. fold o in R. unfold new_lines.
  destruct (bodiless o).
  - destruct R as (F & Sc & L). rewrite F, Sc, L, skipn_length_app. repeat split.
  - destruct R as (_ & Sc & L). rewrite Sc, L, skipn_length_app.
    set (st1 := with_trace
                  (trace st ++ request_events health_call o
                     ++ [verdict_alert (connected o)]) st) in *.
    exists (new_events loadProvincesFromAPI st1).
    split; [reflexivity|].
    destruct (loadProvinces_run st1) as (_ & T & D & _).
    assert (N : sent (trace st1) = S (sent (trace st))).
    { subst st1. unfold with_trace. cbn [trace].
      rewrite !sent_app, sent_request_events.
      destruct (connected o); simpl; lia. }
    rewrite N in T, D. change (network st1) with (network st) in T, D.
    change (dom st1) with (dom st) in D.
    rewrite (new_events_of_trace _ _ T), D.
    unfold loading_events, failure_alert, loaded_options.
    split; [|split].
    + rewrite sent_app. change (sent (EvShowLoading ?a ?c :: ?l)) with (sent l).
      rewrite sent_app, sent_request_events.
      destruct (network st (S (sent (trace st)))); [|destruct (prints _)];
        reflexivity.
    + rewrite calls_to_app.
      change (calls_to ?p (EvShowLoading ?a ?c :: ?l)) with (calls_to p l).
      rewrite calls_to_app, calls_request_events.
      destruct (network st (S (sent (trace st)))); [|destruct (prints _)];
        reflexivity.
    + destruct (network st (S (sent (trace st)))); destruct (dom st); reflexivity.
Qed.

(** ** Properties of the handlers *)


(** X21: a click on Load Region with no province selected shows a warning
    and sends nothing.  With a province selected it loads one region: the
    selected city, when a city is selected and is not the [use_province]
    option, else the selected province; the request goes to the geometry
    path with that endpoint and that code. *)
Theorem load_region_click_picks_the_region (b : Browser) :
  let st := script b in
  let r := load_region_click b in
  let loads (endpoint code : JsVal) :=
    let load := loadRegionGeometryFromAPI geoJSON_getBounds calculateAreaFromBounds
                  endpoint code in
    script (snd r) = snd (load st) /\
    new_lines load_region_click b = map Effect (new_events load st) /\
    calls_to (lit "/regions/geometry?endpoint=" ++ to_string endpoint
                ++ lit "&code=" ++ to_string code) (new_events load st) = 1 /\
    sent (new_events load st) = 1 in
  if truthy (provinceSelect_val b) then
    if truthy (citySelect_val b)
       && negb (is_string (citySelect_val b) (lit "use_province"))
    then loads (JStr (lit "city")) (citySelect_val b)
    else loads (JStr (lit "province")) (provinceSelect_val b)
  else
    script (snd r)
    = with_trace
        (trace st ++ [EvShowAlert (lit "Please select a province") (lit "warning")]) st /\
    new_lines load_region_click b
    = [Effect (EvShowAlert (lit "Please select a province") (lit "warning"))].
Proof.
  intros st r loads. subst r.
  assert (L : forall endpoint code,
             (if truthy (citySelect_val b)
                 && negb (is_string (citySelect_val b) (lit "use_province"))
              then (JStr (lit "city"), citySelect_val b)
              else (JStr (lit "province"), provinceSelect_val b)) = (endpoint, code) ->
             truthy (provinceSelect_val b) = true ->
             loads endpoint code).
  { intros endpoint code E P. subst loads. cbv beta zeta.
    unfold new_lines, load_region_click, page_bind, page_get. rewrite P, E.
    cbn [negb fst snd]. unfold lift, page_ret. fold st.
    destruct (loadRegionGeometryFromAPI geoJSON_getBounds calculateAreaFromBounds
                endpoint code st) as [[v|e] st'] eqn:R;
      cbn [fst snd script lines]; rewrite ?R; cbn [fst snd];
      (split; [reflexivity|]); (split; [apply skipn_length_app|]).
    all: assert (T : exists tail,
                   new_events (loadRegionGeometryFromAPI geoJSON_getBounds
                                 calculateAreaFromBounds endpoint code) st
                   = loading_events (lit "Loading region geometry...")
                       (lit "Fetching boundary data") (geometry_call endpoint code)
                       (network st (sent (trace st))) ++ tail /\
                   sent tail = 0 /\
                   forall path, calls_to path tail = 0).
    1,3: destruct (loadRegionGeometry_run geoJSON_getBounds calculateAreaFromBounds
                     endpoint code st) as (_ & T & _);
         rewrite (new_events_of_trace _ _ T); eexists;
         (split; [reflexivity|]); unfold geometry_branch, failure_alert;
         (destruct (network st (sent (trace st))) as [body|xhr];
          [destruct (truthy body)|destruct (prints _)]); repeat split.
    all: destruct T as (tail & -> & S0 & C0); unfold loading_events;
         rewrite sent_app, calls_to_app, S0, C0;
         change (sent (EvShowLoading ?x ?y :: ?l)) with (sent l);
         change (calls_to ?p (EvShowLoading ?x ?y :: ?l)) with (calls_to p l);
         rewrite sent_app, calls_to_app, sent_request_events, calls_request_events;
         change (ajax_url (geometry_call endpoint code))
           with (this_baseURL apiClient
                   ++ (lit "/regions/geometry?endpoint=" ++ to_string endpoint
                         ++ lit "&code=" ++ to_string code));
         rewrite jsstring_eqb_refl; split; reflexivity. }
  destruct (truthy (provinceSelect_val b)) eqn:P.
  - destruct (truthy (citySelect_val b)
              && negb (is_string (citySelect_val b) (lit "use_province"))) eqn:C;
      apply L; try reflexivity; rewrite ?C; reflexivity.
  - unfold new_lines, load_region_click, page_bind, page_get. rewrite P.
    cbn [negb]. unfold lift, new_events, showAlert, emit, modify.
    cbn [fst snd script lines]. unfold with_trace at 2 3. cbn [trace].
    rewrite !skipn_length_app. split; reflexivity.
Qed.

End Coverage.

(* ================================================================== *)
(** * Concrete runs *)
(* ================================================================== *)

#[local] Existing Instance int_number.

Definition sample_bounds : Bounds :=
  {| getWest := Some 106%Z; getSouth := Some (-8)%Z;
     getEast := Some 109%Z; getNorth := Some (-5)%Z |}.

(** An AOI whose name holds a run of two spaces and a tab. *)
Definition sample_aoi : AOI :=
  {| aoi_type := lit "admin";
     aoi_name := lit "Jawa  Barat" ++ [9%N] ++ lit "Kota Bandung";
     aoi_geometry := sample_bounds;
     aoi_area := JNum (Some 35378%Z);
     aoi_geojson := JUndefined |}.

Definition sample_dom (analysisType : jsstring) : Dom :=
  {| yearValue_text := lit "2023";
     startMonth_val := JStr (lit "6");
     endMonth_val := JStr (lit "9");
     cloudValue_text := lit "20";
     analysisType_val := JStr analysisType;
     dwMode_val := JStr (lit "mode");
     dynamicWorld_checked := true;
     esaWorld_checked := false;
     esriLand_checked := true;
     provinceSelect_selected_text := lit "Jawa Barat";
     citySelect_selected_text := [];
     provinceSelect_html := [];
     citySelect_html := [] |}.

Definition vegetation_reply : JsVal :=
  JObj [ (lit "indices", JObj [(lit "NDVI", JObj [(lit "mean", JNum (Some 1%Z))])]);
         (lit "rgb_tile_url", JStr (lit "https://earthengine.googleapis.com/map/1"));
         (lit "collection_size", JNum (Some 12%Z)) ].

Definition server_error : JqXHR :=
  {| responseJSON := JObj [(lit "error", JStr (lit "Computation timed out"))];
     statusText := lit "INTERNAL SERVER ERROR" |}.

(** A backend that answers the first call and fails every later one. *)
Definition first_call_only (n : nat) : AjaxOutcome :=
  match n with
  | O => Resolved vegetation_reply
  | S _ => Rejected server_error
  end.

(** A backend that is down. *)
Definition backend_down (n : nat) : AjaxOutcome := Rejected server_error.

(** A backend that answers every call with a success without a body. *)
Definition bodiless_backend (n : nat) : AjaxOutcome := Resolved JNull.

(** An error body whose [error] member is an object with a member named
    [toString], as [{"error": {"toString": 1}}] parses: the member hides
    the inherited method, and the object cannot be printed. *)
Definition unprintable_error : JqXHR :=
  {| responseJSON :=
       JObj [(lit "error", JObj [(lit "toString", JNum (Some 1%Z))])];
     statusText := lit "INTERNAL SERVER ERROR" |}.

Definition garbled_backend (n : nat) : AjaxOutcome := Rejected unprintable_error.

Definition page (aoi : option AOI) (analysisType : jsstring)
  (net : nat -> AjaxOutcome) : State :=
  {| currentAOI := aoi;
     analysisResults := JObj [];
     selectedIndices := JArr [JStr (lit "NDVI"); JStr (lit "EVI")];
     dom := sample_dom analysisType;
     drawnItems := [DrawnLayer sample_bounds];
     network := net;
     clock := fun n => (1700000000000 + Z.of_nat n)%Z;
     clock_reads := 0;
     object_url := fun _ => lit "blob:gee/0";
     trace := [] |}.

Definition sample_getBounds (geojson : JsVal) : Bounds := sample_bounds.
Definition sample_area (b : Bounds) : JsVal := JNum (Some 35378%Z).
Definition sample_toISOString (t : Z) : jsstring := lit "2023-11-14T22:13:20.000Z".

(** The request of a vegetation analysis, as it goes out. *)
Example vegetation_request_body :
  ajax_data (vegetation_call sample_aoi (sample_dom (lit "combined"))
               (JArr [JStr (lit "NDVI")]))
  = Some (lit "{" ++ dq ++ lit "aoi" ++ dq ++ lit ":{"
            ++ dq ++ lit "west" ++ dq ++ lit ":106,"
            ++ dq ++ lit "south" ++ dq ++ lit ":-8,"
            ++ dq ++ lit "east" ++ dq ++ lit ":109,"
            ++ dq ++ lit "north" ++ dq ++ lit ":-5},"
            ++ dq ++ lit "year" ++ dq ++ lit ":2023,"
            ++ dq ++ lit "start_month" ++ dq ++ lit ":6,"
            ++ dq ++ lit "end_month" ++ dq ++ lit ":9,"
            ++ dq ++ lit "cloud_threshold" ++ dq ++ lit ":20,"
            ++ dq ++ lit "indices" ++ dq ++ lit ":[" ++ dq ++ lit "NDVI" ++ dq ++ lit "]}").
Proof. reflexivity. Qed.

(** A failed request carries the [error] field of the JSON error body. *)
Example request_error_field :
  fst (request apiClient (lit "/health") no_options (page None (lit "combined") backend_down))
  = Normal {| success := false; data := JUndefined;
              error := JStr (lit "Computation timed out") |}.
Proof. reflexivity. Qed.

(** The name of the downloaded file. *)
Example download_name_sample :
  download_name (aoi_name sample_aoi) 1700000000001
  = lit "gee_analysis_Jawa_Barat_Kota_Bandung_1700000000001.json".
Proof. reflexivity. Qed.

(** The blob of a download is read back. *)
Example download_blob_sample :
  match JSON_stringify_2
          (stats_object (lit "2023-11-14T22:13:20.000Z") sample_aoi
             (sample_dom (lit "combined")) (JObj [(lit "landcover", JNull)]))
  with
  | Some blob =>
      match JSON_parse blob with
      | Some stats => get_prop stats (lit "region")
      | None => JUndefined
      end
  | None => JUndefined
  end = JStr (aoi_name sample_aoi).
Proof. reflexivity. Qed.

(** *** Witnesses: the theorems at concrete pages *)

Lemma composite_keeps_successful_results_witness :
  currentAOI (page (Some sample_aoi) (lit "combined") first_call_only) = Some sample_aoi /\
  analysisResults
    (snd (runCompleteAnalysis (page (Some sample_aoi) (lit "combined") first_call_only)))
  = JObj [(lit "vegetation", get_prop vegetation_reply (lit "indices"));
          (lit "rgb_tile_url", get_prop vegetation_reply (lit "rgb_tile_url"));
          (lit "collection_size", get_prop vegetation_reply (lit "collection_size"))] /\
  displayed
    (new_events runCompleteAnalysis (page (Some sample_aoi) (lit "combined") first_call_only))
  = true.
Proof.
  split; [reflexivity|].
  destruct (@composite_keeps_successful_results int_number
              (page (Some sample_aoi) (lit "combined") first_call_only) sample_aoi eq_refl)
    as (_ & _ & Scenario).
  exact (Scenario vegetation_reply server_error eq_refl eq_refl eq_refl eq_refl
           eq_refl).
Defined.

(** C2 does not hold as it is worded: a land-cover analysis whose request
    succeeds with an empty body completes with its success alert, yet the
    composite accumulates nothing and displays nothing. *)
Lemma composite_keeps_successful_results_counterexample :
  ~ (forall st : State,
       In (EvShowAlert (lit "Land cover analysis complete!") (lit "success"))
         (new_events runCompleteAnalysis st) ->
       displayed (new_events runCompleteAnalysis st) = true).
Proof.
  intros H. specialize (H (page (Some sample_aoi) (lit "landcover") bodiless_backend)).
  assert (E : displayed
                (new_events runCompleteAnalysis
                   (page (Some sample_aoi) (lit "landcover") bodiless_backend))
              = false) by reflexivity.
  rewrite E in H. discriminate H.
  simpl. repeat (first [left; reflexivity | right]).
Defined.



Lemma vegetation_resolved_before_landcover_witness :
  let st := page (Some sample_aoi) (lit "combined") first_call_only in
  let evs := new_events runCompleteAnalysis st in
  evs = firstn 6 evs ++ EvAjaxSend (landcover_call sample_aoi (dom st)) :: skipn 7 evs /\
  in_flight (firstn 6 evs) = 0 /\
  calls_to (lit "/analyze/vegetation") (skipn 7 evs) = 0.
Proof.
  intros st evs.
  assert (E : evs = firstn 6 evs ++ EvAjaxSend (landcover_call sample_aoi (dom st))
                      :: skipn 7 evs) by reflexivity.
  split; [exact E|].
  destruct (@vegetation_resolved_before_landcover int_number st _ _ _ E) as [F V].
  split; [exact F|]. apply V. reflexivity.
Defined.

Lemma vegetation_only_never_calls_landcover_witness :
  analysisType_val (dom (page (Some sample_aoi) (lit "vegetation") first_call_only))
  = JStr (lit "vegetation") /\
  calls_to (lit "/analyze/landcover")
    (new_events runCompleteAnalysis (page (Some sample_aoi) (lit "vegetation") first_call_only))
  = 0.
Proof.
  split; [reflexivity|].
  apply (@vegetation_only_never_calls_landcover int_number). reflexivity.
Defined.

Lemma no_aoi_aborts_with_warning_witness :
  currentAOI (page None (lit "combined") first_call_only) = None /\
  fst (runCompleteAnalysis (page None (lit "combined") first_call_only)) = Normal tt /\
  trace (snd (runCompleteAnalysis (page None (lit "combined") first_call_only)))
  = [EvShowAlert (lit "Please select an AOI first") (lit "warning")].
Proof.
  split; [reflexivity|].
  destruct (@no_aoi_aborts_with_warning int_number
              (page None (lit "combined") first_call_only) eq_refl)
    as (_ & _ & R & _).
  rewrite R. split; reflexivity.
Defined.

Lemma download_round_trips_witness :
  let st := page (Some sample_aoi) (lit "combined") first_call_only in
  currentAOI st = Some sample_aoi /\
  (Z.abs (clock st (S (clock_reads st))) <= 8640000000000000)%Z /\
  exists blob href stats,
    new_events (downloadStatisticsReal sample_toISOString) st
    = [EvCreateObjectURL blob (lit "application/json");
       EvDownload
         (lit "gee_analysis_" ++ underscore_runs (aoi_name sample_aoi) ++ lit "_"
            ++ decimal_of_Z (clock st (S (clock_reads st))) ++ lit ".json") href;
       EvRevokeObjectURL href;
       EvShowAlert (lit "Statistics downloaded successfully!") (lit "success")] /\
    JSON_parse blob = Some stats /\
    get_prop stats (lit "region") = JStr (aoi_name sample_aoi).
Proof.
  intros st.
  assert (T : (Z.abs (clock st (S (clock_reads st))) <= 8640000000000000)%Z)
    by (cbv; discriminate).
  split; [reflexivity|]. split; [exact T|].
  exact (@download_round_trips int_number sample_toISOString st sample_aoi eq_refl T).
Defined.

Lemma download_without_aoi_throws_witness :
  currentAOI (page None (lit "combined") first_call_only) = None /\
  exists message,
    fst (downloadStatisticsReal sample_toISOString (page None (lit "combined") first_call_only))
    = Throw (TypeError message).
Proof.
  split; [reflexivity|].
  exact (proj1 (@download_without_aoi_throws int_number sample_toISOString
                  (page None (lit "combined") first_call_only) eq_refl)).
Defined.

Lemma failed_geometry_load_keeps_aoi_and_layers_witness :
  let st := page (Some sample_aoi) (lit "combined") backend_down in
  match network st (sent (trace st)) with
  | Resolved body => truthy body = false
  | Rejected _ => True
  end /\
  fst (loadRegionGeometryFromAPI sample_getBounds sample_area
         (JStr (lit "province")) (JStr (lit "32")) st) = Normal JNull /\
  currentAOI (snd (loadRegionGeometryFromAPI sample_getBounds sample_area
                     (JStr (lit "province")) (JStr (lit "32")) st)) = currentAOI st /\
  drawnItems (snd (loadRegionGeometryFromAPI sample_getBounds sample_area
                     (JStr (lit "province")) (JStr (lit "32")) st)) = drawnItems st.
Proof.
  intros st. split; [exact I|].
  exact (@failed_geometry_load_keeps_aoi_and_layers int_number sample_getBounds
           sample_area (JStr (lit "province")) (JStr (lit "32")) st I).
Defined.

(** C10 does not hold of every failed request: when the error of the
    request cannot be printed, the load throws on the concatenation that
    builds its alert and returns nothing. *)
Lemma failed_geometry_load_keeps_aoi_and_layers_counterexample :
  ~ (forall st : State,
       match network st (sent (trace st)) with
       | Resolved body => truthy body = false
       | Rejected _ => True
       end ->
       fst (loadRegionGeometryFromAPI sample_getBounds sample_area
              (JStr (lit "province")) (JStr (lit "32")) st) = Normal JNull).
Proof.
  intros H. specialize (H (page (Some sample_aoi) (lit "combined") garbled_backend) I).
  assert (E : fst (loadRegionGeometryFromAPI sample_getBounds sample_area
                     (JStr (lit "province")) (JStr (lit "32"))
                     (page (Some sample_aoi) (lit "combined") garbled_backend))
              = Throw conversion_error) by reflexivity.
  rewrite E in H. discriminate.
Defined.

(** What the script does with replies that cannot be printed. *)

(** A reply whose second code is an object with a member named
    [toString]. *)
Definition odd_provinces_reply : JsVal :=
  JObj [(lit "Jawa Barat", JStr (lit "32"));
        (lit "Jawa Tengah", JObj [(lit "toString", JNull)]);
        (lit "Jawa Timur", JStr (lit "35"))].

Example load_stops_at_unprintable_code :
  let r := loadProvincesFromAPI
             (page None (lit "vegetation") (fun _ => Resolved odd_provinces_reply)) in
  fst r = Throw conversion_error /\
  provinceSelect_html (dom (snd r))
  = lit "<option value=" ++ dq ++ dq ++ lit ">-- Select Province --</option>"
      ++ lit "<option value=" ++ dq ++ lit "32" ++ dq ++ lit ">Jawa Barat</option>".
Proof. split; reflexivity. Qed.

Example vegetation_kept_when_landcover_throws :
  let st := page (Some sample_aoi) (lit "combined")
              (fun n => match n with
                        | O => Resolved vegetation_reply
                        | S _ => Rejected unprintable_error
                        end) in
  composite_throws st = true /\
  analysisResults (snd (runCompleteAnalysis st))
  = JObj [(lit "vegetation", get_prop vegetation_reply (lit "indices"));
          (lit "rgb_tile_url", get_prop vegetation_reply (lit "rgb_tile_url"));
          (lit "collection_size", get_prop vegetation_reply (lit "collection_size"))] /\
  displayed (new_events runCompleteAnalysis st) = false /\
  alerts (new_events runCompleteAnalysis st) = 2.
Proof. repeat split. Qed.

(** *** The page at start-up and under a click *)

Definition provinces_reply : JsVal :=
  JObj [(lit "Jawa Barat", JStr (lit "32")); (lit "Jawa Tengah", JStr (lit "33"))].

(** A backend that lists two provinces and one that sends back a
    boundary. *)
Definition provinces_backend (n : nat) : AjaxOutcome := Resolved provinces_reply.
Definition boundary_reply : JsVal := JObj [(lit "type", JStr (lit "FeatureCollection"))].
Definition boundary_backend (n : nat) : AjaxOutcome := Resolved boundary_reply.

(** A page on which another script has bound its own handler to the
    province selector. *)
Definition sample_browser (net : nat -> AjaxOutcome) : Browser :=
  {| script := page None (lit "vegetation") net;
     provinceSelect_val := JStr (lit "32");
     citySelect_val := JStr (lit "use_province");
     citySelect_disabled := true;
     bindings := [{| bound_element := lit "provinceSelect";
                     bound_event := lit "change";
                     bound_handler := Foreign 0 |}];
     lines := [] |}.

(** With the backend down, the start-up warns and still asks for the
    provinces. *)
Example start_up_backend_down :
  lines (snd (ready_connection_test (sample_browser backend_down)))
  = [Effect (EvAjaxSend health_call);
     Effect (EvAjaxSettle (Rejected server_error));
     Effect (EvConsoleError (lit "API Request Error:") (AjaxError server_error));
     ConsoleError ([10007%N] ++ lit " Backend connection failed");
     Effect (EvShowAlert (lit "Warning: Backend not connected. Using demo mode.")
               (lit "warning"));
     Effect (EvShowLoading (lit "Loading provinces...") (lit "Fetching data from server"));
     Effect (EvAjaxSend provinces_call);
     Effect (EvAjaxSettle (Rejected server_error));
     Effect (EvConsoleError (lit "API Request Error:") (AjaxError server_error));
     Effect EvHideLoading;
     Effect (EvShowAlert (lit "Failed to load provinces: Computation timed out")
               (lit "danger"))].
Proof. reflexivity. Qed.

(** With the [use_province] option selected, a click on Load Region asks
    for the boundary of the province. *)
Example load_region_use_province :
  map ajax_url
    (flat_map (fun l => match l with Effect (EvAjaxSend s) => [s] | _ => [] end)
       (lines (snd (load_region_click sample_getBounds sample_area
                      (sample_browser boundary_backend)))))
  = [lit "http://localhost:5000/api/regions/geometry?endpoint=province&code=32"].
Proof. reflexivity. Qed.

(** The handler of the other script is gone once the script has bound its
    own. *)
Example foreign_handler_unbound :
  map bound_handler
    (bindings (snd (updateEventHandlersForAPI (sample_browser backend_down))))
  = [ProvinceChange; LoadRegionClick; RunAnalysisClick; DownloadStatsClick].
Proof. reflexivity. Qed.

(** *** Witnesses of the further properties *)

Lemma selectors_rebuilt_from_reply_witness :
  let st := page None (lit "vegetation") provinces_backend in
  network st (sent (trace st)) = Resolved provinces_reply /\
  object_entries provinces_reply
  = Some [(lit "Jawa Barat", JStr (lit "32")); (lit "Jawa Tengah", JStr (lit "33"))] /\
  provinceSelect_html (dom (snd (loadProvincesFromAPI st)))
  = province_placeholder
      ++ options_markup
           [(lit "Jawa Barat", JStr (lit "32")); (lit "Jawa Tengah", JStr (lit "33"))].
Proof.
  intros st. split; [reflexivity|]. split; [reflexivity|].
  exact (proj1 (proj2 (proj1
           (@selectors_rebuilt_from_reply int_number (JStr (lit "32")) st
              provinces_reply _ eq_refl eq_refl)))).
Defined.

Lemma failed_load_keeps_selectors_witness :
  let st := page None (lit "vegetation") backend_down in
  network st (sent (trace st)) = Rejected server_error /\
  fst (loadCitiesFromAPI (JStr (lit "32")) st) = Normal (JObj []) /\
  dom (snd (loadCitiesFromAPI (JStr (lit "32")) st)) = dom st.
Proof.
  intros st. split; [reflexivity|].
  destruct (@failed_load_keeps_selectors int_number (JStr (lit "32")) st server_error
              eq_refl) as (_ & R & D & _).
  split; [exact R|exact D].
Defined.

Lemma null_reply_breaks_load_witness :
  let st := page None (lit "vegetation") bodiless_backend in
  network st (sent (trace st)) = Resolved JNull /\
  nullish JNull = true /\
  fst (loadProvincesFromAPI st)
  = Throw (TypeError (lit "Cannot convert undefined or null to object")) /\
  alerts (new_events loadProvincesFromAPI st) = 0.
Proof.
  intros st. split; [reflexivity|]. split; [reflexivity|].
  destruct (@null_reply_breaks_load int_number (JStr (lit "32")) st JNull
              eq_refl eq_refl) as ((R & _ & _ & A) & _).
  split; [exact R|exact A].
Defined.

Lemma loaded_region_replaces_aoi_witness :
  let st := page (Some sample_aoi) (lit "vegetation") boundary_backend in
  network st (sent (trace st)) = Resolved boundary_reply /\
  truthy boundary_reply = true /\
  drawnItems (snd (loadRegionGeometryFromAPI sample_getBounds sample_area
                     (JStr (lit "province")) (JStr (lit "32")) st))
  = [GeoJsonLayer boundary_reply].
Proof.
  intros st. split; [reflexivity|]. split; [reflexivity|].
  exact (proj1 (proj2
           (@loaded_region_replaces_aoi int_number sample_getBounds sample_area
              (JStr (lit "province")) (JStr (lit "32")) st boundary_reply
              eq_refl eq_refl))).
Defined.

Lemma failure_text_reaches_the_user_witness :
  let st := page (Some sample_aoi) (lit "combined") backend_down in
  currentAOI st = Some sample_aoi /\
  network st (sent (trace st)) = Rejected server_error /\
  In (EvShowAlert (lit "Vegetation analysis failed: " ++ failure_text server_error)
        (lit "danger"))
    (new_events runVegetationAnalysisAPI st).
Proof.
  intros st. split; [reflexivity|]. split; [reflexivity|].
  destruct (@failure_text_reaches_the_user int_number sample_getBounds sample_area
              (JStr (lit "32")) (JStr (lit "province")) (JStr (lit "32")) st
              sample_aoi server_error eq_refl eq_refl eq_refl)
    as (_ & _ & _ & (V & _) & _).
  exact V.
Defined.

Lemma null_vegetation_reply_aborts_composite_witness :
  let st := page (Some sample_aoi) (lit "combined") bodiless_backend in
  currentAOI st = Some sample_aoi /\
  runs_vegetation (analysisType_val (dom st)) = true /\
  network st (sent (trace st)) = Resolved JNull /\
  nullish JNull = true /\
  fst (runCompleteAnalysis st) = Normal tt /\
  sent (new_events runCompleteAnalysis st) = 1.
Proof.
  intros st. do 4 (split; [reflexivity|]).
  destruct (@null_vegetation_reply_aborts_composite int_number st sample_aoi JNull
              eq_refl eq_refl eq_refl eq_refl) as (R & _ & _ & N).
  split; [exact R|exact N].
Defined.

Lemma unknown_analysis_type_clears_results_witness :
  let st := with_analysisResults vegetation_reply
              (page (Some sample_aoi) (lit "timeseries") first_call_only) in
  currentAOI st = Some sample_aoi /\
  runs_vegetation (analysisType_val (dom st)) = false /\
  runs_landcover (analysisType_val (dom st)) = false /\
  new_events runCompleteAnalysis st = [] /\
  analysisResults (snd (runCompleteAnalysis st)) = JObj [].
Proof.
  intros st. do 3 (split; [reflexivity|]).
  exact (@unknown_analysis_type_clears_results int_number st sample_aoi
           eq_refl eq_refl eq_refl).
Defined.

Lemma composite_calls_each_endpoint_once_witness :
  let st := page (Some sample_aoi) (lit "combined") first_call_only in
  currentAOI st = Some sample_aoi /\
  calls_to (lit "/analyze/vegetation") (new_events runCompleteAnalysis st) = 1 /\
  calls_to (lit "/analyze/landcover") (new_events runCompleteAnalysis st) = 1 /\
  sent (new_events runCompleteAnalysis st) = 2.
Proof.
  intros st. split; [reflexivity|].
  exact (@composite_calls_each_endpoint_once int_number st sample_aoi eq_refl).
Defined.

Lemma download_exports_the_page_witness :
  let st := page (Some sample_aoi) (lit "combined") first_call_only in
  currentAOI st = Some sample_aoi /\
  exists (blob name href : jsstring) (stats : JsVal),
    new_events (downloadStatisticsReal sample_toISOString) st
    = download_events blob name href /\
    JSON_parse blob = Some stats /\
    get_prop stats (lit "year") = JStr (lit "2023").
Proof.
  intros st. split; [reflexivity|].
  destruct (@download_exports_the_page int_number sample_toISOString st sample_aoi
              eq_refl) as (blob & name & href & stats & E & P & _ & _ & Y & _).
  exists blob, name, href, stats. split; [exact E|]. split; [exact P|exact Y].
Defined.

Lemma download_after_analysis_exports_its_results_witness :
  let st := page (Some sample_aoi) (lit "vegetation") first_call_only in
  currentAOI st = Some sample_aoi /\
  exists (blob name href : jsstring) (stats : JsVal),
    new_events (downloadStatisticsReal sample_toISOString)
      (snd (runCompleteAnalysis st))
    = download_events blob name href /\
    JSON_parse blob = Some stats /\
    get_prop stats (lit "results") = json_image (composite_results st).
Proof.
  intros st. split; [reflexivity|].
  exact (@download_after_analysis_exports_its_results int_number sample_toISOString
           st sample_aoi eq_refl).
Defined.

Lemma download_name_has_no_white_space_witness :
  let st := page (Some sample_aoi) (lit "combined") first_call_only in
  currentAOI st = Some sample_aoi /\
  (Z.abs (clock st (S (clock_reads st))) <= 8640000000000000)%Z /\
  exists blob name href : jsstring,
    new_events (downloadStatisticsReal sample_toISOString) st
    = download_events blob name href /\
    no_whitespace name = true.
Proof.
  intros st.
  assert (T : (Z.abs (clock st (S (clock_reads st))) <= 8640000000000000)%Z)
    by (cbv; discriminate).
  split; [reflexivity|]. split; [exact T|].
  destruct (@download_name_has_no_white_space int_number sample_toISOString st
              sample_aoi eq_refl T) as (blob & name & href & E & W & _).
  exists blob, name, href. split; [exact E|exact W].
Defined.
